(** * Moodify: the multi-provider music-discovery pipeline

    A shallow embedding of the query-interpretation, per-provider search,
    scoring/ranking and merge/dedupe code of the repository:

    - [Js]          the JavaScript string and array primitives the code uses;
    - [Effect]      calls that return or throw, over the state of a service;
    - [Spotify]     [SpotifyService] (lib/spotify.ts);
    - [YouTube]     [YouTubeService] (src/lib/youtube.ts);
    - [SoundCloud]  [SoundCloudService] (lib/soundcloud.ts);
    - [Unified]     [UnifiedMusicService], the aggregator;
    - [Observed]    what a run of the aggregator shows, phase by phase;
    - [Scenario]    concrete inputs;
    - [Filters]     what the filters of the adapters leave true of a track;
    - [Iso8601]     the duration of a video ([parseISO8601Duration]);
    - [Smart]       provider status and [smartSearch] of the aggregator;
    - [RateLimit]   the rate limiter the routes share;
    - [Http]        what the routes read from a request;
    - [YouTubeRoute], [SpotifyRoute], [UnifiedRoute]  the search routes;
    - [Sample]      more concrete inputs.

    Strings are byte strings; [toLowerCase] and the whitespace class are the
    ASCII ones (every keyword table of the source is ASCII): on a string
    with a letter outside ASCII, which JavaScript lower-cases as Unicode
    says, [toLowerCase] here leaves that letter as it is, and what is
    proved of a concrete title or artist is proved of ASCII ones.  The
    searches the fallback starts together settle in the order of their
    latencies, each no later than its timeout.  Numbers that
    the source only adds, compares and divides are integers or rationals;
    the scores that take a logarithm are real numbers.  Network calls, the
    clock and the random generator are inputs supplied by a [World], so
    that every function of the source is a function here; a date string
    carries the instant it denotes. *)

From Stdlib Require Import String Ascii List Bool ZArith QArith Qabs Qminmax Qround Lia.
From Stdlib Require Import DecimalString.
From Stdlib Require Import Reals Lra.
From Stdlib Require Import Permutation Sorted.
From Stdlib Require Lqa.
Import ListNotations.

Open Scope list_scope.
Open Scope string_scope.

(* ================================================================== *)
(** ** JavaScript primitives *)

Module Js.

(** [c.toLowerCase()] on one ASCII character; another byte is left as it
    is. *)
Definition lowerAscii (c : ascii) : ascii :=
  let n := nat_of_ascii c in
  if (65 <=? n)%nat && (n <=? 90)%nat then ascii_of_nat (n + 32) else c.

(** [s.toLowerCase()] for a string of ASCII characters.  JavaScript also
    lower-cases the letters outside ASCII (["É"], the Kelvin sign), which
    are left unchanged here. *)
Fixpoint toLowerCase (s : string) : string :=
  match s with
  | EmptyString => EmptyString
  | String c rest => String (lowerAscii c) (toLowerCase rest)
  end.

(** [s.includes(sub)]: [sub] occurs in [s] at some position. *)
Fixpoint includes (s sub : string) : bool :=
  String.prefix sub s ||
  match s with
  | EmptyString => false
  | String _ rest => includes rest sub
  end.

(** [s.endsWith(suffix)] *)
Fixpoint endsWith (s suffix : string) : bool :=
  String.eqb s suffix ||
  match s with
  | EmptyString => false
  | String _ rest => endsWith rest suffix
  end.

(** [s.split(sep)] for a one-character separator: the pieces between the
    occurrences of [sep], empty pieces included; never the empty list. *)
Fixpoint splitOn (sep : ascii) (s : string) : list string :=
  match s with
  | EmptyString => [EmptyString]
  | String c rest =>
      if Ascii.eqb c sep then EmptyString :: splitOn sep rest
      else match splitOn sep rest with
           | [] => [String c EmptyString]
           | piece :: pieces => String c piece :: pieces
           end
  end.

(** The regular-expression class [\s], restricted to ASCII. *)
Definition isSpace (c : ascii) : bool :=
  let n := nat_of_ascii c in
  (n =? 32)%nat || ((9 <=? n)%nat && (n <=? 13)%nat).

(** [s.split(/\s+/)]: a maximal run of white space is one separator. *)
Fixpoint splitSpaces (s : string) : list string :=
  match s with
  | EmptyString => [EmptyString]
  | String c rest =>
      if isSpace c then
        match rest with
        | String d _ => if isSpace d then splitSpaces rest
                        else EmptyString :: splitSpaces rest
        | EmptyString => EmptyString :: splitSpaces rest
        end
      else match splitSpaces rest with
           | [] => [String c EmptyString]
           | piece :: pieces => String c piece :: pieces
           end
  end.

(** [arr[0]] of a split result. *)
Definition first (pieces : list string) : string :=
  match pieces with
  | [] => EmptyString
  | piece :: _ => piece
  end.

(** [words.join(' ')] *)
Fixpoint join (sep : string) (words : list string) : string :=
  match words with
  | [] => EmptyString
  | [w] => w
  | w :: rest => w ++ sep ++ join sep rest
  end.

(** [arr[i]] in a template string: ["undefined"] out of range. *)
Definition at_ (arr : list string) (i : Z) : string :=
  if (i <? 0)%Z then "undefined" else nth (Z.to_nat i) arr "undefined".

(** [Math.log10], on real numbers. *)
Definition log10 (x : R) : R := (ln x / ln 10)%R.

(** Truthiness of a string: only the empty string is falsy. *)
Definition truthy (s : string) : bool :=
  match s with EmptyString => false | _ => true end.

(** [a || b] on strings. *)
Definition orElse (a b : string) : string := if truthy a then a else b.

(** [keywords.some(keyword => input.includes(keyword))] *)
Definition someIncluded (input : string) (keywords : list string) : bool :=
  existsb (fun keyword => includes input keyword) keywords.

(** [arr.includes(x)] on an array of strings. *)
Definition arrayIncludes (arr : list string) (x : string) : bool :=
  existsb (String.eqb x) arr.

(** A keyword table: the [Object.entries] of an object literal, in the
    order the literal declares its keys. *)
Definition Table := list (string * list string).

(** The detection loop
    [for (const [name, keywords] of Object.entries(table))
       if (keywords.some(k => input.includes(k))) { detected = name; break; }]
    started from [detected = initial]. *)
Fixpoint detect (table : Table) (input initial : string) : string :=
  match table with
  | [] => initial
  | (name, keywords) :: rest =>
      if someIncluded input keywords then name else detect rest input initial
  end.

(** No keyword of any category of [table] occurs in [input]. *)
Definition noCategoryMatches (table : Table) (input : string) : bool :=
  forallb (fun entry => negb (someIncluded input (snd entry))) table.

(** [s.trim()], with the ASCII white-space class. *)
Fixpoint trimStart (s : string) : string :=
  match s with
  | EmptyString => EmptyString
  | String c rest => if isSpace c then trimStart rest else s
  end.

Fixpoint trimEnd (s : string) : string :=
  match s with
  | EmptyString => EmptyString
  | String c rest =>
      match trimEnd rest with
      | EmptyString => if isSpace c then EmptyString else String c EmptyString
      | rest' => String c rest'
      end
  end.

Definition trim (s : string) : string := trimEnd (trimStart s).

(** [`${n}`] for an integer [n]. *)
Definition showInt (n : Z) : string :=
  NilEmpty.string_of_int (Z.to_int n).

(** [arr.sort((a, b) => cmp(a, b))] for a comparator that is a
    consistent ordering: the sort is stable, so [a], standing before [b]
    in the array, stays before it exactly when [cmp(a, b) <= 0], which is
    what [precedes a b] decides. *)
Fixpoint insertSorted {A : Type} (precedes : A -> A -> bool) (a : A)
    (sorted : list A) : list A :=
  match sorted with
  | [] => [a]
  | b :: rest =>
      if precedes a b then a :: sorted
      else b :: insertSorted precedes a rest
  end.

Fixpoint sort {A : Type} (precedes : A -> A -> bool) (arr : list A) : list A :=
  match arr with
  | [] => []
  | a :: rest => insertSorted precedes a (sort precedes rest)
  end.

(** [arr.slice(0, n)]; a negative [n] counts from the end of the array. *)
Definition slice0 {A : Type} (n : Z) (arr : list A) : list A :=
  if (0 <=? n)%Z then firstn (Z.to_nat n) arr
  else firstn (length arr - Z.to_nat (- n)) arr.

(** [arr.map((x, index) => f(x, index))] *)
Fixpoint mapIndexFrom {A B : Type} (f : A -> nat -> B) (start : nat)
    (arr : list A) : list B :=
  match arr with
  | [] => []
  | x :: rest => f x start :: mapIndexFrom f (S start) rest
  end.

Definition mapIndex {A B : Type} (f : A -> nat -> B) (arr : list A) : list B :=
  mapIndexFrom f 0 arr.

(** [arr.filter((x, index) => keep(x, index))] *)
Fixpoint filterIndexFrom {A : Type} (keep : A -> nat -> bool) (start : nat)
    (arr : list A) : list A :=
  match arr with
  | [] => []
  | x :: rest =>
      if keep x start then x :: filterIndexFrom keep (S start) rest
      else filterIndexFrom keep (S start) rest
  end.

Definition filterIndex {A : Type} (keep : A -> nat -> bool) (arr : list A) : list A :=
  filterIndexFrom keep 0 arr.

(** [arr.findIndex(p)]: the index of the first element satisfying [p],
    [-1] when there is none. *)
Fixpoint findIndexFrom {A : Type} (p : A -> bool) (start : nat)
    (arr : list A) : Z :=
  match arr with
  | [] => (-1)%Z
  | x :: rest => if p x then Z.of_nat start else findIndexFrom p (S start) rest
  end.

Definition findIndex {A : Type} (p : A -> bool) (arr : list A) : Z :=
  findIndexFrom p 0 arr.

(** The de-duplication idiom of the source,
    [arr.filter((x, index, arr) =>
       arr.findIndex(y => key(y) === key(x)) === index)]. *)
Definition uniqueBy {A : Type} (key : A -> string) (arr : list A) : list A :=
  filterIndex
    (fun x index =>
       (findIndex (fun y => String.eqb (key y) (key x)) arr =? Z.of_nat index)%Z)
    arr.

End Js.

(* ================================================================== *)
(** ** Calls that return or throw, over the state of a service *)

Module Effect.

(** An [async] call settles: it returns a value or throws an [Error]
    with a message. *)
Inductive Outcome (A : Type) :=
| Returns (value : A)
| Throws (message : string).
Arguments Returns {A} value.
Arguments Throws {A} message.

(** A computation over a mutable state [S]. *)
Definition M (S A : Type) : Type := S -> Outcome A * S.

Definition ret {S A : Type} (a : A) : M S A := fun s => (Returns a, s).

Definition throw {S A : Type} (message : string) : M S A :=
  fun s => (Throws message, s).

Definition bind {S A B : Type} (m : M S A) (k : A -> M S B) : M S B :=
  fun s => match m s with
           | (Returns a, s') => k a s'
           | (Throws message, s') => (Throws message, s')
           end.

(** [try { m } catch (error) { handler(error.message) }] *)
Definition tryCatch {S A : Type} (m : M S A) (handler : string -> M S A) : M S A :=
  fun s => match m s with
           | (Returns a, s') => (Returns a, s')
           | (Throws message, s') => handler message s'
           end.

Definition get {S : Type} : M S S := fun s => (Returns s, s).

Definition modify {S : Type} (f : S -> S) : M S unit := fun s => (Returns tt, f s).

(** The result of a run, and the state it leaves. *)
Definition result {S A : Type} (run : Outcome A * S) : Outcome A := fst run.
Definition final {S A : Type} (run : Outcome A * S) : S := snd run.

(** A remote call either rejects (no answer, or a body that cannot be
    read), or answers with a status that is not [ok], or answers [ok]
    with a body. *)
Inductive Fetch (A : Type) :=
| FetchRejects
| FetchNotOk (status : Z)
| FetchOk (body : A).
Arguments FetchRejects {A}.
Arguments FetchNotOk {A} status.
Arguments FetchOk {A} body.

(** A date string, with the instant [new Date(text).getTime()] gives for
    it in milliseconds; [None] is the invalid date. *)
Record DateString := {
  text : string;
  getTime : option Z
}.

Definition noDate : DateString := {| text := ""; getTime := None |}.

End Effect.

Declare Scope effect_scope.
Delimit Scope effect_scope with effect.
Notation "x <- m ;; k" := (Effect.bind m (fun x => k))
  (at level 61, m at next level, right associativity) : effect_scope.
Notation "m ;;; k" := (Effect.bind m (fun _ => k))
  (at level 61, right associativity) : effect_scope.
Open Scope effect_scope.

(* ================================================================== *)
(** ** The Spotify adapter *)

Module Spotify.
Import Js Effect.

Inductive Energy := EnergyLow | EnergyMedium | EnergyHigh.
Inductive Valence := ValenceNegative | ValenceNeutral | ValencePositive.

Record ParsedInput := {
  vibe : string;
  environment : string;
  speed : string;
  energy : Energy;
  valence : Valence;
  genre : string
}.

Definition environments : Table :=
  [ ("gym", ["gym"; "workout"; "fitness"; "training"; "exercise"]);
    ("study", ["study"; "focus"; "concentration"; "work"; "office"]);
    ("party", ["party"; "dance"; "club"; "celebration"; "rave"]);
    ("sleep", ["sleep"; "bedtime"; "night"; "relax"; "calm"]);
    ("drive", ["drive"; "car"; "road"; "travel"; "cruise"]);
    ("cafe", ["cafe"; "coffee"; "background"; "ambient"]) ].

Definition speedPatterns : Table :=
  [ ("slow", ["slow"; "chill"; "relaxed"; "mellow"; "downtempo"; "peaceful"]);
    ("medium", ["medium"; "moderate"; "steady"; "groove"; "normal"]);
    ("fast", ["fast"; "upbeat"; "energetic"; "high tempo"; "uptempo"; "intense"]) ].

Definition vibePatterns : Table :=
  [ ("sad", ["sad"; "melancholy"; "depressing"; "emotional"; "crying"; "heartbreak"]);
    ("happy", ["happy"; "joyful"; "cheerful"; "positive"; "uplifting"; "excited"]);
    ("chill", ["chill"; "lofi"; "calm"; "peaceful"; "zen"; "ambient"]);
    ("energetic", ["energetic"; "hype"; "pump"; "motivational"; "power"; "intense"]);
    ("romantic", ["romantic"; "love"; "heart"; "valentine"; "couple"; "intimate"]);
    ("dark", ["dark"; "gothic"; "moody"; "atmospheric"; "mysterious"]) ].

Definition genreKeywords : Table :=
  [ ("electronic", ["electronic"; "edm"; "house"; "techno"; "dubstep"]);
    ("hip-hop", ["hip hop"; "rap"; "trap"; "hip-hop"]);
    ("rock", ["rock"; "metal"; "punk"; "alternative"]);
    ("pop", ["pop"; "mainstream"; "chart"]);
    ("jazz", ["jazz"; "swing"; "blues"]);
    ("classical", ["classical"; "orchestra"; "symphony"]);
    ("folk", ["folk"; "country"; "acoustic"]);
    ("r&b", ["r&b"; "soul"; "funk"]);
    ("indie", ["indie"; "independent"; "underground"]) ].

Definition parseInput (vibeInput : string) : ParsedInput :=
  let input := toLowerCase vibeInput in
  let detectedEnvironment := detect environments input "" in
  let detectedSpeed := detect speedPatterns input "medium" in
  let detectedVibe := detect vibePatterns input "" in
  let energy :=
    if String.eqb detectedSpeed "fast" then EnergyHigh
    else if String.eqb detectedSpeed "slow" then EnergyLow
    else EnergyMedium in
  let valence :=
    if arrayIncludes ["sad"; "dark"] detectedVibe then ValenceNegative
    else if arrayIncludes ["happy"; "energetic"] detectedVibe then ValencePositive
    else ValenceNeutral in
  let genre := detect genreKeywords input "" in
  {| vibe := orElse detectedVibe (first (splitOn " " vibeInput));
     environment := detectedEnvironment;
     speed := detectedSpeed;
     energy := energy;
     valence := valence;
     genre := genre |}.

(** *** The search *)

(** The body of the token endpoint. *)
Record TokenData := {
  access_token : string;
  expires_in : Z
}.

(** One element of [data.tracks.items], as the catalog sends it; a field
    that may be missing or [null] is an [option]. *)
Record Album := {
  album_name : option string;
  album_images : list string;
  album_genres : option (list string);
  album_release_date : option DateString
}.

Record Item := {
  item_id : string;
  item_name : option string;
  item_artists : option (list string);
  item_album : option Album;
  item_duration_ms : option Z;
  item_preview_url : option string;
  item_spotify_url : option string;
  item_popularity : option Z
}.

(** [SpotifyAudioFeatures]; the numbers are rationals, the arithmetic of
    the score is exact. *)
Record SpotifyAudioFeatures := {
  danceability : Q;
  af_energy : Q;
  key : Q;
  loudness : Q;
  mode : Q;
  speechiness : Q;
  acousticness : Q;
  instrumentalness : Q;
  liveness : Q;
  af_valence : Q;
  tempo : Q;
  timeSignature : Q
}.

Record SpotifyTrack := {
  id : string;
  title : string;
  artist : string;
  album : string;
  duration : Z;
  thumbnail : string;
  previewUrl : string;
  spotifyUrl : string;
  popularity : Z;
  releaseDate : DateString;
  genres : list string;
  audioFeatures : option SpotifyAudioFeatures
}.

Record SpotifyResponse := {
  tracks : list SpotifyTrack;
  totalResults : Z
}.

(** What the outside gives to one call of the adapter; the clock is read
    as one instant for the whole call. *)
Record World := {
  dateNow : Z;                 (* [Date.now()], in milliseconds *)
  fullYear : Z;                (* [new Date().getFullYear()] *)
  tokenEndpoint : Fetch TokenData;
  searchEndpoint : string -> Fetch (option (list Item));
                               (* by query; the body is [data.tracks?.items] *)
  audioFeaturesEndpoint : list string -> Fetch (option (list (option SpotifyAudioFeatures)))
                               (* by ids; the body is [data.audio_features] *)
}.

(** The requests the adapter sends, in order. *)
Inductive Request :=
| TokenRequest
| SearchRequest (q : string)
| AudioFeaturesRequest (ids : list string).

(** The fields of the service object, and the requests sent so far. *)
Record Service := {
  clientId : string;
  clientSecret : string;
  accessToken : option string;
  tokenExpiry : Z;
  sent : list Request
}.

Definition send (r : Request) : M Service unit :=
  modify (fun s =>
            {| clientId := clientId s; clientSecret := clientSecret s;
               accessToken := accessToken s; tokenExpiry := tokenExpiry s;
               sent := (sent s ++ [r])%list |}).

Definition setToken (token : string) (expiry : Z) : M Service unit :=
  modify (fun s =>
            {| clientId := clientId s; clientSecret := clientSecret s;
               accessToken := Some token; tokenExpiry := expiry;
               sent := sent s |}).

Section Adapter.
Variable world : World.

(** The cached token, when there is one and it has not expired:
    [this.accessToken && Date.now() < this.tokenExpiry]. *)
Definition cachedToken (s : Service) : option string :=
  match accessToken s with
  | Some token =>
      if truthy token && (dateNow world <? tokenExpiry s)%Z
      then Some token else None
  | None => None
  end.

Definition getAccessToken : M Service string :=
  s <- get ;;
  match cachedToken s with
  | Some token => ret token
  | None =>
      if negb (truthy (clientId s)) || negb (truthy (clientSecret s))
      then throw "Spotify credentials not configured"
      else
        tryCatch
          (send TokenRequest ;;;
           match tokenEndpoint world with
           | FetchRejects => throw "fetch failed"
           | FetchNotOk status => throw ("Spotify auth failed: " ++ showInt status)
           | FetchOk data =>
               setToken (access_token data)
                 (dateNow world + expires_in data * 1000 - 60000)%Z ;;;
               ret (access_token data)
           end)
          (fun _ => throw "Failed to authenticate with Spotify")
  end.

Definition buildSearchQuery (vibeInput : string) : string :=
  let parsed := parseInput vibeInput in
  let query := orElse (vibe parsed) vibeInput in
  let query :=
    if truthy (genre parsed) then query ++ " genre:" ++ genre parsed
    else query in
  let currentYear := fullYear world in
  let query :=
    query ++ " year:" ++ showInt (currentYear - 5) ++ "-" ++ showInt currentYear in
  trim query.

Definition getAudioFeatures (trackIds : list string)
    : M Service (list (option SpotifyAudioFeatures)) :=
  match trackIds with
  | [] => ret []
  | _ =>
      tryCatch
        (_ <- getAccessToken ;;
         send (AudioFeaturesRequest trackIds) ;;;
         match audioFeaturesEndpoint world trackIds with
         | FetchRejects => throw "fetch failed"
         | FetchNotOk _ => ret []
         | FetchOk (Some features) => ret features
         | FetchOk None => ret []
         end)
        (fun _ => ret [])
  end.

Definition calculateMoodScore (track : SpotifyTrack) (searchContext : string) : Q :=
  let parsed := parseInput searchContext in
  match audioFeatures track with
  | None => 0
  | Some features =>
      let targetEnergy :=
        match energy parsed with
        | EnergyHigh => 8 # 10
        | EnergyLow => 3 # 10
        | EnergyMedium => 6 # 10
        end in
      let energyDiff := Qabs (af_energy features - targetEnergy) in
      let score := 0 + Qmax 0 (5 - energyDiff * 10) in
      let targetValence :=
        match valence parsed with
        | ValencePositive => 8 # 10
        | ValenceNegative => 2 # 10
        | ValenceNeutral => 5 # 10
        end in
      let valenceDiff := Qabs (af_valence features - targetValence) in
      let score := score + Qmax 0 (5 - valenceDiff * 10) in
      let score :=
        if arrayIncludes ["party"; "dance"; "gym"] (environment parsed)
           || arrayIncludes ["energetic"; "hype"] (vibe parsed)
        then score + danceability features * 3 else score in
      let score :=
        if arrayIncludes ["study"; "sleep"; "cafe"] (environment parsed)
           || arrayIncludes ["chill"; "calm"] (vibe parsed)
        then score + acousticness features * 3 else score in
      let targetTempo :=
        if String.eqb (speed parsed) "fast" then 140
        else if String.eqb (speed parsed) "slow" then 80
        else 120 in
      let tempoDiff := Qabs (tempo features - targetTempo) / 50 in
      score + Qmax 0 (2 - tempoDiff)
  end.

Definition orString (o : option string) (fallback : string) : string :=
  match o with
  | Some s => orElse s fallback
  | None => fallback
  end.

Definition transformTrack (spotifyTrack : Item)
    (features : option SpotifyAudioFeatures) : SpotifyTrack :=
  let artists :=
    match item_artists spotifyTrack with
    | Some names => orElse (join ", " names) "Unknown Artist"
    | None => "Unknown Artist"
    end in
  let albumOf {A : Type} (f : Album -> option A) : option A :=
    match item_album spotifyTrack with
    | Some a => f a
    | None => None
    end in
  {| id := item_id spotifyTrack;
     title := orString (item_name spotifyTrack) "Unknown Title";
     artist := artists;
     album := orString (albumOf album_name) "Unknown Album";
     duration :=
       (match item_duration_ms spotifyTrack with
        | Some ms => ms
        | None => 0
        end / 1000)%Z;
     thumbnail := orString (albumOf (fun a => hd_error (album_images a))) "";
     previewUrl := orString (item_preview_url spotifyTrack) "";
     spotifyUrl := orString (item_spotify_url spotifyTrack) "";
     popularity :=
       match item_popularity spotifyTrack with
       | Some n => n
       | None => 0%Z
       end;
     releaseDate :=
       match albumOf album_release_date with
       | Some d => if truthy (text d) then d else noDate
       | None => noDate
       end;
     genres :=
       match albumOf album_genres with
       | Some gs => gs
       | None => []
       end;
     audioFeatures := features |}.

(** [track.preview_url && track.preview_url.length > 0] *)
Definition hasPreview (track : Item) : bool :=
  match item_preview_url track with
  | Some url => truthy url && (0 <? String.length url)%nat
  | None => false
  end.

(** [arr[index]] where the element itself may be [null]. *)
Definition featuresAt (features : list (option SpotifyAudioFeatures))
    (index : nat) : option SpotifyAudioFeatures :=
  match nth_error features index with
  | Some (Some f) => Some f
  | _ => None
  end.

(** [(a, b) => b.score - a.score] is not positive. *)
Definition byScore (a b : SpotifyTrack * Q) : bool := Qle_bool (snd b) (snd a).

Definition searchMusic (vibeInput : string) : M Service SpotifyResponse :=
  tryCatch
    (_ <- getAccessToken ;;
     let searchQuery := buildSearchQuery vibeInput in
     send (SearchRequest searchQuery) ;;;
     match searchEndpoint world searchQuery with
     | FetchRejects => throw "fetch failed"
     | FetchNotOk status => throw ("Spotify search failed: " ++ showInt status)
     | FetchOk None => ret {| tracks := []; totalResults := 0 |}
     | FetchOk (Some []) => ret {| tracks := []; totalResults := 0 |}
     | FetchOk (Some items) =>
         let tracksWithPreviews := filter hasPreview items in
         match tracksWithPreviews with
         | [] => ret {| tracks := []; totalResults := 0 |}
         | _ =>
             let trackIds := map item_id tracksWithPreviews in
             features <- getAudioFeatures trackIds ;;
             let transformedTracks :=
               mapIndex (fun track index =>
                           transformTrack track (featuresAt features index))
                        tracksWithPreviews in
             let scoredTracks :=
               map (fun track =>
                      (track,
                       calculateMoodScore track vibeInput
                       + inject_Z (popularity track) / 10))
                   transformedTracks in
             let scoredTracks := sort byScore scoredTracks in
             let topTracks := map fst (slice0 10 scoredTracks) in
             ret {| tracks := topTracks;
                    totalResults := Z.of_nat (length topTracks) |}
         end
     end)
    (fun _ => throw "Failed to search Spotify tracks").

Definition isConfigured (s : Service) : bool :=
  truthy (clientId s) && truthy (clientSecret s).

End Adapter.

End Spotify.

(* ================================================================== *)
(** ** The YouTube adapter *)

Module YouTube.
Import Js Effect.

Record YouTubeTrack := {
  videoId : string;
  title : string;
  channelTitle : string;
  duration : Z;
  thumbnail : string;
  publishedAt : DateString;
  viewCount : Z
}.

Record FilteredYouTubeResponse := {
  tracks : list YouTubeTrack;
  totalResults : Z
}.

Record ParsedInput := {
  vibe : string;
  environment : string;
  speed : string;
  isAnime : bool;
  genre : string
}.

Definition environments : Table :=
  [ ("gym", ["gym"; "workout"; "fitness"; "training"; "exercise"]);
    ("study", ["study"; "focus"; "concentration"; "work"; "office"]);
    ("party", ["party"; "dance"; "club"; "celebration"; "rave"]);
    ("sleep", ["sleep"; "bedtime"; "night"; "relax"; "calm"]);
    ("drive", ["drive"; "car"; "road"; "travel"; "cruise"]);
    ("cafe", ["cafe"; "coffee"; "background"; "ambient"]) ].

Definition speeds : Table :=
  [ ("slow", ["slow"; "chill"; "relaxed"; "mellow"; "downtempo"; "peaceful"]);
    ("medium", ["medium"; "moderate"; "steady"; "groove"; "normal"]);
    ("fast", ["fast"; "upbeat"; "energetic"; "high tempo"; "uptempo"; "intense"]) ].

Definition vibes : Table :=
  [ ("sad", ["sad"; "melancholy"; "depressing"; "emotional"; "crying"]);
    ("happy", ["happy"; "joyful"; "cheerful"; "positive"; "uplifting"]);
    ("chill", ["chill"; "lofi"; "calm"; "peaceful"; "zen"]);
    ("energetic", ["energetic"; "hype"; "pump"; "motivational"; "power"]);
    ("romantic", ["romantic"; "love"; "heart"; "valentine"; "couple"]);
    ("dark", ["dark"; "gothic"; "scary"; "horror"; "evil"]) ].

Definition animeKeywords : list string :=
  [ "anime"; "naruto"; "bleach"; "one piece"; "dragon ball"; "attack on titan";
    "demon slayer"; "my hero academia"; "death note"; "tokyo ghoul"; "fullmetal";
    "cowboy bebop"; "evangelion"; "jojo"; "hunter x hunter"; "fairy tail";
    "sword art online"; "japanese"; "ost"; "soundtrack"; "opening"; "ending";
    "op"; "ed"; "theme song"; "shippuden"; "boruto"; "chakra"; "ninja";
    "sasuke"; "sakura"; "kakashi"; "itachi"; "madara"; "hokage" ].

Definition parseInput (vibeInput : string) : ParsedInput :=
  let input := toLowerCase vibeInput in
  let isAnime := someIncluded input animeKeywords in
  let detectedEnvironment := detect environments input "" in
  let detectedSpeed := detect speeds input "" in
  let detectedVibe := detect vibes input "" in
  let genre :=
    if includes input "lofi"
       || (String.eqb detectedVibe "chill" && String.eqb detectedEnvironment "study")
    then "lofi"
    else if includes input "edm" || includes input "electronic" then "EDM"
    else if isAnime then "anime"
    else "" in
  {| vibe := orElse detectedVibe (first (splitOn " " vibeInput));
     environment := detectedEnvironment;
     speed := detectedSpeed;
     isAnime := isAnime;
     genre := genre |}.

(** [random] is the value [Math.random()] returns when the function
    draws one (it draws at most one). *)
Definition generateSearchQuery (random : Q) (vibeInput : string) (isRetry : bool)
    : string :=
  let parsed := parseInput vibeInput in
  let baseQuery :=
    if isAnime parsed then
      let baseQuery := vibeInput ++ " OST soundtrack opening ending theme music" in
      let animeTerms := ["opening"; "ending"; "OST"; "theme"; "bgm"; "background music"] in
      let randomAnimeTerm :=
        at_ animeTerms (Qfloor (random * inject_Z (Z.of_nat (length animeTerms)))) in
      baseQuery ++ " " ++ randomAnimeTerm
    else if includes vibeInput "night" || includes vibeInput "rain" then
      vibeInput ++ " lofi chill ambient rain sounds"
    else
      let musicType := if negb (Qle_bool random (1 # 2)) then "music" else "songs" in
      let baseQuery := vibe parsed ++ " " ++ musicType in
      let baseQuery :=
        if truthy (environment parsed)
        then baseQuery ++ " " ++ environment parsed else baseQuery in
      if truthy (speed parsed)
      then baseQuery ++ " " ++ speed parsed else baseQuery in
  let baseQuery :=
    if truthy (genre parsed) then baseQuery ++ " " ++ genre parsed else baseQuery in
  let exclusions :=
    if isRetry then ["-tutorial"; "-review"; "-reaction"]
    else ["-tutorial"; "-review"; "-reaction"; "-interview"; "-vlog";
          "-news"; "-documentary"; "-podcast"; "-talk"; "-lecture"] in
  baseQuery ++ " " ++ join " " exclusions.

(** [title] is [video.snippet?.title]. *)
Definition isValidMusicVideo (snippetTitle : option string) (duration viewCount : Z)
    : bool :=
  let title :=
    match snippetTitle with
    | Some t => toLowerCase t
    | None => ""
    end in
  if (duration <? 60)%Z then false
  else
    let isPlaylistOrMix :=
      includes title "playlist" || includes title "mix"
      || includes title "compilation" in
    if (600 <? duration)%Z && negb isPlaylistOrMix then false
    else if (1800 <? duration)%Z then false
    else if (viewCount <? 100)%Z then false
    else
      let badKeywords :=
        [ "tutorial"; "lesson"; "how to"; "reaction"; "review"; "podcast";
          "interview"; "live stream"; "full album"; "audiobook"; "lecture" ] in
      if someIncluded title badKeywords then false else true.

(** [if (c) score += points] *)
Definition bonus (c : bool) (points : Z) : Z := if c then points else 0%Z.

(** [keywords.forEach(k => { if (s.includes(k)) score += points })] *)
Definition eachIncluded (s : string) (keywords : list string) (points : Z) : Z :=
  fold_left (fun score keyword => (score + bonus (includes s keyword) points)%Z)
            keywords 0%Z.

Definition getChannelScore (channelTitle searchContext : string) : Z :=
  let channelLower := toLowerCase channelTitle in
  let context := toLowerCase searchContext in
  let priorityAnimeChannels := ["animevibe"; "lo-fi senpai"; "lofi senpai"] in
  let nightRainChannels :=
    ["lo-fi senpai"; "lofi senpai"; "chilled cow"; "lofigirl"; "ambient"; "rain sounds"] in
  let musicLabels :=
    ["universal"; "sony"; "warner"; "columbia"; "atlantic"; "capitol"; "rca"; "interscope"] in
  let animeChannels :=
    [ "animevibe"; "crunchyroll"; "funimation"; "anime music"; "ost";
      "lo-fi senpai"; "lofi senpai"; "anime songs"; "naruto music"; "bleach music" ] in
  let curatedChannels :=
    ["chillmusic"; "lofigirl"; "chilled cow"; "ambient"; "relaxing"; "chill hop"; "study music"] in
  let whitelistedChannels :=
    [ "trap nation"; "monstercat"; "proximity"; "mr suicidesheep"; "cloudkid";
      "tribal trap"; "chill nation"; "wave music"; "selected"; "magic music";
      "animevibe"; "lo-fi senpai"; "lofi senpai"; "anime vibe" ] in
  let movieKeywords :=
    ["marvel"; "disney"; "dc"; "netflix"; "hbo"; "paramount"; "20th century"; "pixar"] in
  let blacklistedChannels :=
    [ "reaction"; "react"; "first time"; "listening to"; "tutorial"; "lesson";
      "cover"; "remix"; "mashup"; "nightcore"; "slowed"; "reverb" ] in
  (bonus (someIncluded channelLower priorityAnimeChannels) 12
   + bonus ((includes context "night" || includes context "rain"
             || includes context "anime")
            && someIncluded channelLower nightRainChannels) 10
   + bonus (someIncluded channelLower musicLabels) 10
   + bonus (includes channelLower "official" || includes channelLower "vevo") 8
   + bonus (someIncluded channelLower animeChannels) 9
   + bonus (someIncluded channelLower curatedChannels) 6
   + bonus (includes channelLower "topic" || endsWith channelLower " - topic") 8
   + bonus (someIncluded channelLower whitelistedChannels) 7
   + bonus (someIncluded context movieKeywords
            && (includes channelLower "official"
                || someIncluded channelLower musicLabels)) 8
   + bonus (someIncluded channelLower blacklistedChannels) (-15))%Z.

Definition getTitleScore (title searchContext : string) : Z :=
  let titleLower := toLowerCase title in
  let context := toLowerCase searchContext in
  let musicKeywords := ["song"; "track"; "music"; "audio"; "hit"; "single"; "anthem"] in
  let excludedContent :=
    [ "tutorial"; "lesson"; "review"; "reaction"; "interview"; "vlog";
      "gameplay"; "how to"; "explained"; "analysis"; "breakdown" ] in
  let lightExclusions :=
    [ "compilation"; "best of"; "collection"; "mixtape"; "greatest hits";
      "live performance"; "concert"; "acoustic version"; "radio edit" ] in
  let nightAesthetics :=
    [ "night"; "midnight"; "3am"; "late night"; "nocturne"; "moonlight";
      "stars"; "dark"; "shadow"; "twilight"; "evening"; "dusk" ] in
  let sadAesthetics :=
    [ "sad"; "melancholy"; "melancholic"; "sorrow"; "tears"; "crying";
      "heartbreak"; "lonely"; "solitude"; "grief"; "pain"; "blues" ] in
  let lofiAesthetics :=
    [ "lofi"; "lo-fi"; "chill"; "study"; "relaxing"; "ambient";
      "downtempo"; "mellow"; "soft"; "calm"; "peaceful" ] in
  let jazzAesthetics :=
    [ "jazz"; "smooth"; "saxophone"; "piano"; "bebop"; "swing";
      "blues"; "soul"; "smooth jazz"; "neo soul" ] in
  let movieAesthetics :=
    [ "soundtrack"; "ost"; "theme"; "score"; "cinematic"; "epic";
      "orchestral"; "film music"; "movie music" ] in
  (eachIncluded titleLower musicKeywords 5
   + eachIncluded titleLower excludedContent (-15)
   + eachIncluded titleLower lightExclusions (-8)
   + (if includes context "night"
      then eachIncluded titleLower nightAesthetics 10 else 0)
   + (if includes context "sad" || includes context "melancholy"
      then eachIncluded titleLower sadAesthetics 8 else 0)
   + (if includes context "lofi"
      then eachIncluded titleLower lofiAesthetics 8 else 0)
   + (if includes context "jazz"
      then eachIncluded titleLower jazzAesthetics 8 else 0)
   + (if includes context "movie" || includes context "film"
      then eachIncluded titleLower movieAesthetics 8 else 0))%Z.

(** [oneYearAgo] is the instant of [new Date()] after
    [setFullYear(getFullYear() - 1)], in milliseconds: the clock reading,
    one calendar year back.  A comparison with the invalid date is false. *)
Definition getRecencyBonus (oneYearAgo : Z) (publishedAt : DateString) : Z :=
  match getTime publishedAt with
  | Some publishDate => if (oneYearAgo <? publishDate)%Z then 2%Z else 0%Z
  | None => 0%Z
  end.

Definition getDurationScore (duration : Z) : Z :=
  if (120 <=? duration)%Z && (duration <=? 360)%Z then 4%Z
  else if (180 <=? duration)%Z && (duration <=? 240)%Z then 5%Z
  else if (600 <=? duration)%Z && (duration <=? 1200)%Z then 2%Z
  else if (1200 <=? duration)%Z && (duration <=? 1800)%Z then 1%Z
  else if (60 <=? duration)%Z && (duration <=? 120)%Z then 1%Z
  else 0%Z.

(** *** The search *)

(** One element of [searchResponse.data.items]. *)
Record SearchItem := {
  id_videoId : option string;
  snippet_title : option string;
  snippet_channelTitle : option string;
  snippet_publishedAt : option DateString;
  thumbnails_high : option string;
  thumbnails_medium : option string;
  thumbnails_default : option string
}.

(** One element of [videosResponse.data.items].  The ISO-8601 duration
    and the view count are given by the numbers the source reads from
    them: [details_duration] is [None] when [contentDetails?.duration] is
    missing or empty and else the seconds [parseISO8601Duration] returns;
    [statistics_viewCount] is [parseInt(statistics?.viewCount || '0')]. *)
Record VideoItem := {
  video_id : string;
  details_duration : option Z;
  statistics_viewCount : Z
}.

(** What the outside gives to one call of [performSearch]. *)
Record Attempt := {
  mathRandom : Q;                         (* [Math.random()] *)
  oneYearAgo : nat -> Z;                  (* see [getRecencyBonus]; by the
                                             index of the item being scored *)
  nowISOString : nat -> DateString;       (* [new Date().toISOString()], by
                                             the index of the item *)
  searchList : string -> Fetch (option (list SearchItem));
                                          (* by [q]; the body is [data.items] *)
  videosList : list string -> Fetch (option (list VideoItem))
                                          (* by [id]; the body is [data.items] *)
}.

(** The attempts of one call of the adapter, by their number. *)
Definition World := nat -> Attempt.

Inductive Request :=
| SearchListRequest (q : string)
| VideosListRequest (ids : list string).

Record Service := {
  attempts : nat;            (* calls of [performSearch] so far *)
  sent : list Request        (* the requests sent so far *)
}.

Definition send (r : Request) : M Service unit :=
  modify (fun s => {| attempts := attempts s; sent := (sent s ++ [r])%list |}).

Definition nextAttempt : M Service nat :=
  s <- get ;;
  modify (fun s => {| attempts := S (attempts s); sent := sent s |}) ;;;
  ret (attempts s).

(** [await remote(...)]: a call that rejects or is not [ok] throws. *)
Definition await {A : Type} (response : Fetch A) : M Service A :=
  match response with
  | FetchRejects => throw "request failed"
  | FetchNotOk status => throw ("request failed: " ++ showInt status)
  | FetchOk body => ret body
  end.

Definition orString (o : option string) (fallback : string) : string :=
  match o with
  | Some s => orElse s fallback
  | None => fallback
  end.

(** [(a, b) => b.score - a.score] is not positive. *)
Definition byScore (a b : YouTubeTrack * R) : bool :=
  if Rle_dec (snd b) (snd a) then true else false.

(** The body of the loop of [performSearch] for one search item: the
    scored track it pushes, if any. *)
Definition scoreItem (attempt : Attempt) (searchContext : string)
    (videos : list VideoItem) (searchItem : SearchItem) (index : nat)
    : option (YouTubeTrack * R) :=
  match id_videoId searchItem with
  | None => None
  | Some vid =>
      if negb (truthy vid) then None
      else
        match find (fun item => String.eqb (video_id item) vid) videos with
        | None => None
        | Some videoItem =>
            match details_duration videoItem with
            | None => None
            | Some duration =>
                let viewCount := statistics_viewCount videoItem in
                if negb (isValidMusicVideo (snippet_title searchItem) duration viewCount)
                then None
                else
                  let channelScore :=
                    getChannelScore (orString (snippet_channelTitle searchItem) "")
                                    searchContext in
                  let titleScore :=
                    getTitleScore (orString (snippet_title searchItem) "")
                                  searchContext in
                  let durationScore := getDurationScore duration in
                  let recencyBonus :=
                    getRecencyBonus (oneYearAgo attempt index)
                      match snippet_publishedAt searchItem with
                      | Some d => if truthy (text d) then d else noDate
                      | None => noDate
                      end in
                  let viewScore := Rmin (log10 (IZR viewCount) - 3) 5 in
                  let totalScore :=
                    (IZR channelScore + IZR titleScore + IZR durationScore
                     + IZR recencyBonus + viewScore)%R in
                  Some
                    ({| videoId := vid;
                        title := orString (snippet_title searchItem) "Unknown Title";
                        channelTitle :=
                          orString (snippet_channelTitle searchItem) "Unknown Channel";
                        duration := duration;
                        thumbnail :=
                          orString (thumbnails_high searchItem)
                            (orString (thumbnails_medium searchItem)
                               (orString (thumbnails_default searchItem) ""));
                        publishedAt :=
                          match snippet_publishedAt searchItem with
                          | Some d =>
                              if truthy (text d) then d else nowISOString attempt index
                          | None => nowISOString attempt index
                          end;
                        viewCount := viewCount |},
                     totalScore)
            end
        end
  end.

(** The elements a loop pushes, for a body [f] that pushes at most one
    element per iteration. *)
Fixpoint collectFrom {A B : Type} (f : A -> nat -> option B) (start : nat)
    (arr : list A) : list B :=
  match arr with
  | [] => []
  | x :: rest =>
      match f x start with
      | Some y => y :: collectFrom f (S start) rest
      | None => collectFrom f (S start) rest
      end
  end.

Definition collect {A B : Type} (f : A -> nat -> option B) (arr : list A) : list B :=
  collectFrom f 0 arr.

Definition empty : FilteredYouTubeResponse := {| tracks := []; totalResults := 0 |}.

Section Adapter.
Variable world : World.

Definition performSearch (vibeInput : string) (isRetry : bool)
    : M Service FilteredYouTubeResponse :=
  n <- nextAttempt ;;
  let attempt := world n in
  let searchQuery := generateSearchQuery (mathRandom attempt) vibeInput isRetry in
  let searchContext := vibeInput in
  send (SearchListRequest searchQuery) ;;;
  searchItems <- await (searchList attempt searchQuery) ;;
  match searchItems with
  | None => ret empty
  | Some items =>
      let videoIds :=
        collect (fun item _ =>
                   match id_videoId item with
                   | Some vid => if truthy vid then Some vid else None
                   | None => None
                   end) items in
      match videoIds with
      | [] => ret empty
      | _ =>
          send (VideosListRequest videoIds) ;;;
          videoItems <- await (videosList attempt videoIds) ;;
          match videoItems with
          | None => ret empty
          | Some videos =>
              let scoredTracks :=
                collect (scoreItem attempt searchContext videos) items in
              let scoredTracks := sort byScore scoredTracks in
              let topTracks := map fst (slice0 10 scoredTracks) in
              ret {| tracks := topTracks;
                     totalResults := Z.of_nat (length topTracks) |}
          end
      end
  end.

Definition searchMusic (vibeInput : string) : M Service FilteredYouTubeResponse :=
  tryCatch
    (result <- performSearch vibeInput false ;;
     if (length (tracks result) <? 5)%nat then
       result <- performSearch vibeInput true ;;
       if (length (tracks result) <? 5)%nat then
         let playlistQuery := vibeInput ++ " playlist mix" in
         playlistResult <- performSearch playlistQuery true ;;
         let combinedTracks := (tracks result ++ tracks playlistResult)%list in
         let uniqueTracks := uniqueBy videoId combinedTracks in
         ret {| tracks := slice0 10 uniqueTracks;
                totalResults := Z.of_nat (length uniqueTracks) |}
       else ret result
     else ret result)
    (fun _ => throw "Failed to search YouTube videos").
End Adapter.

End YouTube.

(* ================================================================== *)
(** ** The SoundCloud adapter *)

Module SoundCloud.
Import Js Effect.

Record SoundCloudTrack := {
  id : string;
  title : string;
  artist : string;
  duration : Z;
  thumbnail : string;
  streamUrl : string;
  publishedAt : DateString;
  playCount : Z;
  genre : option string;
  description : option string;
  waveformUrl : option string;
  permalink : string
}.

Record SoundCloudResponse := {
  tracks : list SoundCloudTrack;
  totalResults : Z
}.

Record ParsedInput := {
  vibe : string;
  environment : string;
  speed : string;
  parsedGenre : string
}.

Definition environments : Table :=
  [ ("gym", ["gym"; "workout"; "fitness"; "training"; "exercise"]);
    ("study", ["study"; "focus"; "concentration"; "work"; "office"]);
    ("party", ["party"; "dance"; "club"; "celebration"; "rave"]);
    ("sleep", ["sleep"; "bedtime"; "night"; "relax"; "calm"]);
    ("drive", ["drive"; "car"; "road"; "travel"; "cruise"]);
    ("cafe", ["cafe"; "coffee"; "background"; "ambient"]) ].

Definition speeds : Table :=
  [ ("slow", ["slow"; "chill"; "relaxed"; "mellow"; "downtempo"; "peaceful"]);
    ("medium", ["medium"; "moderate"; "steady"; "groove"; "normal"]);
    ("fast", ["fast"; "upbeat"; "energetic"; "high tempo"; "uptempo"; "intense"]) ].

Definition vibes : Table :=
  [ ("sad", ["sad"; "melancholy"; "depressing"; "emotional"; "crying"]);
    ("happy", ["happy"; "joyful"; "cheerful"; "positive"; "uplifting"]);
    ("chill", ["chill"; "lofi"; "calm"; "peaceful"; "zen"]);
    ("energetic", ["energetic"; "hype"; "pump"; "motivational"; "power"]);
    ("romantic", ["romantic"; "love"; "heart"; "valentine"; "couple"]);
    ("dark", ["dark"; "gothic"; "scary"; "horror"; "evil"]) ].

Definition parseInput (vibeInput : string) : ParsedInput :=
  let input := toLowerCase vibeInput in
  let detectedEnvironment := detect environments input "" in
  let detectedSpeed := detect speeds input "" in
  let detectedVibe := detect vibes input "" in
  let genre :=
    if includes input "lofi"
       || (String.eqb detectedVibe "chill" && String.eqb detectedEnvironment "study")
    then "lofi"
    else if includes input "edm" || includes input "electronic" then "electronic"
    else if includes input "hip hop" || includes input "rap" then "hip-hop"
    else if includes input "jazz" then "jazz"
    else if includes input "rock" then "rock"
    else "" in
  {| vibe := orElse detectedVibe (first (splitOn " " vibeInput));
     environment := detectedEnvironment;
     speed := detectedSpeed;
     parsedGenre := genre |}.

Definition generateSearchQuery (vibeInput : string) : string :=
  let parsed := parseInput vibeInput in
  let baseQuery :=
    if truthy (parsedGenre parsed) then vibe parsed ++ " " ++ parsedGenre parsed
    else
      let baseQuery := vibe parsed ++ " music" in
      let baseQuery :=
        if truthy (environment parsed)
        then baseQuery ++ " " ++ environment parsed else baseQuery in
      if truthy (speed parsed)
      then baseQuery ++ " " ++ speed parsed else baseQuery in
  trim baseQuery.

(** One element of the array the [/tracks] endpoint answers. *)
Record Item := {
  item_id : Z;
  item_title : option string;
  item_description : option string;
  item_duration : Z;                    (* milliseconds *)
  item_streamable : bool;
  item_genre : option string;
  item_playback_count : option Z;
  item_artwork_url : option string;
  item_username : option string;        (* [user?.username] *)
  item_avatar_url : option string;      (* [user?.avatar_url] *)
  item_stream_url : option string;
  item_created_at : option DateString;
  item_waveform_url : option string;
  item_permalink_url : option string
}.

Definition orString (o : option string) (fallback : string) : string :=
  match o with
  | Some s => orElse s fallback
  | None => fallback
  end.

(** [x || undefined] *)
Definition orUndefined (o : option string) : option string :=
  match o with
  | Some s => if truthy s then Some s else None
  | None => None
  end.

Definition lowerOr (o : option string) : string :=
  match o with
  | Some s => orElse (toLowerCase s) ""
  | None => ""
  end.

Definition isValidMusicTrack (track : Item) : bool :=
  let title := lowerOr (item_title track) in
  let description := lowerOr (item_description track) in
  if (item_duration track <? 30000)%Z || (1200000 <? item_duration track)%Z then false
  else if negb (item_streamable track) then false
  else
    let badKeywords :=
      [ "podcast"; "interview"; "talk"; "lecture"; "speech";
        "news"; "radio show"; "advertisement"; "commercial" ] in
    if existsb (fun keyword => includes title keyword || includes description keyword)
               badKeywords
    then false else true.

(** [oneYearAgo]: the clock reading one calendar year back, as in
    [YouTube.getRecencyBonus]. *)
Definition calculateTrackScore (oneYearAgo : Z) (track : Item) (searchContext : string)
    : R :=
  let title := lowerOr (item_title track) in
  let genre := lowerOr (item_genre track) in
  let playCount :=
    match item_playback_count track with
    | Some n => n
    | None => 0%Z
    end in
  let context := toLowerCase searchContext in
  let genreMatch := if truthy genre && includes context genre then 3%Z else 0%Z in
  let searchWords := splitOn " " context in
  let titleRelevance :=
    fold_left
      (fun score word =>
         if (2 <? String.length word)%nat && includes title word
         then (score + 2)%Z else score)
      searchWords 0%Z in
  let artwork :=
    match item_artwork_url track with
    | Some url => if truthy url then 1%Z else 0%Z
    | None => 0%Z
    end in
  let durationMin := (inject_Z (item_duration track) / 60000)%Q in
  let durationPreference :=
    if Qle_bool 3 durationMin && Qle_bool durationMin 6 then 2%Z
    else if Qle_bool 2 durationMin && Qle_bool durationMin 8 then 1%Z
    else 0%Z in
  let recency :=
    match item_created_at track with
    | Some d =>
        match getTime d with
        | Some createdAt => if (oneYearAgo <? createdAt)%Z then 1%Z else 0%Z
        | None => 0%Z
        end
    | None => 0%Z
    end in
  (Rmin (log10 (IZR playCount + 1)) 5
   + IZR (genreMatch + titleRelevance + artwork + durationPreference + recency))%R.

Definition transformTrack (nowISOString : DateString) (track : Item) : SoundCloudTrack :=
  {| id := showInt (item_id track);
     title := orString (item_title track) "Unknown Title";
     artist := orString (item_username track) "Unknown Artist";
     duration := (item_duration track / 1000)%Z;
     thumbnail := orString (item_artwork_url track) (orString (item_avatar_url track) "");
     streamUrl := orString (item_stream_url track) "";
     publishedAt :=
       match item_created_at track with
       | Some d => if truthy (text d) then d else nowISOString
       | None => nowISOString
       end;
     playCount :=
       match item_playback_count track with
       | Some n => n
       | None => 0%Z
       end;
     genre := orUndefined (item_genre track);
     description := orUndefined (item_description track);
     waveformUrl := orUndefined (item_waveform_url track);
     permalink := orString (item_permalink_url track) "" |}.

(** What the outside gives to one call of the adapter. *)
Record World := {
  oneYearAgo : nat -> Z;              (* by the index of the track scored *)
  nowISOString : nat -> DateString;   (* by the index of the track *)
  tracksEndpoint : string -> Fetch (option (list Item))
                                      (* by [q]; [None]: the body is no array *)
}.

Record Service := {
  clientId : string;
  sent : list string                  (* the queries sent so far *)
}.

Definition send (q : string) : M Service unit :=
  modify (fun s => {| clientId := clientId s; sent := (sent s ++ [q])%list |}).

Definition byScore (a b : SoundCloudTrack * R) : bool :=
  if Rle_dec (snd b) (snd a) then true else false.

Definition searchMusic (world : World) (vibeInput : string)
    : M Service SoundCloudResponse :=
  tryCatch
    (s <- get ;;
     if negb (truthy (clientId s)) then throw "SoundCloud Client ID not configured"
     else
       let searchQuery := generateSearchQuery vibeInput in
       send searchQuery ;;;
       match tracksEndpoint world searchQuery with
       | FetchRejects => throw "fetch failed"
       | FetchNotOk status => throw ("SoundCloud API error: " ++ showInt status)
       | FetchOk None => ret {| tracks := []; totalResults := 0 |}
       | FetchOk (Some data) =>
           let validTracks := filter isValidMusicTrack data in
           let scoredTracks :=
             mapIndex (fun track index =>
                         (transformTrack (nowISOString world index) track,
                          calculateTrackScore (oneYearAgo world index) track vibeInput))
                      validTracks in
           let scoredTracks := sort byScore scoredTracks in
           let topTracks := map fst (slice0 10 scoredTracks) in
           ret {| tracks := topTracks;
                  totalResults := Z.of_nat (length topTracks) |}
       end)
    (fun _ => throw "Failed to search SoundCloud tracks").

End SoundCloud.

(* ================================================================== *)
(** ** The aggregator *)

Module Unified.
Import Js Effect.

Inductive MusicProvider := youtube | soundcloud | spotify.

Definition providerEqb (a b : MusicProvider) : bool :=
  match a, b with
  | youtube, youtube | soundcloud, soundcloud | spotify, spotify => true
  | _, _ => false
  end.

(** [`${provider}`] *)
Definition providerName (p : MusicProvider) : string :=
  match p with
  | youtube => "youtube"
  | soundcloud => "soundcloud"
  | spotify => "spotify"
  end.

Record UnifiedTrack := {
  id : string;
  title : string;
  artist : string;
  duration : Z;
  thumbnail : string;
  publishedAt : DateString;
  popularity : Z;
  provider : MusicProvider;
  streamUrl : option string;
  genre : option string;
  permalink : option string;
  waveformUrl : option string
}.

Record UnifiedSearchResponse := {
  tracks : list UnifiedTrack;
  totalResults : Z;
  providers : list MusicProvider;
  searchTime : Z
}.

Record ProviderConfig := {
  enabled : bool;
  priority : Z;
  timeout : Z
}.

(** The [providers] object of a configuration: its three values and the
    order of its keys, which is the order of [Object.entries]. *)
Record Providers := {
  youtubeConfig : ProviderConfig;
  soundcloudConfig : ProviderConfig;
  spotifyConfig : ProviderConfig;
  keys : list MusicProvider
}.

(** [providers[provider]] *)
Definition configOf (ps : Providers) (p : MusicProvider) : ProviderConfig :=
  match p with
  | youtube => youtubeConfig ps
  | soundcloud => soundcloudConfig ps
  | spotify => spotifyConfig ps
  end.

(** [Object.entries(providers)] *)
Definition entries (ps : Providers) : list (MusicProvider * ProviderConfig) :=
  map (fun p => (p, configOf ps p)) (keys ps).

Record SearchConfig := {
  configProviders : Providers;
  maxResults : Z;
  fallbackEnabled : bool
}.

(** [Partial<SearchConfig>] *)
Record PartialSearchConfig := {
  partialProviders : option Providers;
  partialMaxResults : option Z;
  partialFallbackEnabled : option bool
}.

Definition noOverrides : PartialSearchConfig :=
  {| partialProviders := None; partialMaxResults := None;
     partialFallbackEnabled := None |}.

Definition defaultConfig : SearchConfig :=
  {| configProviders :=
       {| spotifyConfig := {| enabled := true; priority := 1; timeout := 8000 |};
          youtubeConfig := {| enabled := true; priority := 2; timeout := 15000 |};
          soundcloudConfig := {| enabled := false; priority := 3; timeout := 10000 |};
          keys := [spotify; youtube; soundcloud] |};
     maxResults := 10;
     fallbackEnabled := true |}.

(** [{ ...this.defaultConfig, ...config }] *)
Definition mergeConfig (base : SearchConfig) (config : PartialSearchConfig)
    : SearchConfig :=
  {| configProviders :=
       match partialProviders config with Some ps => ps | None => configProviders base end;
     maxResults :=
       match partialMaxResults config with Some n => n | None => maxResults base end;
     fallbackEnabled :=
       match partialFallbackEnabled config with
       | Some b => b
       | None => fallbackEnabled base
       end |}.

Definition transformYouTubeTrack (track : YouTube.YouTubeTrack) : UnifiedTrack :=
  {| id := YouTube.videoId track;
     title := YouTube.title track;
     artist := YouTube.channelTitle track;
     duration := YouTube.duration track;
     thumbnail := YouTube.thumbnail track;
     publishedAt := YouTube.publishedAt track;
     popularity := YouTube.viewCount track;
     provider := youtube;
     streamUrl := Some ("/api/youtube/stream/" ++ YouTube.videoId track);
     genre := None;
     permalink := None;
     waveformUrl := None |}.

Definition transformSoundCloudTrack (track : SoundCloud.SoundCloudTrack) : UnifiedTrack :=
  {| id := SoundCloud.id track;
     title := SoundCloud.title track;
     artist := SoundCloud.artist track;
     duration := SoundCloud.duration track;
     thumbnail := SoundCloud.thumbnail track;
     publishedAt := SoundCloud.publishedAt track;
     popularity := SoundCloud.playCount track;
     provider := soundcloud;
     streamUrl := Some ("/api/soundcloud/stream/" ++ SoundCloud.id track);
     genre := SoundCloud.genre track;
     permalink := Some (SoundCloud.permalink track);
     waveformUrl := SoundCloud.waveformUrl track |}.

Definition transformSpotifyTrack (track : Spotify.SpotifyTrack) : UnifiedTrack :=
  {| id := Spotify.id track;
     title := Spotify.title track;
     artist := Spotify.artist track;
     duration := Spotify.duration track;
     thumbnail := Spotify.thumbnail track;
     publishedAt := Spotify.releaseDate track;
     popularity := Spotify.popularity track;
     provider := spotify;
     streamUrl := Some (Spotify.previewUrl track);
     genre := hd_error (Spotify.genres track);
     permalink := Some (Spotify.spotifyUrl track);
     waveformUrl := None |}.

(** *** The adapters, seen from the aggregator

    One call of an adapter's [searchMusic] settles after [latency]
    milliseconds, returning a response or throwing.  A response is
    [Some tracks], or [None] when it is empty or has no [tracks]. *)
Record AdapterRun (T : Type) := {
  latency : Z;
  settles : Outcome (option (list T))
}.
Arguments latency {T} _.
Arguments settles {T} _.

(** What the outside gives to one call of the aggregator.  The adapter
    calls are numbered in the order they are made. *)
Record World := {
  youtubeSearch : nat -> string -> AdapterRun YouTube.YouTubeTrack;
  soundcloudSearch : nat -> string -> AdapterRun SoundCloud.SoundCloudTrack;
  spotifySearch : nat -> string -> AdapterRun Spotify.SpotifyTrack;
  startTime : Z;               (* [Date.now()] on entry *)
  endTime : Z;                 (* [Date.now()] before returning *)
  scoreTime : nat -> Z         (* [Date.now()] in [scoreTrack], by the index
                                  of the track scored *)
}.

(** What the aggregator does that can be seen from outside. *)
Inductive Event :=
| Searching (p : MusicProvider)                (* [console.log] of the primary loop *)
| AdapterCall (p : MusicProvider) (timeout : Z)  (* an adapter's [searchMusic] is called *)
| SearchFailed (p : MusicProvider) (message : string)
                                               (* [console.error] of [searchProvider] *)
| ProviderFailed (p : MusicProvider) (message : string)
                                               (* [console.error] of the primary loop *)
| ParallelFallback.                            (* [console.log] of the fallback *)

Record Service := {
  calls : nat;                 (* adapter calls made so far *)
  events : list Event
}.

Definition start : Service := {| calls := 0; events := [] |}.

Definition emit (e : Event) : M Service unit :=
  modify (fun s => {| calls := calls s; events := (events s ++ [e])%list |}).

Definition nextCall : M Service nat :=
  s <- get ;;
  modify (fun s => {| calls := S (calls s); events := events s |}) ;;;
  ret (calls s).

(** [await Promise.race([searchPromise, timeoutPromise])]: the adapter's
    outcome when it settles before the timer, the timer's rejection
    otherwise. *)
Definition race {T : Type} (p : MusicProvider) (run : AdapterRun T) (timeout : Z)
    : M Service (option (list T)) :=
  if (latency run <? timeout)%Z then
    match settles run with
    | Returns response => ret response
    | Throws message => throw message
    end
  else throw (providerName p ++ " search timeout").

(** [result.tracks.map(transform)], or [[]] when [!result || !result.tracks]. *)
Definition transformAll {T : Type} (transform : T -> UnifiedTrack)
    (response : option (list T)) : list UnifiedTrack :=
  match response with
  | Some tracks => map transform tracks
  | None => []
  end.

(** [PromiseSettledResult] *)
Inductive Settled (A : Type) :=
| Fulfilled (value : A)
| Rejected (reason : string).
Arguments Fulfilled {A} value.
Arguments Rejected {A} reason.

(** [new Date(publishedAt)] is less than twelve 30-day months before
    [dateNow]; a comparison with the invalid date is false. *)
Definition withinLastYear (dateNow : Z) (publishedAt : DateString) : bool :=
  match getTime publishedAt with
  | Some publishedDate =>
      let monthsAgo :=
        (inject_Z (dateNow - publishedDate)
         / inject_Z (1000 * 60 * 60 * 24 * 30))%Q in
      negb (Qle_bool 12 monthsAgo)
  | None => false
  end.

Section Aggregator.
Variable world : World.

Definition searchProvider (p : MusicProvider) (vibeInput : string) (timeout : Z)
    : M Service (list UnifiedTrack) :=
  tryCatch
    (n <- nextCall ;;
     emit (AdapterCall p timeout) ;;;
     match p with
     | youtube =>
         result <- race p (youtubeSearch world n vibeInput) timeout ;;
         ret (transformAll transformYouTubeTrack result)
     | soundcloud =>
         result <- race p (soundcloudSearch world n vibeInput) timeout ;;
         ret (transformAll transformSoundCloudTrack result)
     | spotify =>
         result <- race p (spotifySearch world n vibeInput) timeout ;;
         ret (transformAll transformSpotifyTrack result)
     end)
    (fun error => emit (SearchFailed p error) ;;; ret []).

(** The same function in the two parts its [await] separates.  Called
    without an [await] of the caller, it runs up to its own [await]: the
    adapter's search is started, under the number of the call. *)
Definition startSearch (p : MusicProvider) (timeout : Z) : M Service nat :=
  n <- nextCall ;;
  emit (AdapterCall p timeout) ;;;
  ret n.

(** The rest of it runs when the race of call [n] settles. *)
Definition awaitSearch (p : MusicProvider) (vibeInput : string) (timeout : Z)
    (n : nat) : M Service (list UnifiedTrack) :=
  tryCatch
    match p with
    | youtube =>
        result <- race p (youtubeSearch world n vibeInput) timeout ;;
        ret (transformAll transformYouTubeTrack result)
    | soundcloud =>
        result <- race p (soundcloudSearch world n vibeInput) timeout ;;
        ret (transformAll transformSoundCloudTrack result)
    | spotify =>
        result <- race p (spotifySearch world n vibeInput) timeout ;;
        ret (transformAll transformSpotifyTrack result)
    end
    (fun error => emit (SearchFailed p error) ;;; ret []).

(** The instant at which the race of call [n] settles, counted from the
    call: the adapter's, or the timer's when the adapter is not faster. *)
Definition settlesAt (p : MusicProvider) (vibeInput : string) (timeout : Z)
    (n : nat) : Z :=
  let adapter :=
    match p with
    | youtube => latency (youtubeSearch world n vibeInput)
    | soundcloud => latency (soundcloudSearch world n vibeInput)
    | spotify => latency (spotifySearch world n vibeInput)
    end in
  if (adapter <? timeout)%Z then adapter else timeout.

(** [dateNow] is the value of [Date.now()].  The score is a real number;
    the terms other than the popularity are integers. *)
Definition scoreTrack (dateNow : Z) (track : UnifiedTrack) (searchContext : string)
    : R :=
  let context := toLowerCase searchContext in
  let title := toLowerCase (title track) in
  let maxPopularity :=
    match provider track with
    | youtube => 10000000%R
    | _ => 1000000%R
    end in
  let popularityScore :=
    (Rmin (log10 (IZR (popularity track) + 1) / log10 maxPopularity) 1 * 10)%R in
  let providerPreference :=
    match provider track with
    | spotify => 8%Z
    | soundcloud => 5%Z
    | youtube => 3%Z
    end in
  let searchWords :=
    filter (fun word => (2 <? String.length word)%nat) (splitSpaces context) in
  let titleRelevance :=
    fold_left
      (fun score word => if includes title word then (score + 3)%Z else score)
      searchWords 0%Z in
  let durationMin := (inject_Z (duration track) / 60)%Q in
  let durationPreference :=
    if Qle_bool 3 durationMin && Qle_bool durationMin 6 then 3%Z
    else if Qle_bool 2 durationMin && Qle_bool durationMin 8 then 2%Z
    else if negb (Qle_bool durationMin 10) then (-2)%Z
    else 0%Z in
  let genreMatching :=
    match genre track with
    | Some g =>
        if truthy g && includes context (toLowerCase g) then 4%Z else 0%Z
    | None => 0%Z
    end in
  let recencyBonus :=
    if withinLastYear dateNow (publishedAt track) then 2%Z else 0%Z in
  (popularityScore
   + IZR (providerPreference + titleRelevance + durationPreference
          + genreMatching + recencyBonus))%R.

(** The key of the duplicate filter. *)
Definition duplicateKey (track : UnifiedTrack) : string :=
  toLowerCase (title track) ++ "-" ++ toLowerCase (artist track).

(** [(a, b) => b.score - a.score] is not positive. *)
Definition byScore (a b : UnifiedTrack * R) : bool :=
  if Rle_dec (snd b) (snd a) then true else false.

Definition mergeAndRankResults (allTracks : list UnifiedTrack)
    (searchContext : string) (maxResults : Z) : list UnifiedTrack :=
  let uniqueTracks := uniqueBy duplicateKey allTracks in
  let scoredTracks :=
    mapIndex (fun track index =>
                (track, scoreTrack (scoreTime world index) track searchContext))
             uniqueTracks in
  let scoredTracks := sort byScore scoredTracks in
  map fst (slice0 maxResults scoredTracks).

(** [(a, b) => a[1].priority - b[1].priority] is not positive. *)
Definition byPriority (a b : MusicProvider * ProviderConfig) : bool :=
  (priority (snd a) <=? priority (snd b))%Z.

Definition enabledProviders (searchConfig : SearchConfig) : list MusicProvider :=
  map fst
    (sort byPriority
       (filter (fun entry => enabled (snd entry))
               (entries (configProviders searchConfig)))).

(** [usedProviders.includes(provider)] *)
Definition usedIncludes (used : list MusicProvider) (p : MusicProvider) : bool :=
  existsb (providerEqb p) used.

(** The arrays [allTracks] and [usedProviders]. *)
Definition Accumulated : Type := list UnifiedTrack * list MusicProvider.

Section Search.
Variable vibeInput : string.
Variable searchConfig : SearchConfig.

(** One iteration of the primary loop, from [acc]; the flag tells
    whether the loop leaves by [break]. *)
Definition primaryStep (p : MusicProvider) (acc : Accumulated)
    : M Service (bool * Accumulated) :=
  let providerConfig := configOf (configProviders searchConfig) p in
  emit (Searching p) ;;;
  tryCatch
    (tracks <- searchProvider p vibeInput (timeout providerConfig) ;;
     if (0 <? length tracks)%nat then
       let allTracks := (fst acc ++ tracks)%list in
       let usedProviders := (snd acc ++ [p])%list in
       if (maxResults searchConfig <=? Z.of_nat (length allTracks))%Z
          && negb (fallbackEnabled searchConfig)
       then ret (true, (allTracks, usedProviders))
       else ret (false, (allTracks, usedProviders))
     else ret (false, acc))
    (fun error =>
       emit (ProviderFailed p error) ;;;
       if (length (enabledProviders searchConfig) =? 1)%nat
          && negb (fallbackEnabled searchConfig)
       then throw error
       else ret (false, acc)).

(** [for (const provider of enabledProviders) { ... }] *)
Fixpoint primaryLoop (remaining : list MusicProvider) (acc : Accumulated)
    : M Service Accumulated :=
  match remaining with
  | [] => ret acc
  | p :: rest =>
      step <- primaryStep p acc ;;
      if fst step then ret (snd step) else primaryLoop rest (snd step)
  end.

(** One promise of the array given to [Promise.allSettled]. *)
Definition settle {A : Type} (m : M Service A) : M Service (Settled A) :=
  fun s => match m s with
           | (Returns a, s') => (Returns (Fulfilled a), s')
           | (Throws message, s') => (Returns (Rejected message), s')
           end.

(** [enabledProviders.map(provider => this.searchProvider(provider,
       vibeInput, timeout))]: every search is started, in the order of the
    list, before any of them settles; the calls made, each with its
    number. *)
Fixpoint startAll (ps : list MusicProvider) : M Service (list (MusicProvider * nat)) :=
  match ps with
  | [] => ret []
  | p :: rest =>
      n <- startSearch p (timeout (configOf (configProviders searchConfig) p)) ;;
      started <- startAll rest ;;
      ret ((p, n) :: started)
  end.

(** The call [a] settles no later than the call [b]. *)
Definition bySettling (a b : MusicProvider * nat) : bool :=
  (settlesAt (fst a) vibeInput
     (timeout (configOf (configProviders searchConfig) (fst a))) (snd a)
   <=? settlesAt (fst b) vibeInput
         (timeout (configOf (configProviders searchConfig) (fst b))) (snd b))%Z.

(** The started searches run on as their races settle, one after the
    other in the order given; the outcome of each promise, with the number
    of its call. *)
Fixpoint awaitAll (order : list (MusicProvider * nat))
    : M Service (list (nat * Settled (list UnifiedTrack))) :=
  match order with
  | [] => ret []
  | (p, n) :: rest =>
      r <- settle (awaitSearch p vibeInput
                     (timeout (configOf (configProviders searchConfig) p)) n) ;;
      rs <- awaitAll rest ;;
      ret ((n, r) :: rs)
  end.

(** The outcome of the promise of a call among the settled ones. *)
Definition outcomeOf (settled : list (nat * Settled (list UnifiedTrack)))
    (call : MusicProvider * nat) : Settled (list UnifiedTrack) :=
  match find (fun r => (fst r =? snd call)%nat) settled with
  | Some r => snd r
  | None => Rejected "pending"
  end.

(** [await Promise.allSettled(enabledProviders.map(provider =>
       this.searchProvider(provider, vibeInput, timeout)))]: the searches
    are all started, then run on in the order in which their races settle
    (the earlier call first when two settle at one instant); the outcomes
    come in the order of the providers. *)
Definition allSettled (ps : list MusicProvider)
    : M Service (list (Settled (list UnifiedTrack))) :=
  started <- startAll ps ;;
  settled <- awaitAll (sort bySettling started) ;;
  ret (map (outcomeOf settled) started).

(** The body of [parallelResults.forEach((result, index) => ...)]. *)
Definition mergeSettled (acc : Accumulated)
    (indexed : Settled (list UnifiedTrack) * nat) : Accumulated :=
  match fst indexed with
  | Fulfilled value =>
      if (0 <? length value)%nat then
        match nth_error (enabledProviders searchConfig) (snd indexed) with
        | Some p =>
            if negb (usedIncludes (snd acc) p)
            then ((fst acc ++ value)%list, (snd acc ++ [p])%list)
            else acc
        | None => acc
        end
      else acc
  | Rejected _ => acc
  end.

Definition parallelFallback (acc : Accumulated) : M Service Accumulated :=
  emit ParallelFallback ;;;
  parallelResults <- allSettled (enabledProviders searchConfig) ;;
  ret (fold_left mergeSettled
                 (mapIndex (fun result index => (result, index)) parallelResults)
                 acc).

(** The condition of the fallback. *)
Definition needsFallback (acc : Accumulated) : bool :=
  (length (fst acc) <? 3)%nat
  && fallbackEnabled searchConfig
  && (1 <? length (enabledProviders searchConfig))%nat.

Definition searchWith : M Service UnifiedSearchResponse :=
  match enabledProviders searchConfig with
  | [] => throw "No music providers enabled"
  | _ =>
      acc <- primaryLoop (enabledProviders searchConfig) ([], []) ;;
      acc <- (if needsFallback acc then parallelFallback acc else ret acc) ;;
      let rankedTracks :=
        mergeAndRankResults (fst acc) vibeInput (maxResults searchConfig) in
      let searchTime := (endTime world - startTime world)%Z in
      ret {| tracks := rankedTracks;
             totalResults := Z.of_nat (length rankedTracks);
             providers := snd acc;
             searchTime := searchTime |}
  end.
End Search.

Definition searchMusic (vibeInput : string) (config : PartialSearchConfig)
    : M Service UnifiedSearchResponse :=
  searchWith vibeInput (mergeConfig defaultConfig config).

End Aggregator.

End Unified.

(* ================================================================== *)
(** ** What a run of the aggregator shows *)

Module Observed.
Import Js Effect Unified.

(** The tracks of a settled adapter call: none when it threw. *)
Definition yielded (o : Outcome (list UnifiedTrack)) : list UnifiedTrack :=
  match o with
  | Returns tracks => tracks
  | Throws _ => []
  end.

(** The race of one adapter run against its timer, tracks transformed. *)
Definition raceOutcome {T : Type} (p : MusicProvider) (transform : T -> UnifiedTrack)
    (run : AdapterRun T) (timeout : Z) : Outcome (list UnifiedTrack) :=
  if (latency run <? timeout)%Z then
    match settles run with
    | Returns response => Returns (transformAll transform response)
    | Throws message => Throws message
    end
  else Throws (providerName p ++ " search timeout").

(** The outcome of the [n]-th adapter call when it is made to [p]. *)
Definition adapterOutcome (world : World) (p : MusicProvider) (n : nat)
    (vibeInput : string) (timeout : Z) : Outcome (list UnifiedTrack) :=
  match p with
  | youtube => raceOutcome p transformYouTubeTrack (youtubeSearch world n vibeInput) timeout
  | soundcloud =>
      raceOutcome p transformSoundCloudTrack (soundcloudSearch world n vibeInput) timeout
  | spotify => raceOutcome p transformSpotifyTrack (spotifySearch world n vibeInput) timeout
  end.

(** The events [searchProvider] adds for that call. *)
Definition callEvents (p : MusicProvider) (timeout : Z)
    (o : Outcome (list UnifiedTrack)) : list Event :=
  match o with
  | Returns _ => [AdapterCall p timeout]
  | Throws message => [AdapterCall p timeout; SearchFailed p message]
  end.

Section Run.
Variable world : World.
Variable vibeInput : string.
Variable searchConfig : SearchConfig.

Definition timeoutOf (p : MusicProvider) : Z :=
  timeout (configOf (configProviders searchConfig) p).

(** Whenever it is called, the adapter of [p] fails: it throws, or the
    timer wins. *)
Definition adapterFails (p : MusicProvider) : Prop :=
  forall n, exists message,
    adapterOutcome world p n vibeInput (timeoutOf p) = Throws message.

(** Whenever it is called, the adapter of [p] returns at least one
    track in time. *)
Definition adapterFinds (p : MusicProvider) : Prop :=
  forall n, exists track more,
    adapterOutcome world p n vibeInput (timeoutOf p) = Returns (track :: more).

(** Whenever it is called, the adapter of [p] that returns in time
    returns fewer than [maxResults] tracks. *)
Definition adapterBelowMax (p : MusicProvider) : Prop :=
  forall n,
    (Z.of_nat (length (yielded (adapterOutcome world p n vibeInput (timeoutOf p))))
     < maxResults searchConfig)%Z.

(** No adapter call brings a track: each one fails, or times out, or
    returns an empty response. *)
Definition fruitless : Prop :=
  forall p n, yielded (adapterOutcome world p n vibeInput (timeoutOf p)) = [].

(** Every adapter call returns in time, with tracks or without. *)
Definition noAdapterError : Prop :=
  forall p n, exists tracks,
    adapterOutcome world p n vibeInput (timeoutOf p) = Returns tracks.

(** One provider is enabled and the fallback is disabled: the
    configuration in which the primary loop rethrows what it catches. *)
Definition soleProvider : bool :=
  (length (enabledProviders searchConfig) =? 1)%nat
  && negb (fallbackEnabled searchConfig).
End Run.

Section Phases.
Variable world : World.
Variable vibeInput : string.
Variable searchConfig : SearchConfig.

(** The tracks the [n]-th adapter call brings when it is made to [p]. *)
Definition brought (p : MusicProvider) (n : nat) : list UnifiedTrack :=
  yielded (adapterOutcome world p n vibeInput (timeoutOf searchConfig p)).

(** [allTracks.push(...tracks); usedProviders.push(provider)] when
    [tracks] is not empty. *)
Definition accumulate (p : MusicProvider) (tracks : list UnifiedTrack)
    (acc : Accumulated) : Accumulated :=
  if (0 <? length tracks)%nat
  then ((fst acc ++ tracks)%list, (snd acc ++ [p])%list)
  else acc.

(** The primary loop leaves by [break] after these tracks. *)
Definition stopsEarly (tracks : list UnifiedTrack) (acc : Accumulated) : bool :=
  (0 <? length tracks)%nat
  && (maxResults searchConfig <=? Z.of_nat (length (fst acc ++ tracks)%list))%Z
  && negb (fallbackEnabled searchConfig).

(** The arrays the primary loop leaves, and the number of adapter
    calls made when it ends, from call number [n]. *)
Fixpoint primaryResult (remaining : list MusicProvider) (n : nat)
    (acc : Accumulated) : Accumulated * nat :=
  match remaining with
  | [] => (acc, n)
  | p :: rest =>
      let tracks := brought p n in
      if stopsEarly tracks acc then (accumulate p tracks acc, S n)
      else primaryResult rest (S n) (accumulate p tracks acc)
  end.

(** The values of the settled promises of the fallback, from call
    number [n], each with its provider. *)
Fixpoint parallelResults (ps : list MusicProvider) (n : nat)
    : list (MusicProvider * list UnifiedTrack) :=
  match ps with
  | [] => []
  | p :: rest => (p, brought p n) :: parallelResults rest (S n)
  end.

(** The calls of the fallback from call number [n], each with its number. *)
Definition startedCalls (ps : list MusicProvider) (n : nat)
    : list (MusicProvider * nat) :=
  mapIndexFrom (fun p i => (p, i)) n ps.

(** The failures logged as these calls settle. *)
Fixpoint failureEvents (order : list (MusicProvider * nat)) : list Event :=
  match order with
  | [] => []
  | (p, k) :: rest =>
      match adapterOutcome world p k vibeInput (timeoutOf searchConfig p) with
      | Returns _ => failureEvents rest
      | Throws message => SearchFailed p message :: failureEvents rest
      end
  end.

(** The events of the fallback's calls: all the calls are made, then the
    failures are logged in the order in which the calls settle. *)
Definition parallelEvents (ps : list MusicProvider) (n : nat) : list Event :=
  (map (fun p => AdapterCall p (timeoutOf searchConfig p)) ps
   ++ failureEvents (sort (bySettling world vibeInput searchConfig)
                          (startedCalls ps n)))%list.

(** The events of the primary loop from call number [n], and the
    providers whose adapters it calls. *)
Fixpoint primaryEvents (remaining : list MusicProvider) (n : nat)
    (acc : Accumulated) : list Event :=
  match remaining with
  | [] => []
  | p :: rest =>
      let tracks := brought p n in
      (Searching p
       :: callEvents p (timeoutOf searchConfig p)
            (adapterOutcome world p n vibeInput (timeoutOf searchConfig p))
       ++ (if stopsEarly tracks acc then []
           else primaryEvents rest (S n) (accumulate p tracks acc)))%list
  end.

Fixpoint primaryCalls (remaining : list MusicProvider) (n : nat)
    (acc : Accumulated) : list MusicProvider :=
  match remaining with
  | [] => []
  | p :: rest =>
      let tracks := brought p n in
      p :: (if stopsEarly tracks acc then []
            else primaryCalls rest (S n) (accumulate p tracks acc))
  end.

(** The merge of the fallback: a result is pushed when it is not empty
    and its provider is not yet among the used ones. *)
Fixpoint mergeNew (results : list (MusicProvider * list UnifiedTrack))
    (acc : Accumulated) : Accumulated :=
  match results with
  | [] => acc
  | (p, value) :: rest =>
      mergeNew rest
        (if (0 <? length value)%nat && negb (usedIncludes (snd acc) p)
         then ((fst acc ++ value)%list, (snd acc ++ [p])%list)
         else acc)
  end.
(** The response built from the arrays the two phases leave. *)
Definition responseOf (acc : Accumulated) : UnifiedSearchResponse :=
  let rankedTracks :=
    mergeAndRankResults world (fst acc) vibeInput (maxResults searchConfig) in
  {| tracks := rankedTracks;
     totalResults := Z.of_nat (length rankedTracks);
     providers := snd acc;
     searchTime := (endTime world - startTime world)%Z |}.
End Phases.

(** The adapter calls among the events, in order. *)
Fixpoint adapterCalls (es : list Event) : list MusicProvider :=
  match es with
  | [] => []
  | AdapterCall p _ :: rest => p :: adapterCalls rest
  | _ :: rest => adapterCalls rest
  end.

(** The case-insensitive (title, artist) pair of a track. *)
Definition titleArtist (track : UnifiedTrack) : string * string :=
  (toLowerCase (title track), toLowerCase (artist track)).

(** The elements of [arr] that no element of [before] or earlier element
    of [arr] shares the key of. *)
Fixpoint firstOccurrences {A : Type} (key : A -> string) (before arr : list A)
    : list A :=
  match arr with
  | [] => []
  | x :: rest =>
      if existsb (fun y => String.eqb (key y) (key x)) before
      then firstOccurrences key (before ++ [x])%list rest
      else x :: firstOccurrences key (before ++ [x])%list rest
  end.

(** [x] stands in [arr] at an index before which no element has its key. *)
Definition isFirstOccurrence {A : Type} (key : A -> string) (arr : list A) (x : A)
    : Prop :=
  exists i, nth_error arr i = Some x
            /\ forall j y, (j < i)%nat -> nth_error arr j = Some y -> key y <> key x.

End Observed.

(* ================================================================== *)
(** ** Scenarios: concrete inputs *)

Module Scenario.
Import Js Effect Unified.

(** An adapter call that throws after 100 ms. *)
Definition failing {T : Type} (message : string) : AdapterRun T :=
  {| latency := 100; settles := Throws message |}.

(** An adapter call that returns these tracks after 100 ms. *)
Definition answering {T : Type} (tracks : list T) : AdapterRun T :=
  {| latency := 100; settles := Returns (Some tracks) |}.

(** Every adapter throws, as its [catch] block does on a transport error
    or when its credentials are missing. *)
Definition allFail : World :=
  {| youtubeSearch := fun _ _ => failing "Failed to search YouTube videos";
     soundcloudSearch := fun _ _ => failing "Failed to search SoundCloud tracks";
     spotifySearch := fun _ _ => failing "Failed to search Spotify tracks";
     startTime := 1717200000000;
     endTime := 1717200000250;
     scoreTime := fun _ => 1717200000200%Z |}.

(** Every adapter answers, and finds nothing. *)
Definition allEmpty : World :=
  {| youtubeSearch := fun _ _ => answering [];
     soundcloudSearch := fun _ _ => answering [];
     spotifySearch := fun _ _ => answering [];
     startTime := 1717200000000;
     endTime := 1717200000250;
     scoreTime := fun _ => 1717200000200%Z |}.

Definition nothingFound : UnifiedSearchResponse :=
  {| tracks := []; totalResults := 0; providers := []; searchTime := 250 |}.

(** Spotify alone, without fallback. *)
Definition onlySpotify : PartialSearchConfig :=
  {| partialProviders :=
       Some {| spotifyConfig := {| enabled := true; priority := 1; timeout := 8000 |};
               youtubeConfig := {| enabled := false; priority := 2; timeout := 15000 |};
               soundcloudConfig := {| enabled := false; priority := 3; timeout := 10000 |};
               keys := [spotify; youtube; soundcloud] |};
     partialMaxResults := None;
     partialFallbackEnabled := Some false |}.

(** Ten videos and three SoundCloud tracks. *)
Definition video (n : Z) : YouTube.YouTubeTrack :=
  {| YouTube.videoId := "yt-" ++ showInt n;
     YouTube.title := "Night Drive Mix " ++ showInt n;
     YouTube.channelTitle := "Wave Music";
     YouTube.duration := 215;
     YouTube.thumbnail := "";
     YouTube.publishedAt :=
       {| text := "2024-01-01T00:00:00Z"; getTime := Some 1704067200000%Z |};
     YouTube.viewCount := 250000 |}.

Definition sound (n : Z) : SoundCloud.SoundCloudTrack :=
  {| SoundCloud.id := showInt n;
     SoundCloud.title := "Night Drive Session " ++ showInt n;
     SoundCloud.artist := "Coastline";
     SoundCloud.duration := 198;
     SoundCloud.thumbnail := "";
     SoundCloud.streamUrl := "";
     SoundCloud.publishedAt :=
       {| text := "2024-02-01T00:00:00Z"; getTime := Some 1706745600000%Z |};
     SoundCloud.playCount := 4200;
     SoundCloud.genre := Some "Electronic";
     SoundCloud.description := None;
     SoundCloud.waveformUrl := None;
     SoundCloud.permalink := "" |}.

Definition tenVideos : list YouTube.YouTubeTrack :=
  map video [1; 2; 3; 4; 5; 6; 7; 8; 9; 10]%Z.

Definition threeSounds : list SoundCloud.SoundCloudTrack :=
  map sound [1; 2; 3]%Z.

(** Spotify answers after its timeout of 8000 ms; YouTube returns ten
    tracks and SoundCloud three. *)
Definition spotifyTimesOut : World :=
  {| youtubeSearch := fun _ _ => answering tenVideos;
     soundcloudSearch := fun _ _ => answering threeSounds;
     spotifySearch := fun _ _ => {| latency := 9000; settles := Returns (Some []) |};
     startTime := 1717200000000;
     endTime := 1717200008400;
     scoreTime := fun _ => 1717200008300%Z |}.

Definition threeProviders : Providers :=
  {| spotifyConfig := {| enabled := true; priority := 1; timeout := 8000 |};
     youtubeConfig := {| enabled := true; priority := 2; timeout := 15000 |};
     soundcloudConfig := {| enabled := true; priority := 3; timeout := 10000 |};
     keys := [spotify; youtube; soundcloud] |}.

(** The three providers enabled; the rest as by default. *)
Definition allThree : PartialSearchConfig :=
  {| partialProviders := Some threeProviders;
     partialMaxResults := None;
     partialFallbackEnabled := None |}.

(** The three providers enabled, the fallback disabled. *)
Definition allThreeNoFallback : PartialSearchConfig :=
  {| partialProviders := Some threeProviders;
     partialMaxResults := None;
     partialFallbackEnabled := Some false |}.

(** Two words with a tab between them. *)
Definition tabSeparated : string :=
  "sunday" ++ String (ascii_of_nat 9) "morning".

(** The Spotify service with credentials and no token yet. *)
Definition spotifyService : Spotify.Service :=
  {| Spotify.clientId := "client-id";
     Spotify.clientSecret := "client-secret";
     Spotify.accessToken := None;
     Spotify.tokenExpiry := 0;
     Spotify.sent := [] |}.

(** A hit of the Spotify catalog. *)
Definition hit (id name : string) (preview : option string) (popularity : Z)
    : Spotify.Item :=
  {| Spotify.item_id := id;
     Spotify.item_name := Some name;
     Spotify.item_artists := Some ["Pharrell Williams"];
     Spotify.item_album :=
       Some {| Spotify.album_name := Some "G I R L";
               Spotify.album_images := ["https://i.scdn.co/image/cover"];
               Spotify.album_genres := None;
               Spotify.album_release_date :=
                 Some {| text := "2014-03-03"; getTime := Some 1393804800000%Z |} |};
     Spotify.item_duration_ms := Some 232720%Z;
     Spotify.item_preview_url := preview;
     Spotify.item_spotify_url := Some ("https://open.spotify.com/track/" ++ id);
     Spotify.item_popularity := Some popularity |}.

(** The catalog answers the query with [items]; the audio-features
    endpoint refuses. *)
Definition catalog (items : list Spotify.Item) : Spotify.World :=
  {| Spotify.dateNow := 1717200000000;
     Spotify.fullYear := 2024;
     Spotify.tokenEndpoint :=
       FetchOk {| Spotify.access_token := "BQD-token"; Spotify.expires_in := 3600 |};
     Spotify.searchEndpoint := fun _ => FetchOk (Some items);
     Spotify.audioFeaturesEndpoint := fun _ => FetchNotOk 403 |}.

(** Two hits with a preview: the first query yields two valid tracks. *)
Definition twoHits : list Spotify.Item :=
  [ hit "60nZcImufyMA1MKQY3dcCH" "Happy" (Some "https://p.scdn.co/mp3-preview/1") 80;
    hit "5b88tNINg4Q4nrRbrCXUmg" "Happy - Live" (Some "https://p.scdn.co/mp3-preview/2") 55 ].


(** The YouTube service before its first request. *)
Definition youtubeService : YouTube.Service :=
  {| YouTube.attempts := 0; YouTube.sent := [] |}.

(** YouTube answers every search with an empty list of items. *)
Definition youtubeFindsNothing : YouTube.World :=
  fun _ =>
    {| YouTube.mathRandom := 3 # 4;
       YouTube.oneYearAgo := fun _ => 1685577600000%Z;
       YouTube.nowISOString :=
         fun _ => {| text := "2024-06-01T00:00:00.000Z"; getTime := Some 1717200000000%Z |};
       YouTube.searchList := fun _ => FetchOk (Some []);
       YouTube.videosList := fun _ => FetchOk (Some []) |}.

(** The first and the second query of the YouTube adapter for "lofi study". *)
Definition firstQuery : string :=
  "chill music study lofi -tutorial -review -reaction -interview -vlog"
  ++ " -news -documentary -podcast -talk -lecture".

Definition retryQuery : string :=
  "chill music study lofi -tutorial -review -reaction".

(** Two Spotify tracks of popularity 0, one released in 2014 and one on
    1 January 2024. *)
Definition release (id name : string) (published : DateString) : UnifiedTrack :=
  {| id := id;
     title := name;
     artist := "Tycho";
     duration := 215;
     thumbnail := "";
     publishedAt := published;
     popularity := 0;
     provider := spotify;
     streamUrl := Some "https://p.scdn.co/mp3-preview/3";
     genre := None;
     permalink := None;
     waveformUrl := None |}.

Definition oldRelease : UnifiedTrack :=
  release "sp-old" "Awake" {| text := "2014-03-18"; getTime := Some 1395100800000%Z |}.

Definition newRelease : UnifiedTrack :=
  release "sp-new" "Infinite Health"
    {| text := "2024-01-01"; getTime := Some 1704067200000%Z |}.

(** A world whose clock reads [t] throughout. *)
Definition clockAt (t : Z) : World :=
  {| youtubeSearch := fun _ _ => answering [];
     soundcloudSearch := fun _ _ => answering [];
     spotifySearch := fun _ _ => answering [];
     startTime := t;
     endTime := t;
     scoreTime := fun _ => t |}.

(** 1 June 2024 and 1 January 2026, in milliseconds. *)
Definition june2024 : Z := 1717200000000.
Definition january2026 : Z := 1767225600000.

End Scenario.

(* ================================================================== *)
(** ** What the filters of the adapters leave true of a track *)

Module Filters.
Import Js.

(** A track of the YouTube adapter that [isValidMusicVideo] lets
    through: an id, one to thirty minutes, more than ten minutes only
    with a playlist word in the title, a hundred views, no excluded
    word in the title. *)
Definition validVideo (t : YouTube.YouTubeTrack) : bool :=
  let title := toLowerCase (YouTube.title t) in
  truthy (YouTube.videoId t)
  && (60 <=? YouTube.duration t)%Z && (YouTube.duration t <=? 1800)%Z
  && ((YouTube.duration t <=? 600)%Z
      || includes title "playlist" || includes title "mix"
      || includes title "compilation")
  && (100 <=? YouTube.viewCount t)%Z
  && negb (someIncluded title
             [ "tutorial"; "lesson"; "how to"; "reaction"; "review"; "podcast";
               "interview"; "live stream"; "full album"; "audiobook"; "lecture" ]).

(** A track of the SoundCloud adapter that [isValidMusicTrack] lets
    through: thirty seconds to twenty minutes, no excluded word in the
    title or in the description. *)
Definition validSound (t : SoundCloud.SoundCloudTrack) : bool :=
  let badKeywords :=
    [ "podcast"; "interview"; "talk"; "lecture"; "speech";
      "news"; "radio show"; "advertisement"; "commercial" ] in
  (30 <=? SoundCloud.duration t)%Z && (SoundCloud.duration t <=? 1200)%Z
  && negb (someIncluded (toLowerCase (SoundCloud.title t)) badKeywords)
  && match SoundCloud.description t with
     | Some d => negb (someIncluded (toLowerCase d) badKeywords)
     | None => true
     end.

End Filters.

(* ================================================================== *)
(** ** The duration of a video (src/lib/youtube.ts) *)

Module Iso8601.
Import Js.

(** The regular-expression class [\d]. *)
Definition isDigit (c : ascii) : bool :=
  let n := nat_of_ascii c in (48 <=? n)%nat && (n <=? 57)%nat.

(** The longest run of digits at the head of [s], and what follows it. *)
Fixpoint spanDigits (s : string) : string * string :=
  match s with
  | EmptyString => (EmptyString, EmptyString)
  | String c rest =>
      if isDigit c
      then let (ds, after) := spanDigits rest in (String c ds, after)
      else (EmptyString, s)
  end.

(** The optional group [(\d+U)?] at the head of [s], for the unit letter
    [U]: the digits it captures, if it takes part in the match, and what
    follows the group.  The run of digits is followed by a character that
    is no digit, so the group matches with the whole run or not at all. *)
Definition group (unit : ascii) (s : string) : option string * string :=
  match spanDigits s with
  | (String d ds, String c after) =>
      if Ascii.eqb c unit then (Some (String d ds), after) else (None, s)
  | _ => (None, s)
  end.

(** What follows the first occurrence of ["PT"] in [s]. *)
Fixpoint afterPT (s : string) : option string :=
  match s with
  | EmptyString => None
  | String c rest =>
      match rest with
      | String d after =>
          if Ascii.eqb c "P" && Ascii.eqb d "T" then Some after else afterPT rest
      | EmptyString => None
      end
  end.

(** [parseInt(ds)] for a string of digits. *)
Definition parseInt (ds : string) : Z :=
  let fix go (acc : Z) (s : string) : Z :=
    match s with
    | EmptyString => acc
    | String c rest => go (acc * 10 + (Z.of_nat (nat_of_ascii c) - 48))%Z rest
    end in
  go 0%Z ds.

(** [parseInt(captured?.replace(U, '') || '0')] *)
Definition number (captured : option string) : Z :=
  match captured with
  | Some ds => parseInt (orElse ds "0")
  | None => parseInt "0"
  end.

(** [duration.match(/PT(\d+H)?(\d+M)?(\d+S)?/)], then the seconds. *)
Definition parseISO8601Duration (duration : string) : Z :=
  match afterPT duration with
  | None => 0%Z
  | Some rest =>
      let (hoursText, rest) := group "H" rest in
      let (minutesText, rest) := group "M" rest in
      let (secondsText, _) := group "S" rest in
      let hours := number hoursText in
      let minutes := number minutesText in
      let seconds := number secondsText in
      (hours * 3600 + minutes * 60 + seconds)%Z
  end.

(** An element of [videosResponse.data.items] from its raw fields, as
    [performSearch] reads it: it skips a missing or empty duration. *)
Definition videoItem (id : string) (duration : option string) (viewCount : Z)
    : YouTube.VideoItem :=
  {| YouTube.video_id := id;
     YouTube.details_duration :=
       match duration with
       | Some d => if truthy d then Some (parseISO8601Duration d) else None
       | None => None
       end;
     YouTube.statistics_viewCount := viewCount |}.

(** A component of a duration the way ISO 8601 writes it: its digits,
    then its unit letter; nothing for an absent component. *)
Definition component (digits : option string) (unit : string) : string :=
  match digits with
  | Some ds => ds ++ unit
  | None => ""
  end.

Fixpoint allDigits (s : string) : bool :=
  match s with
  | EmptyString => true
  | String c rest => isDigit c && allDigits rest
  end.

(** The digits of a component that is present are one digit or more. *)
Definition wellFormed (digits : option string) : bool :=
  match digits with
  | Some ds => truthy ds && allDigits ds
  | None => true
  end.

End Iso8601.

(* ================================================================== *)
(** ** Provider status and the smart search of the aggregator *)

Module Smart.
Import Js Effect Unified.

(** The variables of [process.env] the services read; [None] is unset. *)
Record Env := {
  YOUTUBE_API_KEY : option string;
  SOUNDCLOUD_CLIENT_ID : option string;
  SPOTIFY_CLIENT_ID : option string;
  SPOTIFY_CLIENT_SECRET : option string
}.

(** [!!process.env.X] *)
Definition isSet (variable : option string) : bool :=
  match variable with
  | Some value => truthy value
  | None => false
  end.

(** [process.env.X || ''] *)
Definition orEmpty (variable : option string) : string :=
  match variable with
  | Some value => value
  | None => ""
  end.

(** [new SpotifyService()] *)
Definition spotifyService (env : Env) : Spotify.Service :=
  {| Spotify.clientId := orEmpty (SPOTIFY_CLIENT_ID env);
     Spotify.clientSecret := orEmpty (SPOTIFY_CLIENT_SECRET env);
     Spotify.accessToken := None;
     Spotify.tokenExpiry := 0;
     Spotify.sent := [] |}.

Record Status := {
  available : bool;
  configured : bool
}.

(** [Record<MusicProvider, Status>], with the keys in the order the
    object literal of [getProviderStatus] declares them. *)
Record ProviderStatus := {
  youtubeStatus : Status;
  soundcloudStatus : Status;
  spotifyStatus : Status
}.

Definition statusOf (providerStatus : ProviderStatus) (p : MusicProvider) : Status :=
  match p with
  | youtube => youtubeStatus providerStatus
  | soundcloud => soundcloudStatus providerStatus
  | spotify => spotifyStatus providerStatus
  end.

(** [Object.entries(providerStatus)] *)
Definition statusEntries (providerStatus : ProviderStatus)
    : list (MusicProvider * Status) :=
  map (fun p => (p, statusOf providerStatus p)) [youtube; soundcloud; spotify].

Definition getProviderStatus (env : Env) : ProviderStatus :=
  {| youtubeStatus :=
       {| available := true; configured := isSet (YOUTUBE_API_KEY env) |};
     soundcloudStatus :=
       {| available := true; configured := isSet (SOUNDCLOUD_CLIENT_ID env) |};
     spotifyStatus :=
       {| available := true;
          configured := Spotify.isConfigured (spotifyService env) |} |}.

(** The configuration [smartSearch] builds. *)
Definition smartConfig (providerStatus : ProviderStatus) : PartialSearchConfig :=
  {| partialProviders :=
       Some {| soundcloudConfig :=
                 {| enabled := configured (soundcloudStatus providerStatus);
                    priority := 1;
                    timeout := 10000 |};
               youtubeConfig :=
                 {| enabled := configured (youtubeStatus providerStatus);
                    priority :=
                      if configured (soundcloudStatus providerStatus) then 2 else 1;
                    timeout := 15000 |};
               spotifyConfig := {| enabled := true; priority := 1; timeout := 8000 |};
               keys := [soundcloud; youtube; spotify] |};
     partialMaxResults := None;
     partialFallbackEnabled := Some true |}.

Definition smartSearch (world : World) (env : Env) (vibeInput : string)
    : M Service UnifiedSearchResponse :=
  let providerStatus := getProviderStatus env in
  searchMusic world vibeInput (smartConfig providerStatus).

End Smart.

(* ================================================================== *)
(** ** The rate limiter of the routes *)

Module RateLimit.

(** [RATE_LIMIT] *)
Record Limit := {
  windowMs : Z;
  maxRequests : Z
}.

Record Entry := {
  count : Z;
  resetTime : Z
}.

(** [rateLimitStore], a [Map] from keys to entries. *)
Definition Store : Type := string -> option Entry.

Definition emptyStore : Store := fun _ => None.

(** [rateLimitStore.set(key, entry)] *)
Definition set (key : string) (entry : Entry) (store : Store) : Store :=
  fun k => if String.eqb k key then Some entry else store k.

(** [now] is the value of [Date.now()].  The verdict, and the store the
    call leaves. *)
Definition isRateLimited (limit : Limit) (now : Z) (key : string) (store : Store)
    : bool * Store :=
  let opened :=
    set key {| count := 1; resetTime := (now + windowMs limit)%Z |} store in
  match store key with
  | None => (false, opened)
  | Some record =>
      if (resetTime record <? now)%Z then (false, opened)
      else if (maxRequests limit <=? count record)%Z then (true, store)
      else
        (false,
         set key {| count := (count record + 1)%Z; resetTime := resetTime record |}
             store)
  end.

(** The verdicts of a sequence of calls, each at its instant for its
    key, and the store they leave. *)
Fixpoint serve (limit : Limit) (calls : list (Z * string)) (store : Store)
    : list bool * Store :=
  match calls with
  | [] => ([], store)
  | (now, key) :: rest =>
      let (verdict, store) := isRateLimited limit now key store in
      let (verdicts, store) := serve limit rest store in
      (verdict :: verdicts, store)
  end.

(** The calls made for [key], each with the verdict it got. *)
Fixpoint verdictsFor (key : string) (calls : list (Z * string)) (verdicts : list bool)
    : list bool :=
  match calls, verdicts with
  | (_, k) :: calls, verdict :: verdicts =>
      if String.eqb k key then verdict :: verdictsFor key calls verdicts
      else verdictsFor key calls verdicts
  | _, _ => []
  end.

End RateLimit.

(* ================================================================== *)
(** ** What the routes read from a request *)

Module Http.
Import Js.

(** A JSON value, or [undefined]: a string, or any other value, of which
    the routes read the truthiness only. *)
Inductive Value :=
| Undefined
| Str (s : string)
| Other (isTruthy : bool).

Definition valueTruthy (v : Value) : bool :=
  match v with
  | Undefined => false
  | Str s => truthy s
  | Other isTruthy => isTruthy
  end.

(** [a || b] *)
Definition orValue (a b : Value) : Value := if valueTruthy a then a else b.

(** The fields of the body the routes read.  A body that is no object
    has none of them. *)
Record Body := {
  vibeInput : Value;
  moodInput : Value;
  provider : Value
}.

Record Request := {
  forwardedFor : option string;    (* [headers.get('x-forwarded-for')] *)
  realIp : option string;          (* [headers.get('x-real-ip')] *)
  json : option Body               (* [await request.json().catch(() => null)];
                                      [None] is [null] *)
}.

(** [body?.field] *)
Definition chain (body : option Body) (field : Body -> Value) : Value :=
  match body with
  | Some b => field b
  | None => Undefined
  end.

(** [forwarded?.split(',')[0] || request.headers.get('x-real-ip') || 'unknown'] *)
Definition clientIp (request : Request) : string :=
  let forwarded := forwardedFor request in
  orElse
    match forwarded with
    | Some f => first (splitOn "," f)
    | None => ""
    end
    (orElse
       match realIp request with
       | Some ip => ip
       | None => ""
       end
       "unknown").

End Http.

(* ================================================================== *)
(** ** The YouTube search route (src/app/api/youtube/search/route.ts) *)

Module YouTubeRoute.
Import Js Effect Http.

Definition RATE_LIMIT : RateLimit.Limit :=
  {| RateLimit.windowMs := 60 * 1000; RateLimit.maxRequests := 10 |}.

Definition getRateLimitKey (request : Request) : string :=
  "youtube_search_" ++ clientIp request.

(** A row of the table [tracks]; its [audio_features] and [mood_scores]
    are empty objects. *)
Record Row := {
  external_id : string;
  title : string;
  artist : string;
  duration_ms : Z;
  thumbnail_url : string;
  provider : string;
  popularity_score : Q;
  explicit : bool
}.

Inductive Response :=
| Failure (status : Z) (error : string) (fallback : option bool)
| Success (results : list YouTube.YouTubeTrack) (totalResults : Z)
          (query : string) (timestamp : DateString).

(** The status of the response; [NextResponse.json] answers 200 by default. *)
Definition statusOf (response : Response) : Z :=
  match response with
  | Failure status _ _ => status
  | Success _ _ _ _ => 200
  end.

(** What the outside gives to one request. *)
Record World := {
  dateNow : Z;                       (* [Date.now()] in [isRateLimited] *)
  YOUTUBE_API_KEY : option string;   (* [process.env.YOUTUBE_API_KEY] *)
  youtube : YouTube.World;           (* what the adapter is given *)
  createClient : bool;               (* [createClient] returns a client
                                        ([false]: it throws) *)
  nowISOString : DateString          (* [new Date().toISOString()] *)
}.

(** What the route does that can be seen from outside. *)
Inductive Event :=
| Searched (vibeInput : string) (requests : list YouTube.Request)
                               (* the adapter was called, and sent these requests *)
| Upserted (rows : list Row).  (* the rows given to [upsert] *)

(** The state of the module: the store of the limiter, and the events. *)
Record Server := {
  rateLimitStore : RateLimit.Store;
  events : list Event
}.

Definition emit (e : Event) (server : Server) : Server :=
  {| rateLimitStore := rateLimitStore server;
     events := (events server ++ [e])%list |}.

Definition isRateLimited (now : Z) (key : string) (server : Server) : bool * Server :=
  let (verdict, store) :=
    RateLimit.isRateLimited RATE_LIMIT now key (rateLimitStore server) in
  (verdict, {| rateLimitStore := store; events := events server |}).

(** [tracks.map(track => ({ ... }))] *)
Definition tracksToInsert (tracks : list YouTube.YouTubeTrack) : list Row :=
  map (fun track =>
         {| external_id := YouTube.videoId track;
            title := YouTube.title track;
            artist := YouTube.channelTitle track;
            duration_ms := (YouTube.duration track * 1000)%Z;
            thumbnail_url := YouTube.thumbnail track;
            provider := "youtube";
            popularity_score := Qmin (inject_Z (YouTube.viewCount track) / 1000000) 10;
            explicit := false |})
      tracks.

(** The rows are upserted when the client can be created; the function
    catches every error and its result is not used. *)
Definition saveTracksToDatabase (world : World) (tracks : list YouTube.YouTubeTrack)
    (server : Server) : Server :=
  if createClient world then emit (Upserted (tracksToInsert tracks)) server
  else server.

(** [new YouTubeService()] *)
Definition youtubeService : YouTube.Service :=
  {| YouTube.attempts := 0; YouTube.sent := [] |}.

(** The handler of [POST].  Outside the inner [try] nothing throws, so
    the outer [catch], which would answer 500, is not entered. *)
Definition POST (world : World) (request : Request) (server : Server)
    : Response * Server :=
  let rateLimitKey := getRateLimitKey request in
  let (limited, server) := isRateLimited (dateNow world) rateLimitKey server in
  if limited
  then (Failure 429 "Rate limit exceeded. Please try again later." None, server)
  else
    let body := json request in
    let inputValue := orValue (chain body vibeInput) (chain body moodInput) in
    match body, inputValue with
    | Some _, Str inputValue =>
        if negb (truthy (trim inputValue)) || (150 <? String.length inputValue)%nat
        then
          (Failure 400
             ("Invalid vibe input. Must be 1-150 characters. "
              ++ "Describe your vibe, environment, and speed.") None,
           server)
        else if negb (Smart.isSet (YOUTUBE_API_KEY world))
        then (Failure 500 "YouTube API is not configured." None, server)
        else
          let run :=
            YouTube.searchMusic (youtube world) (trim inputValue) youtubeService in
          let server :=
            emit (Searched (trim inputValue) (YouTube.sent (final run))) server in
          match result run with
          | Throws message =>
              if includes message "quota"
              then
                (Failure 503 "YouTube API quota exceeded. Please try again later."
                         (Some true),
                 server)
              else if includes message "timeout"
              then (Failure 504 "Request timeout. Please try again." None, server)
              else
                (Failure 500 "Failed to search YouTube. Please try again." None,
                 server)
          | Returns searchResult =>
              let server :=
                if (0 <? length (YouTube.tracks searchResult))%nat
                then saveTracksToDatabase world (YouTube.tracks searchResult) server
                else server in
              (Success (YouTube.tracks searchResult)
                       (YouTube.totalResults searchResult)
                       (trim inputValue) (nowISOString world),
               server)
          end
    | _, _ =>
        (Failure 400
           "Invalid request. vibeInput is required (vibe, environment, speed)." None,
         server)
    end.

(** [GET], [PUT] and [DELETE] *)
Definition methodNotAllowed : Response :=
  Failure 405 "Method not allowed. Use POST." None.

End YouTubeRoute.

(* ================================================================== *)
(** ** The Spotify search route *)

Module SpotifyRoute.
Import Js Effect Http.

Definition RATE_LIMIT : RateLimit.Limit :=
  {| RateLimit.windowMs := 60 * 1000; RateLimit.maxRequests := 30 |}.

Definition getRateLimitKey (request : Request) : string :=
  "spotify_search_" ++ clientIp request.

(** The [metadata] of a success also says [previewsOnly: true],
    [previewDuration: 30] and [audioFeaturesIncluded: true]. *)
Inductive Response :=
| Failure (status : Z) (error : string) (fallback : option bool)
          (suggestion : option string)
| Success (results : list Spotify.SpotifyTrack) (totalResults : Z)
          (provider : string) (query : string) (timestamp : DateString)
          (tracksWithAudioFeatures : Z).

Definition statusOf (response : Response) : Z :=
  match response with
  | Failure status _ _ _ => status
  | Success _ _ _ _ _ _ => 200
  end.

Record World := {
  dateNow : Z;                       (* [Date.now()] in [isRateLimited] *)
  env : Smart.Env;                   (* [process.env] *)
  spotify : Spotify.World;           (* what the adapter is given *)
  nowISOString : DateString          (* [new Date().toISOString()] *)
}.

Inductive Event :=
| Searched (vibeInput : string) (requests : list Spotify.Request)
                               (* the adapter was called, and sent these requests *)
| Saved (tracks : list Spotify.SpotifyTrack).
                               (* [saveTracksToDatabase] was called *)

Record Server := {
  rateLimitStore : RateLimit.Store;
  events : list Event
}.

Definition emit (e : Event) (server : Server) : Server :=
  {| rateLimitStore := rateLimitStore server;
     events := (events server ++ [e])%list |}.

Definition isRateLimited (now : Z) (key : string) (server : Server) : bool * Server :=
  let (verdict, store) :=
    RateLimit.isRateLimited RATE_LIMIT now key (rateLimitStore server) in
  (verdict, {| rateLimitStore := store; events := events server |}).

(** The handler of [POST]; as in the YouTube route, its outer [catch] is
    not entered. *)
Definition POST (world : World) (request : Request) (server : Server)
    : Response * Server :=
  let rateLimitKey := getRateLimitKey request in
  let (limited, server) := isRateLimited (dateNow world) rateLimitKey server in
  if limited
  then (Failure 429 "Rate limit exceeded. Please try again later." None None, server)
  else
    let body := json request in
    let inputValue := orValue (chain body vibeInput) (chain body moodInput) in
    match body, inputValue with
    | Some _, Str inputValue =>
        if negb (truthy (trim inputValue)) || (150 <? String.length inputValue)%nat
        then
          (Failure 400
             ("Invalid vibe input. Must be 1-150 characters. "
              ++ "Describe your vibe, environment, and speed.") None None,
           server)
        else
          let spotifyService := Smart.spotifyService (env world) in
          if negb (Spotify.isConfigured spotifyService)
          then
            (Failure 500
               ("Spotify API is not configured. Please add SPOTIFY_CLIENT_ID and "
                ++ "SPOTIFY_CLIENT_SECRET to your environment variables.") None None,
             server)
          else
            let run :=
              Spotify.searchMusic (spotify world) (trim inputValue) spotifyService in
            let server :=
              emit (Searched (trim inputValue) (Spotify.sent (final run))) server in
            match result run with
            | Throws message =>
                if includes message "auth failed" || includes message "401"
                then
                  (Failure 401
                     "Spotify authentication failed. Please check your API credentials."
                     (Some false) None,
                   server)
                else if includes message "429" || includes message "rate limit"
                then
                  (Failure 503 "Spotify API rate limit exceeded. Please try again later."
                           (Some false) None,
                   server)
                else if includes message "timeout"
                then (Failure 504 "Request timeout. Please try again." None None, server)
                else
                  (Failure 500 "Failed to search Spotify. Please try again." None None,
                   server)
            | Returns searchResult =>
                if (length (Spotify.tracks searchResult) =? 0)%nat
                then
                  (Failure 404
                     ("No tracks with previews found for this mood. "
                      ++ "Try a different vibe or mood.")
                     None
                     (Some ("Try terms like " ++ String (ascii_of_nat 34) "happy pop"
                            ++ String (ascii_of_nat 34) ", "
                            ++ String (ascii_of_nat 34) "chill electronic"
                            ++ String (ascii_of_nat 34) ", or "
                            ++ String (ascii_of_nat 34) "energetic rock"
                            ++ String (ascii_of_nat 34) "")),
                   server)
                else
                  let server :=
                    if (0 <? length (Spotify.tracks searchResult))%nat
                    then emit (Saved (Spotify.tracks searchResult)) server
                    else server in
                  (Success (Spotify.tracks searchResult)
                           (Spotify.totalResults searchResult)
                           "spotify" (trim inputValue) (nowISOString world)
                           (Z.of_nat
                              (length
                                 (filter
                                    (fun t =>
                                       match Spotify.audioFeatures t with
                                       | Some _ => true
                                       | None => false
                                       end)
                                    (Spotify.tracks searchResult)))),
                   server)
            end
    | _, _ =>
        (Failure 400
           "Invalid request. vibeInput is required (vibe, environment, speed)."
           None None,
         server)
    end.

Definition methodNotAllowed : Response :=
  Failure 405 "Method not allowed. Use POST." None None.

End SpotifyRoute.

(* ================================================================== *)
(** ** The unified search route *)

Module UnifiedRoute.
Import Js Effect Http.

Definition RATE_LIMIT : RateLimit.Limit :=
  {| RateLimit.windowMs := 60 * 1000; RateLimit.maxRequests := 20 |}.

Definition getRateLimitKey (request : Request) : string :=
  "unified_music_search_" ++ clientIp request.

(** The [providers] field of an error body. *)
Inductive ProvidersField :=
| NoField
| StatusField (providerStatus : Smart.ProviderStatus)
| AvailableField (availableProviders : list string).

Inductive Response :=
| Failure (status : Z) (error : string) (fallback : option bool)
          (providers : ProvidersField)
| Success (results : list Unified.UnifiedTrack) (totalResults : Z)
          (providers : list Unified.MusicProvider) (searchTime : Z)
          (providerStatus : Smart.ProviderStatus) (query : string)
          (timestamp : DateString).

Definition statusOf (response : Response) : Z :=
  match response with
  | Failure status _ _ _ => status
  | Success _ _ _ _ _ _ _ => 200
  end.

Record World := {
  dateNow : Z;                       (* [Date.now()] in [isRateLimited] *)
  env : Smart.Env;                   (* [process.env] *)
  unified : Unified.World;           (* what the aggregator is given *)
  nowISOString : DateString          (* [new Date().toISOString()] *)
}.

Inductive Event :=
| Searched (vibeInput : string) (calls : list Unified.Event)
                               (* the aggregator was called, and did this *)
| Saved (tracks : list Unified.UnifiedTrack).
                               (* [saveTracksToDatabase] was called *)

Record Server := {
  rateLimitStore : RateLimit.Store;
  events : list Event
}.

Definition emit (e : Event) (server : Server) : Server :=
  {| rateLimitStore := rateLimitStore server;
     events := (events server ++ [e])%list |}.

Definition isRateLimited (now : Z) (key : string) (server : Server) : bool * Server :=
  let (verdict, store) :=
    RateLimit.isRateLimited RATE_LIMIT now key (rateLimitStore server) in
  (verdict, {| rateLimitStore := store; events := events server |}).

(** [Object.entries(providerStatus).filter(([_, status]) => status.configured)
      .map(([provider]) => provider)] *)
Definition availableProviders (providerStatus : Smart.ProviderStatus) : list string :=
  map (fun entry => Unified.providerName (fst entry))
      (filter (fun entry => Smart.configured (snd entry))
              (Smart.statusEntries providerStatus)).

(** [preferredProvider && availableProviders.includes(preferredProvider)] *)
Definition prefers (preferredProvider : Value) (available : list string) : bool :=
  valueTruthy preferredProvider
  && match preferredProvider with
     | Str name => arrayIncludes available name
     | _ => false
     end.

(** [preferredProvider === name] *)
Definition isName (preferredProvider : Value) (name : string) : bool :=
  match preferredProvider with
  | Str s => String.eqb s name
  | _ => false
  end.

Definition customConfig (preferredProvider : Value) : Unified.PartialSearchConfig :=
  {| Unified.partialProviders :=
       Some {| Unified.youtubeConfig :=
                 {| Unified.enabled := isName preferredProvider "youtube";
                    Unified.priority := 1;
                    Unified.timeout := 15000 |};
               Unified.soundcloudConfig :=
                 {| Unified.enabled := isName preferredProvider "soundcloud";
                    Unified.priority := 1;
                    Unified.timeout := 10000 |};
               Unified.spotifyConfig :=
                 {| Unified.enabled := false;
                    Unified.priority := 3;
                    Unified.timeout := 8000 |};
               Unified.keys := [Unified.youtube; Unified.soundcloud; Unified.spotify] |};
     Unified.partialMaxResults := None;
     Unified.partialFallbackEnabled := Some false |}.

(** The handler of [POST]; as in the YouTube route, its outer [catch] is
    not entered. *)
Definition POST (world : World) (request : Request) (server : Server)
    : Response * Server :=
  let rateLimitKey := getRateLimitKey request in
  let (limited, server) := isRateLimited (dateNow world) rateLimitKey server in
  if limited
  then (Failure 429 "Rate limit exceeded. Please try again later." None NoField, server)
  else
    let body := json request in
    let inputValue := orValue (chain body vibeInput) (chain body moodInput) in
    let preferredProvider := chain body provider in
    match body, inputValue with
    | Some _, Str inputValue =>
        if negb (truthy (trim inputValue)) || (150 <? String.length inputValue)%nat
        then
          (Failure 400
             ("Invalid vibe input. Must be 1-150 characters. "
              ++ "Describe your vibe, environment, and speed.") None NoField,
           server)
        else
          let providerStatus := Smart.getProviderStatus (env world) in
          let available := availableProviders providerStatus in
          if (length available =? 0)%nat
          then
            (Failure 503
               ("No music providers configured. Please configure at least one "
                ++ "provider (YouTube, SoundCloud).") None (StatusField providerStatus),
             server)
          else
            let run :=
              if prefers preferredProvider available
              then Unified.searchMusic (unified world) (trim inputValue)
                     (customConfig preferredProvider) Unified.start
              else Smart.smartSearch (unified world) (env world) (trim inputValue)
                     Unified.start in
            let server :=
              emit (Searched (trim inputValue) (Unified.events (final run))) server in
            match result run with
            | Throws message =>
                if includes message "quota" || includes message "429"
                then
                  (Failure 503 "API quota exceeded. Please try again later."
                           (Some true) (AvailableField available),
                   server)
                else if includes message "timeout"
                then
                  (Failure 504
                     "Search timeout. Please try again with a different query."
                     None (AvailableField available),
                   server)
                else if includes message "No music providers"
                then
                  (Failure 503 "No music providers available." None
                           (StatusField providerStatus),
                   server)
                else
                  (Failure 500 "Failed to search music. Please try again." None
                           (AvailableField available),
                   server)
            | Returns searchResult =>
                let server :=
                  if (0 <? length (Unified.tracks searchResult))%nat
                  then emit (Saved (Unified.tracks searchResult)) server
                  else server in
                (Success (Unified.tracks searchResult)
                         (Unified.totalResults searchResult)
                         (Unified.providers searchResult)
                         (Unified.searchTime searchResult)
                         providerStatus (trim inputValue) (nowISOString world),
                 server)
            end
    | _, _ =>
        (Failure 400
           "Invalid request. vibeInput is required (vibe, environment, speed)."
           None NoField,
         server)
    end.

Definition methodNotAllowed : Response :=
  Failure 405 "Method not allowed. Use POST." None NoField.

End UnifiedRoute.

(* ================================================================== *)
(** ** More concrete inputs *)

Module Sample.
Import Js Effect.

(** A Spotify track with audio features. *)
Definition features : Spotify.SpotifyAudioFeatures :=
  {| Spotify.danceability := 7 # 10;
     Spotify.af_energy := 8 # 10;
     Spotify.key := 5;
     Spotify.loudness := -(6);
     Spotify.mode := 1;
     Spotify.speechiness := 1 # 10;
     Spotify.acousticness := 2 # 10;
     Spotify.instrumentalness := 0;
     Spotify.liveness := 1 # 10;
     Spotify.af_valence := 9 # 10;
     Spotify.tempo := 160;
     Spotify.timeSignature := 4 |}.

Definition featured : Spotify.SpotifyTrack :=
  Spotify.transformTrack
    (Scenario.hit "60nZcImufyMA1MKQY3dcCH" "Happy" (Some "https://p.scdn.co/mp3-preview/1") 80)
    (Some features).

(** The Spotify service after it fetched the token of [Scenario.catalog]. *)
Definition withToken : Spotify.Service :=
  {| Spotify.clientId := "client-id";
     Spotify.clientSecret := "client-secret";
     Spotify.accessToken := Some "BQD-token";
     Spotify.tokenExpiry := 1717200000000 + 3600 * 1000 - 60000;
     Spotify.sent := [Spotify.TokenRequest] |}.

(** The same catalog, half an hour later. *)
Definition halfAnHourLater : Spotify.World :=
  {| Spotify.dateNow := 1717200000000 + 1800 * 1000;
     Spotify.fullYear := 2024;
     Spotify.tokenEndpoint := FetchRejects;
     Spotify.searchEndpoint := fun _ => FetchOk (Some []);
     Spotify.audioFeaturesEndpoint := fun _ => FetchNotOk 403 |}.

(** No variable is set. *)
Definition nothingSet : Smart.Env :=
  {| Smart.YOUTUBE_API_KEY := None;
     Smart.SOUNDCLOUD_CLIENT_ID := None;
     Smart.SPOTIFY_CLIENT_ID := None;
     Smart.SPOTIFY_CLIENT_SECRET := None |}.

(** Only the Spotify credentials are set. *)
Definition spotifyOnly : Smart.Env :=
  {| Smart.YOUTUBE_API_KEY := None;
     Smart.SOUNDCLOUD_CLIENT_ID := Some "";
     Smart.SPOTIFY_CLIENT_ID := Some "client-id";
     Smart.SPOTIFY_CLIENT_SECRET := Some "client-secret" |}.

(** A request of one client for Spotify tracks. *)
Definition asksForSpotify : Http.Request :=
  {| Http.forwardedFor := Some "203.0.113.7, 10.0.0.1";
     Http.realIp := None;
     Http.json :=
       Some {| Http.vibeInput := Http.Str "  chill beats ";
               Http.moodInput := Http.Undefined;
               Http.provider := Http.Str "spotify" |} |}.

Definition unifiedWorld : UnifiedRoute.World :=
  {| UnifiedRoute.dateNow := 1717200000000;
     UnifiedRoute.env := spotifyOnly;
     UnifiedRoute.unified := Scenario.allEmpty;
     UnifiedRoute.nowISOString :=
       {| text := "2024-06-01T00:00:00.000Z"; getTime := Some 1717200000000%Z |} |}.

Definition freshServer : UnifiedRoute.Server :=
  {| UnifiedRoute.rateLimitStore := RateLimit.emptyStore;
     UnifiedRoute.events := [] |}.

(** The track [track] with another number of plays. *)
Definition played (track : Unified.UnifiedTrack) (times : Z) : Unified.UnifiedTrack :=
  {| Unified.id := Unified.id track;
     Unified.title := Unified.title track;
     Unified.artist := Unified.artist track;
     Unified.duration := Unified.duration track;
     Unified.thumbnail := Unified.thumbnail track;
     Unified.publishedAt := Unified.publishedAt track;
     Unified.popularity := times;
     Unified.provider := Unified.provider track;
     Unified.streamUrl := Unified.streamUrl track;
     Unified.genre := Unified.genre track;
     Unified.permalink := Unified.permalink track;
     Unified.waveformUrl := Unified.waveformUrl track |}.


(** Eleven instants after a first call at 0, a second apart. *)
Definition burst : list Z :=
  [1000; 2000; 3000; 4000; 5000; 6000; 7000; 8000; 9000; 10000; 11000]%Z.

(** Three tracks of three (title, artist) pairs; the first two have one
    title and artist when these are joined by a hyphen. *)
Definition song (id title artist : string) : Unified.UnifiedTrack :=
  {| Unified.id := id;
     Unified.title := title;
     Unified.artist := artist;
     Unified.duration := 200;
     Unified.thumbnail := "";
     Unified.publishedAt := noDate;
     Unified.popularity := 50;
     Unified.provider := Unified.spotify;
     Unified.streamUrl := None;
     Unified.genre := None;
     Unified.permalink := None;
     Unified.waveformUrl := None |}.

Definition blueByJayZ : Unified.UnifiedTrack := song "sp-1" "Blue" "Jay-Z".
Definition blueJayByZ : Unified.UnifiedTrack := song "sp-2" "Blue-Jay" "Z".
Definition amberByKite : Unified.UnifiedTrack := song "sp-3" "Amber" "Kite".

(** One video and one SoundCloud track of January 2024, as the two
    services describe them; the adapters' worlds in which every search
    finds them, by what the clock reads. *)
Definition clip : YouTube.SearchItem :=
  {| YouTube.id_videoId := Some "dQw4w9WgXcQ";
     YouTube.snippet_title := Some "Lofi Study Mix";
     YouTube.snippet_channelTitle := Some "Wave Music";
     YouTube.snippet_publishedAt :=
       Some {| text := "2024-01-01T00:00:00Z"; getTime := Some 1704067200000%Z |};
     YouTube.thumbnails_high := None;
     YouTube.thumbnails_medium := None;
     YouTube.thumbnails_default := None |}.

Definition clipDetails : YouTube.VideoItem :=
  {| YouTube.video_id := "dQw4w9WgXcQ";
     YouTube.details_duration := Some 215%Z;
     YouTube.statistics_viewCount := 250000 |}.

Definition youtubeAt (yearAgo : Z) (today : string) (random : Q) : YouTube.World :=
  fun _ =>
    {| YouTube.mathRandom := random;
       YouTube.oneYearAgo := fun _ => yearAgo;
       YouTube.nowISOString := fun _ => {| text := today; getTime := None |};
       YouTube.searchList := fun _ => FetchOk (Some [clip]);
       YouTube.videosList := fun _ => FetchOk (Some [clipDetails]) |}.

Definition session : SoundCloud.Item :=
  {| SoundCloud.item_id := 7;
     SoundCloud.item_title := Some "Lofi Study Session";
     SoundCloud.item_description := None;
     SoundCloud.item_duration := 198000;
     SoundCloud.item_streamable := true;
     SoundCloud.item_genre := Some "Lofi";
     SoundCloud.item_playback_count := Some 4200%Z;
     SoundCloud.item_artwork_url := None;
     SoundCloud.item_username := Some "Coastline";
     SoundCloud.item_avatar_url := None;
     SoundCloud.item_stream_url := None;
     SoundCloud.item_created_at :=
       Some {| text := "2024-01-01T00:00:00Z"; getTime := Some 1704067200000%Z |};
     SoundCloud.item_waveform_url := None;
     SoundCloud.item_permalink_url := None |}.

Definition soundcloudAt (yearAgo : Z) (today : string) : SoundCloud.World :=
  {| SoundCloud.oneYearAgo := fun _ => yearAgo;
     SoundCloud.nowISOString := fun _ => {| text := today; getTime := None |};
     SoundCloud.tracksEndpoint := fun _ => FetchOk (Some [session]) |}.

Definition soundcloudService : SoundCloud.Service :=
  {| SoundCloud.clientId := "client-id"; SoundCloud.sent := [] |}.

(** Spotify never answers within its 8000 ms; YouTube throws on the first
    three adapter calls of the service and returns two videos, after
    300 ms, from the fourth on; SoundCloud returns one track. *)
Definition youtubeRecovers : Unified.World :=
  {| Unified.youtubeSearch := fun n _ =>
       if (n <? 3)%nat then Scenario.failing "Failed to search YouTube videos"
       else {| Unified.latency := 300;
               Unified.settles := Returns (Some [Scenario.video 1; Scenario.video 2]) |};
     Unified.soundcloudSearch := fun _ _ => Scenario.answering [Scenario.sound 1];
     Unified.spotifySearch := fun _ _ =>
       {| Unified.latency := 9000; Unified.settles := Returns (Some []) |};
     Unified.startTime := 1717200000000;
     Unified.endTime := 1717200016400;
     Unified.scoreTime := fun _ => 1717200016300%Z |}.

End Sample.

(* ================================================================== *)
(** * Properties *)

(** ** Arrays *)

Section ArrayFacts.
Import Js.
Context {A : Type}.

Lemma insertSorted_perm (precedes : A -> A -> bool) (a : A) (l : list A) :
  Permutation (insertSorted precedes a l) (a :: l).
Proof.
  induction l as [|b l IH]; simpl.
  - apply Permutation_refl.
  - destruct (precedes a b).
    + apply Permutation_refl.
    + eapply perm_trans; [apply perm_skip, IH | apply perm_swap].
Qed.

Lemma sort_perm (precedes : A -> A -> bool) (l : list A) :
  Permutation (sort precedes l) l.
Proof.
  induction l as [|a l IH]; simpl.
  - apply perm_nil.
  - eapply perm_trans; [apply insertSorted_perm | apply perm_skip, IH].
Qed.

Lemma slice0_prefix (n : Z) (l : list A) :
  exists k, slice0 n l = firstn k l.
Proof.
  unfold slice0. destruct (0 <=? n)%Z; eexists; reflexivity.
Qed.

Lemma slice0_incl (n : Z) (l : list A) (x : A) :
  In x (slice0 n l) -> In x l.
Proof.
  destruct (slice0_prefix n l) as [k ->].
  rewrite <- (firstn_skipn k l) at 2. intro H. apply in_or_app. now left.
Qed.

Lemma slice0_nil (n : Z) : slice0 n (@nil A) = [].
Proof.
  destruct (slice0_prefix n (@nil A)) as [k ->]. apply firstn_nil.
Qed.

Lemma firstn_NoDup (k : nat) (l : list A) : NoDup l -> NoDup (firstn k l).
Proof.
  intro H. rewrite <- (firstn_skipn k l) in H.
  now apply NoDup_app_remove_r in H.
Qed.

Lemma mapIndexFrom_fst {B : Type} (f : A -> nat -> B) (start : nat) (l : list A) :
  map fst (mapIndexFrom (fun x i => (x, f x i)) start l) = l.
Proof.
  revert start. induction l as [|x l IH]; intro start; simpl.
  - reflexivity.
  - now rewrite IH.
Qed.

Lemma mapIndexFrom_length {B : Type} (f : A -> nat -> B) (start : nat) (l : list A) :
  length (mapIndexFrom f start l) = length l.
Proof.
  revert start. induction l as [|x l IH]; intro start; simpl; [reflexivity|].
  now rewrite IH.
Qed.

(** *** The duplicate filter *)

Variable key : A -> string.

Local Abbreviation sameKey x := (fun y => String.eqb (key y) (key x)).

Lemma findIndexFrom_found (p : A -> bool) (start : nat) (l : list A) :
  existsb p l = true ->
  (Z.of_nat start <= findIndexFrom p start l < Z.of_nat (start + length l))%Z.
Proof.
  revert start. induction l as [|x l IH]; intros start H; simpl in *.
  - discriminate.
  - destruct (p x).
    + lia.
    + simpl in H. specialize (IH (S start) H). lia.
Qed.

Lemma findIndexFrom_app (p : A -> bool) (start : nat) (pre suf : list A) :
  findIndexFrom p start (pre ++ suf)%list =
  if existsb p pre then findIndexFrom p start pre
  else findIndexFrom p (start + length pre) suf.
Proof.
  revert start. induction pre as [|x pre IH]; intro start; simpl.
  - now rewrite Nat.add_0_r.
  - destruct (p x); simpl.
    + reflexivity.
    + rewrite IH. now rewrite Nat.add_succ_r.
Qed.

Lemma keeps_first (pre suf : list A) (x : A) :
  (findIndex (sameKey x) (pre ++ x :: suf)%list =? Z.of_nat (length pre))%Z
  = negb (existsb (sameKey x) pre).
Proof.
  unfold findIndex. rewrite findIndexFrom_app.
  destruct (existsb (sameKey x) pre) eqn:E; simpl.
  - apply findIndexFrom_found with (start := 0%nat) in E.
    apply Z.eqb_neq. simpl in E. lia.
  - rewrite String.eqb_refl. apply Z.eqb_refl.
Qed.

Lemma filterIndexFrom_firstOccurrences (pre suf : list A) :
  filterIndexFrom
    (fun x index => (findIndex (sameKey x) (pre ++ suf)%list =? Z.of_nat index)%Z)
    (length pre) suf
  = Observed.firstOccurrences key pre suf.
Proof.
  revert pre. induction suf as [|x suf IH]; intro pre; simpl.
  - reflexivity.
  - rewrite keeps_first.
    specialize (IH (pre ++ [x])%list).
    rewrite <- app_assoc in IH. simpl in IH.
    rewrite length_app in IH. simpl in IH. rewrite Nat.add_1_r in IH.
    destruct (existsb (sameKey x) pre); simpl; now rewrite IH.
Qed.

Lemma uniqueBy_firstOccurrences (l : list A) :
  uniqueBy key l = Observed.firstOccurrences key [] l.
Proof.
  apply (filterIndexFrom_firstOccurrences [] l).
Qed.

Lemma existsb_sameKey (x : A) (l : list A) :
  existsb (sameKey x) l = true <-> In (key x) (map key l).
Proof.
  rewrite existsb_exists. split.
  - intros [y [Hy E]]. apply String.eqb_eq in E. rewrite <- E. now apply in_map.
  - intro H. apply in_map_iff in H. destruct H as [y [E Hy]].
    exists y. split; [assumption|]. now apply String.eqb_eq.
Qed.

Lemma firstOccurrences_keys (pre suf : list A) (x : A) :
  In x (Observed.firstOccurrences key pre suf) ->
  In x suf /\ ~ In (key x) (map key pre).
Proof.
  revert pre. induction suf as [|y suf IH]; intros pre H; simpl in *.
  - contradiction.
  - destruct (existsb (fun z => String.eqb (key z) (key y)) pre) eqn:E.
    + apply IH in H. destruct H as [H1 H2]. split; [now right|].
      intro H3. apply H2. rewrite map_app. apply in_or_app. now left.
    + destruct H as [H|H].
      * subst y. split; [now left|].
        intro H3. apply (existsb_sameKey x pre) in H3. congruence.
      * apply IH in H. destruct H as [H1 H2]. split; [now right|].
        intro H3. apply H2. rewrite map_app. apply in_or_app. now left.
Qed.

Lemma firstOccurrences_NoDup (pre suf : list A) :
  NoDup (map key (Observed.firstOccurrences key pre suf)).
Proof.
  revert pre. induction suf as [|y suf IH]; intro pre; simpl.
  - constructor.
  - destruct (existsb (fun z => String.eqb (key z) (key y)) pre).
    + apply IH.
    + simpl. constructor; [|apply IH].
      intro H. apply in_map_iff in H. destruct H as [z [E Hz]].
      apply firstOccurrences_keys in Hz. destruct Hz as [_ Hz].
      apply Hz. rewrite map_app. apply in_or_app. right. simpl. left.
      now symmetry.
Qed.

Lemma uniqueBy_NoDup (l : list A) : NoDup (map key (uniqueBy key l)).
Proof.
  rewrite uniqueBy_firstOccurrences. apply firstOccurrences_NoDup.
Qed.

Lemma uniqueBy_incl (l : list A) (x : A) : In x (uniqueBy key l) -> In x l.
Proof.
  rewrite uniqueBy_firstOccurrences. intro H.
  now apply firstOccurrences_keys in H.
Qed.

Lemma firstOccurrences_iff (pre suf : list A) (x : A) :
  In x (Observed.firstOccurrences key pre suf) <->
  exists i, nth_error suf i = Some x
            /\ ~ In (key x) (map key pre)
            /\ forall j y, (j < i)%nat -> nth_error suf j = Some y -> key y <> key x.
Proof.
  revert pre. induction suf as [|y suf IH]; intro pre; simpl.
  - split; [contradiction|]. intros [i [H _]]. destruct i; discriminate.
  - assert (Hstep :
      In x (Observed.firstOccurrences key (pre ++ [y])%list suf) <->
      exists i, nth_error (y :: suf) (S i) = Some x
                /\ ~ In (key x) (map key pre) /\ key y <> key x
                /\ forall j z, (j < i)%nat -> nth_error suf j = Some z -> key z <> key x).
    { rewrite IH. split; intros [i [H1 [H2 H3]]]; exists i.
      - rewrite map_app in H2. simpl in H2.
        repeat split; try assumption.
        + intro H. apply H2, in_or_app. now left.
        + intro H. apply H2, in_or_app. right. now left.
      - destruct H3 as [H3 H4]. repeat split; try assumption.
        rewrite map_app. intro H. apply in_app_or in H. simpl in H.
        destruct H as [H|[H|[]]]; [now apply H2 | now apply H3]. }
    destruct (existsb (sameKey y) pre) eqn:E.
    + rewrite Hstep. split.
      * intros [i [H1 [H2 [H3 H4]]]]. exists (S i). repeat split; try assumption.
        intros [|j] z Hj Hz; simpl in Hz.
        -- now injection Hz as <-.
        -- apply (H4 j); [lia | assumption].
      * intros [[|i] [H1 [H2 H3]]]; simpl in H1.
        -- injection H1 as ->. apply existsb_sameKey in E. contradiction.
        -- exists i. repeat split; try assumption.
           ++ apply (H3 0%nat); [lia | reflexivity].
           ++ intros j z Hj Hz. apply (H3 (S j)); [lia | assumption].
    + simpl. rewrite Hstep. split.
      * intros [<-|[i [H1 [H2 [H3 H4]]]]].
        -- exists 0%nat. repeat split.
           ++ intro H. apply existsb_sameKey in H. congruence.
           ++ intros j z Hj. lia.
        -- exists (S i). repeat split; try assumption.
           intros [|j] z Hj Hz; simpl in Hz.
           ++ now injection Hz as <-.
           ++ apply (H4 j); [lia | assumption].
      * intros [[|i] [H1 [H2 H3]]]; simpl in H1.
        -- left. now injection H1.
        -- right. exists i. repeat split; try assumption.
           ++ apply (H3 0%nat); [lia | reflexivity].
           ++ intros j z Hj Hz. apply (H3 (S j)); [lia | assumption].
Qed.

Lemma uniqueBy_first (l : list A) (x : A) :
  In x (uniqueBy key l) <-> Observed.isFirstOccurrence key l x.
Proof.
  rewrite uniqueBy_firstOccurrences, firstOccurrences_iff.
  unfold Observed.isFirstOccurrence.
  split; intros [i H]; exists i; intuition.
Qed.

End ArrayFacts.

(** ** The aggregator, phase by phase *)

Section AggregatorFacts.
Import Js Effect Unified Observed.
Variable world : World.
Variable vibeInput : string.

Lemma providerEqb_eq (a b : MusicProvider) : providerEqb a b = true <-> a = b.
Proof. destruct a, b; simpl; split; congruence. Qed.

Lemma usedIncludes_In (used : list MusicProvider) (p : MusicProvider) :
  usedIncludes used p = true <-> In p used.
Proof.
  unfold usedIncludes. rewrite existsb_exists. split.
  - intros [q [Hq E]]. apply providerEqb_eq in E. now subst.
  - intro H. exists p. split; [assumption | now apply providerEqb_eq].
Qed.

(** [searchProvider] never throws: a failed call gives no track. *)
Lemma searchProvider_run (p : MusicProvider) (timeout : Z) (s : Service) :
  searchProvider world p vibeInput timeout s =
  (Returns (yielded (adapterOutcome world p (calls s) vibeInput timeout)),
   {| calls := S (calls s);
      events := (events s
                 ++ callEvents p timeout
                      (adapterOutcome world p (calls s) vibeInput timeout))%list |}).
Proof.
  unfold searchProvider, tryCatch, bind, nextCall, emit, modify, get, ret.
  unfold adapterOutcome, raceOutcome, race.
  destruct p; simpl;
    match goal with
    | |- context [(latency ?r <? timeout)%Z] =>
        destruct (latency r <? timeout)%Z; [destruct (settles r)|]
    end; unfold ret, throw; simpl; rewrite <- ?app_assoc; reflexivity.
Qed.

Lemma transformAll_provider {T : Type} (transform : T -> UnifiedTrack)
    (p : MusicProvider) (response : option (list T)) (t : UnifiedTrack) :
  (forall x, provider (transform x) = p) ->
  In t (transformAll transform response) -> provider t = p.
Proof.
  intros H Ht. destruct response as [l|]; simpl in Ht; [|contradiction].
  apply in_map_iff in Ht. destruct Ht as [x [<- _]]. apply H.
Qed.

(** Every track an adapter call brings carries the name of its provider. *)
Lemma yielded_provider (p : MusicProvider) (n : nat) (timeout : Z) (t : UnifiedTrack) :
  In t (yielded (adapterOutcome world p n vibeInput timeout)) -> provider t = p.
Proof.
  unfold adapterOutcome, raceOutcome.
  destruct p;
    match goal with
    | |- context [(latency ?r <? timeout)%Z] =>
        destruct (latency r <? timeout)%Z; [destruct (settles r)|]
    end; simpl; try contradiction;
    apply transformAll_provider; reflexivity.
Qed.

Variable searchConfig : SearchConfig.

Lemma primaryStep_run (p : MusicProvider) (acc : Accumulated) (s : Service) :
  let tracks := brought world vibeInput searchConfig p (calls s) in
  primaryStep world vibeInput searchConfig p acc s =
  (Returns (stopsEarly searchConfig tracks acc, accumulate p tracks acc),
   {| calls := S (calls s);
      events := ((events s ++ [Searching p])
                 ++ callEvents p (timeoutOf searchConfig p)
                      (adapterOutcome world p (calls s) vibeInput
                         (timeoutOf searchConfig p)))%list |}).
Proof.
  intro tracks. subst tracks.
  unfold primaryStep, brought, stopsEarly, accumulate, timeoutOf.
  unfold bind at 1. unfold emit at 1, modify at 1.
  unfold tryCatch, bind. rewrite searchProvider_run. cbn [calls events].
  destruct (0 <? length _)%nat; cbn [andb].
  - destruct ((maxResults searchConfig <=? _)%Z && negb (fallbackEnabled searchConfig));
      reflexivity.
  - reflexivity.
Qed.

Lemma primaryLoop_run (remaining : list MusicProvider) (acc : Accumulated) (s : Service) :
  exists s',
    primaryLoop world vibeInput searchConfig remaining acc s =
    (Returns (fst (primaryResult world vibeInput searchConfig remaining (calls s) acc)), s')
    /\ calls s' = snd (primaryResult world vibeInput searchConfig remaining (calls s) acc).
Proof.
  revert acc s. induction remaining as [|p rest IH]; intros acc s; simpl.
  - exists s. split; reflexivity.
  - unfold bind. rewrite primaryStep_run. simpl fst. simpl snd.
    destruct (stopsEarly searchConfig _ acc).
    + eexists. split; reflexivity.
    + edestruct IH as [s' [E1 E2]]. exists s'. split; [exact E1 | exact E2].
Qed.

(** The primary loop, with the events it leaves. *)
Lemma primaryLoop_trace (remaining : list MusicProvider) (acc : Accumulated) (s : Service) :
  primaryLoop world vibeInput searchConfig remaining acc s =
  (Returns (fst (primaryResult world vibeInput searchConfig remaining (calls s) acc)),
   {| calls := snd (primaryResult world vibeInput searchConfig remaining (calls s) acc);
      events := (events s
                 ++ primaryEvents world vibeInput searchConfig remaining (calls s) acc)%list |}).
Proof.
  revert acc s. induction remaining as [|p rest IH]; intros acc s; simpl.
  - unfold ret. rewrite app_nil_r. now destruct s.
  - unfold bind. rewrite primaryStep_run. cbn [fst snd].
    destruct (stopsEarly searchConfig _ acc).
    + unfold ret. cbn [fst snd]. rewrite app_nil_r, <- app_assoc. reflexivity.
    + rewrite IH. cbn [calls events]. rewrite <- !app_assoc. reflexivity.
Qed.

(** The fallback starts its searches one after the other, none settled. *)
Lemma startAll_run (ps : list MusicProvider) (s : Service) :
  startAll searchConfig ps s =
  (Returns (startedCalls ps (calls s)),
   {| calls := (calls s + length ps)%nat;
      events := (events s
                 ++ map (fun p => AdapterCall p (timeoutOf searchConfig p)) ps)%list |}).
Proof.
  unfold startedCalls. revert s. induction ps as [|p rest IH]; intro s; simpl.
  - unfold ret. rewrite Nat.add_0_r, app_nil_r. now destruct s.
  - unfold bind, startSearch, nextCall, emit, modify, get, bind, ret. cbn [calls events].
    rewrite IH. cbn [calls events]. rewrite <- app_assoc.
    replace (S (calls s) + length rest)%nat with (calls s + S (length rest))%nat by lia.
    reflexivity.
Qed.

(** A started search that settles never throws: a failed call gives no
    track, and its failure is logged. *)
Lemma awaitSearch_run (p : MusicProvider) (timeout : Z) (n : nat) (s : Service) :
  awaitSearch world p vibeInput timeout n s =
  (Returns (yielded (adapterOutcome world p n vibeInput timeout)),
   {| calls := calls s;
      events := (events s
                 ++ match adapterOutcome world p n vibeInput timeout with
                    | Returns _ => []
                    | Throws message => [SearchFailed p message]
                    end)%list |}).
Proof.
  unfold awaitSearch, tryCatch, bind, emit, modify, get, ret.
  unfold adapterOutcome, raceOutcome, race.
  destruct p; simpl;
    match goal with
    | |- context [(latency ?r <? timeout)%Z] =>
        destruct (latency r <? timeout)%Z; [destruct (settles r)|]
    end; unfold ret, throw; simpl; rewrite ?app_nil_r; try reflexivity;
    now destruct s.
Qed.

(** [searchProvider] is its two parts, one after the other. *)
Lemma searchProvider_parts (p : MusicProvider) (timeout : Z) (s : Service) :
  searchProvider world p vibeInput timeout s
  = (n <- startSearch p timeout ;; awaitSearch world p vibeInput timeout n) s.
Proof.
  rewrite searchProvider_run.
  unfold bind at 1. unfold startSearch, nextCall, emit, modify, get, bind, ret.
  cbn [fst snd calls events]. rewrite awaitSearch_run. cbn [calls events].
  unfold callEvents.
  destruct (adapterOutcome world p (calls s) vibeInput timeout);
    rewrite <- ?app_assoc; cbn [app]; rewrite ?app_nil_r; reflexivity.
Qed.

Lemma awaitAll_run (order : list (MusicProvider * nat)) (s : Service) :
  awaitAll world vibeInput searchConfig order s =
  (Returns (map (fun c => (snd c,
                           Fulfilled (brought world vibeInput searchConfig (fst c) (snd c))))
                order),
   {| calls := calls s;
      events := (events s ++ failureEvents world vibeInput searchConfig order)%list |}).
Proof.
  revert s. induction order as [|[p k] rest IH]; intro s; simpl.
  - unfold ret. rewrite app_nil_r. now destruct s.
  - unfold bind, settle. rewrite awaitSearch_run. rewrite IH. unfold ret.
    cbn [calls events fst snd]. fold (timeoutOf searchConfig p).
    unfold brought.
    destruct (adapterOutcome world p k vibeInput (timeoutOf searchConfig p));
      rewrite <- ?app_assoc; cbn [app]; rewrite ?app_nil_r; reflexivity.
Qed.

Lemma startedCalls_snd (ps : list MusicProvider) (n : nat) :
  map snd (startedCalls ps n) = seq n (length ps).
Proof.
  unfold startedCalls. revert n. induction ps as [|p rest IH]; intro n; simpl;
    [reflexivity | now rewrite IH].
Qed.

Lemma startedCalls_fst (ps : list MusicProvider) (n : nat) :
  map fst (startedCalls ps n) = ps.
Proof.
  unfold startedCalls. revert n. induction ps as [|p rest IH]; intro n; simpl;
    [reflexivity | now rewrite IH].
Qed.

Lemma parallelResults_indexed (ps : list MusicProvider) (n : nat) :
  parallelResults world vibeInput searchConfig ps n =
  mapIndexFrom (fun p call => (p, brought world vibeInput searchConfig p call)) n ps.
Proof.
  revert n. induction ps as [|p rest IH]; intro n; simpl;
    [reflexivity | now rewrite IH].
Qed.

Lemma parallelResults_started (ps : list MusicProvider) (n : nat) :
  parallelResults world vibeInput searchConfig ps n =
  map (fun c => (fst c, brought world vibeInput searchConfig (fst c) (snd c)))
      (startedCalls ps n).
Proof.
  unfold startedCalls. revert n. induction ps as [|p rest IH]; intro n; simpl;
    [reflexivity | now rewrite IH].
Qed.

(** Each promise of the fallback is found settled under the number of
    its call, in whatever order the promises settle. *)
Lemma outcomeOf_found {T : Type} (value : MusicProvider * nat -> Settled (list UnifiedTrack))
    (order : list (MusicProvider * nat)) (c : MusicProvider * nat) :
  NoDup (map snd order) -> In c order ->
  outcomeOf (map (fun c => (snd c, value c)) order) c = value c.
Proof.
  unfold outcomeOf. induction order as [|a order IH]; intros Hnd Hin; simpl.
  - contradiction.
  - inversion Hnd as [|x l Hx Hl]; subst. destruct Hin as [->|Hin].
    + now rewrite Nat.eqb_refl.
    + destruct (Nat.eqb_spec (snd a) (snd c)) as [E|E].
      * exfalso. apply Hx. rewrite E. now apply in_map.
      * now apply IH.
Qed.

Lemma outcomeOf_settled (order started : list (MusicProvider * nat))
    (c : MusicProvider * nat) :
  NoDup (map snd started) -> Permutation order started -> In c started ->
  outcomeOf (map (fun c => (snd c,
                            Fulfilled (brought world vibeInput searchConfig (fst c) (snd c))))
                 order) c
  = Fulfilled (brought world vibeInput searchConfig (fst c) (snd c)).
Proof.
  intros Hnd Hp Hin.
  apply (outcomeOf_found (T := unit)
           (fun c => Fulfilled (brought world vibeInput searchConfig (fst c) (snd c)))).
  - eapply Permutation_NoDup; [| exact Hnd].
    apply Permutation_map, Permutation_sym, Hp.
  - eapply Permutation_in; [apply Permutation_sym, Hp | exact Hin].
Qed.

Lemma allSettled_run (ps : list MusicProvider) (s : Service) :
  allSettled world vibeInput searchConfig ps s =
  (Returns (map (fun pv => Fulfilled (snd pv))
                (parallelResults world vibeInput searchConfig ps (calls s))),
   {| calls := (calls s + length ps)%nat;
      events := (events s
                 ++ parallelEvents world vibeInput searchConfig ps (calls s))%list |}).
Proof.
  unfold allSettled, bind. rewrite startAll_run, awaitAll_run. unfold ret.
  cbn [calls events]. unfold parallelEvents. rewrite <- app_assoc.
  rewrite parallelResults_started, map_map.
  rewrite (map_ext_in
             (outcomeOf
                (map (fun c => (snd c,
                                Fulfilled (brought world vibeInput searchConfig
                                             (fst c) (snd c))))
                     (sort (bySettling world vibeInput searchConfig)
                           (startedCalls ps (calls s)))))
             (fun c => Fulfilled
                         (snd (fst c, brought world vibeInput searchConfig
                                        (fst c) (snd c))))); [reflexivity|].
  intros c Hc. cbn [snd].
  apply (outcomeOf_settled _ (startedCalls ps (calls s)));
    [| apply sort_perm | exact Hc].
  rewrite startedCalls_snd. apply seq_NoDup.
Qed.

Lemma merge_fold (ps : list MusicProvider) (k n : nat) (acc : Accumulated) :
  (forall i p, nth_error ps i = Some p ->
               nth_error (enabledProviders searchConfig) (k + i) = Some p) ->
  fold_left (mergeSettled searchConfig)
    (mapIndexFrom (fun result index => (result, index)) k
       (map (fun pv => Fulfilled (snd pv))
            (parallelResults world vibeInput searchConfig ps n)))
    acc
  = mergeNew (parallelResults world vibeInput searchConfig ps n) acc.
Proof.
  revert k n acc. induction ps as [|p rest IH]; intros k n acc H; simpl.
  - reflexivity.
  - rewrite IH.
    + f_equal. unfold mergeSettled. cbn [fst snd].
      specialize (H 0%nat p eq_refl). rewrite Nat.add_0_r in H. rewrite H.
      destruct (0 <? length _)%nat; cbn [andb]; [|reflexivity].
      destruct (usedIncludes (snd acc) p); reflexivity.
    + intros i q Hq. specialize (H (S i) q Hq).
      now rewrite Nat.add_succ_r in H.
Qed.

Lemma parallelFallback_run (acc : Accumulated) (s : Service) :
  parallelFallback world vibeInput searchConfig acc s =
  (Returns (mergeNew (parallelResults world vibeInput searchConfig
                        (enabledProviders searchConfig) (calls s)) acc),
   {| calls := (calls s + length (enabledProviders searchConfig))%nat;
      events := (events s
                 ++ ParallelFallback
                    :: parallelEvents world vibeInput searchConfig
                         (enabledProviders searchConfig) (calls s))%list |}).
Proof.
  unfold parallelFallback, bind, emit, modify. rewrite allSettled_run.
  unfold ret. cbn [calls events]. rewrite <- app_assoc. cbn [app].
  unfold mapIndex. rewrite merge_fold; [reflexivity|].
  intros i p H. exact H.
Qed.

(** The whole search: it throws when no provider is enabled and only then;
    otherwise the primary loop runs, then the fallback when it is needed. *)
Lemma searchWith_run (s : Service) :
  enabledProviders searchConfig <> [] ->
  exists s1,
    let acc1 :=
      fst (primaryResult world vibeInput searchConfig
             (enabledProviders searchConfig) (calls s) ([], [])) in
    primaryLoop world vibeInput searchConfig (enabledProviders searchConfig) ([], []) s
    = (Returns acc1, s1)
    /\ searchWith world vibeInput searchConfig s =
       if needsFallback searchConfig acc1
       then (Returns (responseOf world vibeInput searchConfig
                        (mergeNew (parallelResults world vibeInput searchConfig
                                     (enabledProviders searchConfig) (calls s1)) acc1)),
             {| calls := (calls s1 + length (enabledProviders searchConfig))%nat;
                events := (events s1
                           ++ ParallelFallback
                              :: parallelEvents world vibeInput searchConfig
                                   (enabledProviders searchConfig) (calls s1))%list |})
       else (Returns (responseOf world vibeInput searchConfig acc1), s1).
Proof.
  intro Hne.
  destruct (primaryLoop_run (enabledProviders searchConfig) ([], []) s) as [s1 [E1 E2]].
  exists s1. cbn zeta. split; [exact E1|].
  unfold searchWith.
  destruct (enabledProviders searchConfig) as [|p ps] eqn:Eps; [contradiction|].
  rewrite <- Eps in *. unfold bind at 1. rewrite E1.
  destruct (needsFallback searchConfig _) eqn:Enf.
  - unfold bind. rewrite parallelFallback_run. reflexivity.
  - reflexivity.
Qed.

Lemma searchWith_none_enabled (s : Service) :
  enabledProviders searchConfig = [] ->
  searchWith world vibeInput searchConfig s = (Throws "No music providers enabled", s).
Proof.
  intro H. unfold searchWith. rewrite H. reflexivity.
Qed.

Lemma adapterCalls_app (es1 es2 : list Event) :
  adapterCalls (es1 ++ es2) = (adapterCalls es1 ++ adapterCalls es2)%list.
Proof.
  induction es1 as [|e es1 IH]; simpl; [reflexivity|].
  destruct e; simpl; now rewrite IH.
Qed.

Lemma adapterCalls_callEvents (p : MusicProvider) (timeout : Z)
    (o : Outcome (list UnifiedTrack)) :
  adapterCalls (callEvents p timeout o) = [p].
Proof. now destruct o. Qed.

Lemma adapterCalls_primaryEvents (remaining : list MusicProvider) (n : nat)
    (acc : Accumulated) :
  adapterCalls (primaryEvents world vibeInput searchConfig remaining n acc)
  = primaryCalls world vibeInput searchConfig remaining n acc.
Proof.
  revert n acc. induction remaining as [|p rest IH]; intros n acc; simpl; [reflexivity|].
  rewrite adapterCalls_app, adapterCalls_callEvents. cbn [app]. f_equal.
  destruct (stopsEarly searchConfig _ acc); [reflexivity | apply IH].
Qed.

(** The primary loop calls the adapters of an initial segment of its
    list: of the whole list when the fallback is enabled. *)
Lemma primaryCalls_prefix (remaining : list MusicProvider) (n : nat) (acc : Accumulated) :
  exists k,
    primaryCalls world vibeInput searchConfig remaining n acc = firstn k remaining
    /\ (remaining <> [] -> 0 < k)%nat
    /\ (fallbackEnabled searchConfig = true -> (length remaining <= k)%nat).
Proof.
  revert n acc. induction remaining as [|p rest IH]; intros n acc; simpl.
  - exists 0%nat. repeat split; [congruence | lia].
  - destruct (stopsEarly searchConfig _ acc) eqn:E.
    + exists 1%nat. split; [reflexivity|]. split; [lia|].
      intro F. unfold stopsEarly in E. rewrite F in E. cbn [negb] in E.
      rewrite andb_false_r in E. discriminate E.
    + destruct (IH (S n) (accumulate p (brought world vibeInput searchConfig p n) acc))
        as [k [H1 [_ H3]]].
      exists (S k). split; [simpl; now rewrite H1|]. split; [lia|].
      intro F. specialize (H3 F). lia.
Qed.

(** With the fallback enabled the primary loop goes through its whole
    list, and leaves the results that are not empty, in the order of the
    list, each with its provider. *)
Lemma primaryResult_found (remaining : list MusicProvider) (n : nat) (acc : Accumulated) :
  fallbackEnabled searchConfig = true ->
  let found :=
    filter (fun pv => (0 <? length (snd pv))%nat)
           (parallelResults world vibeInput searchConfig remaining n) in
  fst (primaryResult world vibeInput searchConfig remaining n acc)
  = ((fst acc ++ concat (map snd found))%list, (snd acc ++ map fst found)%list).
Proof.
  intro Hf. cbn zeta. revert n acc.
  induction remaining as [|p rest IH]; intros n [all used]; simpl.
  - now rewrite !app_nil_r.
  - unfold stopsEarly. rewrite Hf. cbn [negb]. rewrite andb_false_r.
    rewrite IH. unfold accumulate. cbn [fst snd].
    destruct (0 <? length (brought world vibeInput searchConfig p n))%nat;
      cbn [fst snd map concat]; now rewrite <- ?app_assoc.
Qed.

Lemma adapterCalls_failureEvents (order : list (MusicProvider * nat)) :
  adapterCalls (failureEvents world vibeInput searchConfig order) = [].
Proof.
  induction order as [|[p k] rest IH]; simpl; [reflexivity|].
  destruct (adapterOutcome _ _ _ _ _); simpl; exact IH.
Qed.

Lemma failureEvents_failures (order : list (MusicProvider * nat)) (e : Event) :
  In e (failureEvents world vibeInput searchConfig order) ->
  exists p k message,
    In (p, k) order
    /\ adapterOutcome world p k vibeInput (timeoutOf searchConfig p) = Throws message
    /\ e = SearchFailed p message.
Proof.
  induction order as [|[p k] rest IH]; simpl; [contradiction|].
  destruct (adapterOutcome world p k vibeInput (timeoutOf searchConfig p))
    as [tracks|m] eqn:E.
  - intro H. destruct (IH H) as [q [j [m [H1 H2]]]]. exists q, j, m. split; [now right | exact H2].
  - intros [<-|H].
    + exists p, k, m. split; [now left | split; [exact E | reflexivity]].
    + destruct (IH H) as [q [j [m' [H1 H2]]]]. exists q, j, m'. split; [now right | exact H2].
Qed.

Lemma adapterCalls_parallelEvents (ps : list MusicProvider) (n : nat) :
  adapterCalls (parallelEvents world vibeInput searchConfig ps n) = ps.
Proof.
  unfold parallelEvents. rewrite adapterCalls_app, adapterCalls_failureEvents, app_nil_r.
  induction ps as [|p rest IH]; simpl; [reflexivity | now rewrite IH].
Qed.

Lemma parallelEvents_no_fallback (ps : list MusicProvider) (n : nat) :
  ~ In ParallelFallback (parallelEvents world vibeInput searchConfig ps n).
Proof.
  unfold parallelEvents. intro H. apply in_app_or in H. destruct H as [H|H].
  - apply in_map_iff in H. destruct H as [p [H _]]. discriminate H.
  - apply failureEvents_failures in H. destruct H as [p [k [m [_ [_ H]]]]].
    discriminate H.
Qed.

(** The adapter calls of a whole search: those of the primary loop, then
    those of the fallback when it runs. *)
Lemma searchWith_calls (s : Service) :
  enabledProviders searchConfig <> [] ->
  let enabledList := enabledProviders searchConfig in
  let acc1 :=
    fst (primaryResult world vibeInput searchConfig enabledList (calls s) ([], [])) in
  adapterCalls (events (final (searchWith world vibeInput searchConfig s)))
  = (adapterCalls (events s)
     ++ primaryCalls world vibeInput searchConfig enabledList (calls s) ([], [])
     ++ (if needsFallback searchConfig acc1 then enabledList else []))%list.
Proof.
  intro Hne. cbn zeta.
  destruct (searchWith_run s Hne) as [s1 [H1 H2]]. cbn zeta in H1, H2.
  rewrite primaryLoop_trace in H1. injection H1 as <-.
  rewrite H2. unfold final.
  destruct (needsFallback searchConfig _); cbn [snd events].
  - rewrite !adapterCalls_app. cbn [adapterCalls].
    now rewrite adapterCalls_primaryEvents, adapterCalls_parallelEvents, app_assoc.
  - now rewrite adapterCalls_app, adapterCalls_primaryEvents, app_nil_r.
Qed.

(** The same, by phase: the primary loop calls the adapters of an initial
    segment of the enabled providers, not empty, and whole when the
    fallback is enabled; the fallback, when it runs, calls them all. *)
Lemma searchWith_trace (s : Service) :
  enabledProviders searchConfig <> [] ->
  exists acc s1 r s2 k,
    primaryLoop world vibeInput searchConfig (enabledProviders searchConfig) ([], []) s
    = (Returns acc, s1)
    /\ acc = fst (primaryResult world vibeInput searchConfig
                    (enabledProviders searchConfig) (calls s) ([], []))
    /\ searchWith world vibeInput searchConfig s = (Returns r, s2)
    /\ (0 < k)%nat
    /\ (fallbackEnabled searchConfig = true ->
        (length (enabledProviders searchConfig) <= k)%nat)
    /\ adapterCalls (events s1)
       = (adapterCalls (events s) ++ firstn k (enabledProviders searchConfig))%list
    /\ adapterCalls (events s2)
       = (adapterCalls (events s1)
          ++ (if needsFallback searchConfig acc
              then enabledProviders searchConfig else []))%list.
Proof.
  intro Hne.
  destruct (searchWith_run s Hne) as [s1 [H1 H2]]. cbn zeta in H1, H2.
  pose proof H1 as H1'. rewrite primaryLoop_trace in H1'. injection H1' as E1.
  destruct (primaryCalls_prefix (enabledProviders searchConfig) (calls s) ([], []))
    as [k [K1 [K2 K3]]].
  assert (Hs1 : adapterCalls (events s1)
                = (adapterCalls (events s)
                   ++ firstn k (enabledProviders searchConfig))%list).
  { rewrite <- E1. cbn [events].
    now rewrite adapterCalls_app, adapterCalls_primaryEvents, K1. }
  destruct (needsFallback searchConfig _) eqn:Enf;
    eexists; exists s1; eexists; eexists; exists k;
    (split; [exact H1|]); (split; [reflexivity|]); (split; [exact H2|]);
    (split; [now apply K2|]); (split; [exact K3|]); (split; [exact Hs1|]);
    rewrite Enf; cbn [events].
  - rewrite adapterCalls_app. cbn [adapterCalls].
    now rewrite adapterCalls_parallelEvents.
  - now rewrite app_nil_r.
Qed.

(** How often a provider occurs in a list without repetition. *)
Lemma occurrences_not_In (p : MusicProvider) (l : list MusicProvider) :
  ~ In p l -> length (filter (providerEqb p) l) = 0%nat.
Proof.
  induction l as [|q l IH]; intro H; simpl; [reflexivity|].
  destruct (providerEqb p q) eqn:E.
  - apply providerEqb_eq in E. subst q. exfalso. apply H. now left.
  - apply IH. intro F. apply H. now right.
Qed.

Lemma occurrences_NoDup (p : MusicProvider) (l : list MusicProvider) :
  NoDup l -> (length (filter (providerEqb p) l) <= 1)%nat.
Proof.
  induction 1 as [|q l Hq Hl IH]; simpl; [lia|].
  destruct (providerEqb p q) eqn:E; [|exact IH].
  apply providerEqb_eq in E. subst q. simpl.
  now rewrite occurrences_not_In.
Qed.

Lemma occurrences_In (p : MusicProvider) (l : list MusicProvider) :
  In p l -> (1 <= length (filter (providerEqb p) l))%nat.
Proof.
  intro H. assert (Hf : In p (filter (providerEqb p) l)).
  { apply filter_In. split; [exact H | now apply providerEqb_eq]. }
  destruct (filter (providerEqb p) l); [contradiction | simpl; lia].
Qed.

End AggregatorFacts.

(** ** The order of the providers *)

Section ProviderOrder.
Import Js Effect Unified Observed.
Variable searchConfig : SearchConfig.

Local Abbreviation theProviders := (configProviders searchConfig).
Local Abbreviation enabledEntries :=
  (filter (fun entry : MusicProvider * ProviderConfig => enabled (snd entry))
          (entries theProviders)).

Lemma entries_config (entry : MusicProvider * ProviderConfig) :
  In entry (entries theProviders) -> snd entry = configOf theProviders (fst entry).
Proof.
  unfold entries. intro H. apply in_map_iff in H. now destruct H as [p [<- _]].
Qed.

Lemma sorted_entries_config (entry : MusicProvider * ProviderConfig) :
  In entry (sort byPriority enabledEntries) ->
  snd entry = configOf theProviders (fst entry).
Proof.
  intro H. apply (Permutation_in _ (sort_perm _ _)) in H.
  apply filter_In in H. now apply entries_config.
Qed.

Lemma enabledProviders_In (p : MusicProvider) :
  In p (enabledProviders searchConfig) <->
  In p (keys theProviders) /\ enabled (configOf theProviders p) = true.
Proof.
  unfold enabledProviders. rewrite in_map_iff. split.
  - intros [entry [<- H]]. apply (Permutation_in _ (sort_perm _ _)) in H.
    apply filter_In in H. destruct H as [H1 H2].
    rewrite <- (entries_config entry H1). split; [|exact H2].
    unfold entries in H1. apply in_map_iff in H1. now destruct H1 as [q [<- Hq]].
  - intros [H1 H2]. exists (p, configOf theProviders p). split; [reflexivity|].
    apply (Permutation_in _ (Permutation_sym (sort_perm _ _))).
    apply filter_In. split; [|exact H2].
    unfold entries. apply in_map_iff. now exists p.
Qed.

Lemma enabledEntries_keys :
  map fst enabledEntries
  = filter (fun p => enabled (configOf theProviders p)) (keys theProviders).
Proof.
  unfold entries. induction (keys theProviders) as [|p ps IH]; simpl; [reflexivity|].
  destruct (enabled (configOf theProviders p)); simpl; now rewrite IH.
Qed.

Lemma enabledProviders_NoDup :
  NoDup (keys theProviders) -> NoDup (enabledProviders searchConfig).
Proof.
  intro H. unfold enabledProviders.
  eapply Permutation_NoDup.
  - apply Permutation_map, Permutation_sym, sort_perm.
  - rewrite enabledEntries_keys. now apply NoDup_filter.
Qed.

End ProviderOrder.

(** ** Total failure (C1, C2) *)

Section Failure.
Import Js Effect Unified Observed.
Variable world : World.
Variable vibeInput : string.
Variable searchConfig : SearchConfig.

Lemma mergeAndRankResults_nil (maxResults : Z) :
  mergeAndRankResults world [] vibeInput maxResults = [].
Proof.
  unfold mergeAndRankResults. cbn. now rewrite slice0_nil.
Qed.

Hypothesis nothing : fruitless world vibeInput searchConfig.

Lemma fruitless_primary (remaining : list MusicProvider) (n : nat) (acc : Accumulated) :
  fst (primaryResult world vibeInput searchConfig remaining n acc) = acc.
Proof.
  revert n. induction remaining as [|p rest IH]; intro n; simpl; [reflexivity|].
  unfold brought. rewrite (nothing p n). unfold stopsEarly, accumulate. simpl.
  apply IH.
Qed.

Lemma fruitless_merge (ps : list MusicProvider) (n : nat) (acc : Accumulated) :
  mergeNew (parallelResults world vibeInput searchConfig ps n) acc = acc.
Proof.
  revert n. induction ps as [|p rest IH]; intro n; simpl; [reflexivity|].
  unfold brought. rewrite (nothing p n). simpl. apply IH.
Qed.

Lemma fruitless_search (s : Service) :
  result (searchWith world vibeInput searchConfig s) =
  match enabledProviders searchConfig with
  | [] => Throws "No music providers enabled"
  | _ => Returns {| tracks := []; totalResults := 0; providers := [];
                    searchTime := (endTime world - startTime world)%Z |}
  end.
Proof.
  destruct (enabledProviders searchConfig) as [|p ps] eqn:E.
  - now rewrite searchWith_none_enabled.
  - destruct (searchWith_run world vibeInput searchConfig s) as [s1 [_ H]].
    + rewrite E. discriminate.
    + rewrite H. rewrite fruitless_primary.
      destruct (needsFallback searchConfig ([], [])).
      * rewrite fruitless_merge. unfold result, responseOf. simpl.
        now rewrite mergeAndRankResults_nil.
      * unfold result, responseOf. simpl. now rewrite mergeAndRankResults_nil.
Qed.

End Failure.

Section FailureClaims.
Import Js Effect Unified Observed.

(** C1, as amended.  [searchMusic] throws its explicit error, "No music
    providers enabled", when no provider is enabled.  With a provider
    enabled, a search in which no adapter call brings a track (each call
    fails, times out or finds nothing) returns the ordinary response with
    no tracks, [totalResults] 0 and no providers: the same response as a
    successful search that found nothing.  The configuration of a sole
    provider without fallback is covered only when its adapter does not
    fail; what happens there when it fails is the matter of C2. *)
Theorem total_failure_returns_empty_response
    (world : World) (vibeInput : string) (config : PartialSearchConfig) (s : Service) :
  let searchConfig := mergeConfig defaultConfig config in
  fruitless world vibeInput searchConfig ->
  (soleProvider searchConfig = true -> noAdapterError world vibeInput searchConfig) ->
  result (searchMusic world vibeInput config s) =
  match enabledProviders searchConfig with
  | [] => Throws "No music providers enabled"
  | _ :: _ =>
      Returns {| tracks := []; totalResults := 0; providers := [];
                 searchTime := (endTime world - startTime world)%Z |}
  end.
Proof.
  intros searchConfig H _. unfold searchMusic. now apply fruitless_search.
Qed.

(** With the default configuration and every adapter throwing. *)
Lemma total_failure_returns_empty_response_witness :
  fruitless Scenario.allFail "chill beats" (mergeConfig defaultConfig noOverrides)
  /\ soleProvider (mergeConfig defaultConfig noOverrides) = false
  /\ result (searchMusic Scenario.allFail "chill beats" noOverrides start)
     = Returns Scenario.nothingFound.
Proof.
  assert (H : fruitless Scenario.allFail "chill beats"
                (mergeConfig defaultConfig noOverrides))
    by (intros p n; destruct p; reflexivity).
  split; [exact H|]. split; [reflexivity|].
  apply (total_failure_returns_empty_response
           Scenario.allFail "chill beats" noOverrides start H).
  discriminate.
Defined.

(** C1, as stated, fails: with the default configuration and every adapter
    throwing, the search returns the response of a search that found
    nothing; the caller cannot tell the two apart. *)
Lemma total_failure_looks_like_no_results :
  (forall p n timeout, exists message,
      adapterOutcome Scenario.allFail p n "chill beats" timeout = Throws message)
  /\ result (searchMusic Scenario.allFail "chill beats" noOverrides start)
     = Returns Scenario.nothingFound
  /\ result (searchMusic Scenario.allEmpty "chill beats" noOverrides start)
     = Returns Scenario.nothingFound.
Proof.
  split; [|split].
  - intros p n timeout. unfold adapterOutcome, raceOutcome.
    destruct p; simpl; destruct (100 <? timeout)%Z; eexists; reflexivity.
  - vm_compute. reflexivity.
  - vm_compute. reflexivity.
Qed.

(** No error of an adapter leaves [searchMusic]: the only error it throws
    is its own, when no provider is enabled. *)
Lemma searchMusic_throws_only_when_none_enabled
    (world : World) (vibeInput : string) (config : PartialSearchConfig) (s : Service)
    (message : string) :
  result (searchMusic world vibeInput config s) = Throws message ->
  message = "No music providers enabled"
  /\ enabledProviders (mergeConfig defaultConfig config) = [].
Proof.
  unfold searchMusic. intro H.
  destruct (enabledProviders (mergeConfig defaultConfig config)) as [|p ps] eqn:E.
  - rewrite searchWith_none_enabled in H by exact E. injection H as <-. now split.
  - destruct (searchWith_run world vibeInput (mergeConfig defaultConfig config) s)
      as [s1 [_ H2]]; [rewrite E; discriminate|].
    cbn zeta in H2. rewrite H2 in H. destruct (needsFallback _ _); discriminate.
Qed.

(** C2: the code against the claim.  With Spotify the only provider
    enabled and the fallback disabled, the Spotify adapter throws; the
    error stops in [searchProvider], which logs it and returns no track,
    and [searchMusic] returns an empty response instead of throwing. *)
Theorem single_provider_error_is_swallowed :
  enabledProviders (mergeConfig defaultConfig Scenario.onlySpotify) = [spotify]
  /\ fallbackEnabled (mergeConfig defaultConfig Scenario.onlySpotify) = false
  /\ adapterOutcome Scenario.allFail spotify 0 "chill beats" 8000
     = Throws "Failed to search Spotify tracks"
  /\ searchMusic Scenario.allFail "chill beats" Scenario.onlySpotify start
     = (Returns Scenario.nothingFound,
        {| calls := 1;
           events := [ Searching spotify; AdapterCall spotify 8000;
                       SearchFailed spotify "Failed to search Spotify tracks" ] |}).
Proof.
  repeat split; vm_compute; reflexivity.
Qed.

End FailureClaims.

(** ** Where tracks and providers come from *)

Section Provenance.
Import Js Effect Unified Observed.
Variable world : World.
Variable vibeInput : string.
Variable searchConfig : SearchConfig.

Local Abbreviation brought := (Observed.brought world vibeInput searchConfig).
Local Abbreviation primaryResult := (Observed.primaryResult world vibeInput searchConfig).
Local Abbreviation parallelResults := (Observed.parallelResults world vibeInput searchConfig).
Local Abbreviation stopsEarly := (Observed.stopsEarly searchConfig).

Lemma mergeAndRankResults_incl (allTracks : list UnifiedTrack) (maxResults : Z)
    (t : UnifiedTrack) :
  In t (mergeAndRankResults world allTracks vibeInput maxResults) -> In t allTracks.
Proof.
  unfold mergeAndRankResults, mapIndex. intro H.
  apply in_map_iff in H. destruct H as [[t' score] [E H]]. simpl in E. subst t'.
  apply slice0_incl in H.
  apply (Permutation_in _ (sort_perm _ _)) in H.
  apply (in_map fst) in H. rewrite mapIndexFrom_fst in H. simpl in H.
  now apply uniqueBy_incl in H.
Qed.

Lemma accumulate_used (p q : MusicProvider) (tracks : list UnifiedTrack)
    (acc : Accumulated) :
  In q (snd (accumulate p tracks acc)) -> In q (snd acc) \/ (q = p /\ tracks <> []).
Proof.
  unfold accumulate. destruct tracks as [|t ts]; simpl; [now left|].
  intro H. apply in_app_or in H. destruct H as [H|[H|[]]]; [now left|].
  right. split; [now symmetry | discriminate].
Qed.

Lemma accumulate_tracks (p : MusicProvider) (tracks : list UnifiedTrack)
    (acc : Accumulated) (t : UnifiedTrack) :
  In t (fst (accumulate p tracks acc)) -> In t (fst acc) \/ In t tracks.
Proof.
  unfold accumulate. destruct tracks as [|t' ts]; simpl; [now left|].
  intro H. now apply in_app_or in H.
Qed.

Lemma accumulate_keeps (p : MusicProvider) (tracks : list UnifiedTrack)
    (acc : Accumulated) :
  incl (snd acc) (snd (accumulate p tracks acc)).
Proof.
  unfold accumulate. destruct (0 <? length tracks)%nat; simpl.
  - apply incl_appl, incl_refl.
  - apply incl_refl.
Qed.

(** A provider is marked by the primary loop only after a call to it
    brought a track. *)
Lemma primaryResult_used (remaining : list MusicProvider) (n : nat)
    (acc : Accumulated) (q : MusicProvider) :
  In q (snd (fst (primaryResult remaining n acc))) ->
  In q (snd acc) \/ (In q remaining /\ exists k, brought q k <> []).
Proof.
  revert n acc. induction remaining as [|p rest IH]; intros n acc H; simpl in H.
  - now left.
  - assert (Hacc : In q (snd (accumulate p (brought p n) acc)) ->
                   In q (snd acc) \/ (In q (p :: rest) /\ exists k, brought q k <> [])).
    { intro H'. apply accumulate_used in H'. destruct H' as [H'|[-> H']]; [now left|].
      right. split; [now left | now exists n]. }
    destruct (stopsEarly (brought p n) acc).
    + now apply Hacc.
    + apply IH in H. destruct H as [H|[H1 H2]]; [now apply Hacc|].
      right. split; [now right | assumption].
Qed.

Lemma primaryResult_tracks (remaining : list MusicProvider) (n : nat)
    (acc : Accumulated) (t : UnifiedTrack) :
  In t (fst (fst (primaryResult remaining n acc))) ->
  In t (fst acc) \/ exists p k, In p remaining /\ In t (brought p k).
Proof.
  revert n acc. induction remaining as [|p rest IH]; intros n acc H; simpl in H.
  - now left.
  - assert (Hacc : In t (fst (accumulate p (brought p n) acc)) ->
                   In t (fst acc) \/ exists p' k, In p' (p :: rest) /\ In t (brought p' k)).
    { intro H'. apply accumulate_tracks in H'. destruct H' as [H'|H']; [now left|].
      right. exists p, n. split; [now left | assumption]. }
    destruct (stopsEarly (brought p n) acc).
    + now apply Hacc.
    + apply IH in H. destruct H as [H|[p' [k [H1 H2]]]]; [now apply Hacc|].
      right. exists p', k. split; [now right | assumption].
Qed.

Lemma primaryResult_keeps (remaining : list MusicProvider) (n : nat) (acc : Accumulated) :
  incl (snd acc) (snd (fst (primaryResult remaining n acc))).
Proof.
  revert n acc. induction remaining as [|p rest IH]; intros n acc; simpl.
  - apply incl_refl.
  - destruct (stopsEarly (brought p n) acc).
    + apply accumulate_keeps.
    + eapply incl_tran; [apply accumulate_keeps | apply IH].
Qed.

Lemma primaryResult_step_nothing (p : MusicProvider) (rest : list MusicProvider)
    (n : nat) (acc : Accumulated) :
  brought p n = [] ->
  primaryResult (p :: rest) n acc = primaryResult rest (S n) acc.
Proof.
  intro E. simpl. rewrite E. reflexivity.
Qed.

Lemma primaryResult_step_found (p : MusicProvider) (rest : list MusicProvider)
    (n : nat) (acc : Accumulated) (t : UnifiedTrack) (ts : list UnifiedTrack) :
  brought p n = t :: ts ->
  primaryResult (p :: rest) n acc =
  if stopsEarly (t :: ts) acc
  then (((fst acc ++ t :: ts)%list, (snd acc ++ [p])%list), S n)
  else primaryResult rest (S n) ((fst acc ++ t :: ts)%list, (snd acc ++ [p])%list).
Proof.
  intro E. simpl. rewrite E. reflexivity.
Qed.

Lemma parallelResults_in (ps : list MusicProvider) (n : nat) (p : MusicProvider)
    (value : list UnifiedTrack) :
  In (p, value) (parallelResults ps n) -> In p ps /\ exists k, value = brought p k.
Proof.
  revert n. induction ps as [|q rest IH]; intros n H; simpl in H; [contradiction|].
  destruct H as [H|H].
  - injection H as <- <-. split; [now left | now exists n].
  - apply IH in H. destruct H as [H1 H2]. split; [now right | assumption].
Qed.

(** The merge of the fallback adds whole results, each one not empty and
    of a provider that was not marked before. *)
Lemma mergeNew_merged (results : list (MusicProvider * list UnifiedTrack))
    (acc : Accumulated) :
  exists merged,
    (forall p value, In (p, value) merged ->
                     In (p, value) results /\ ~ In p (snd acc) /\ value <> [])
    /\ fst (mergeNew results acc) = (fst acc ++ concat (map snd merged))%list
    /\ snd (mergeNew results acc) = (snd acc ++ map fst merged)%list.
Proof.
  revert acc. induction results as [|[p value] rest IH]; intro acc; simpl.
  - exists []. simpl. rewrite !app_nil_r. repeat split; contradiction.
  - destruct ((0 <? length value)%nat && negb (usedIncludes (snd acc) p)) eqn:E.
    + apply andb_prop in E. destruct E as [E1 E2].
      destruct (IH ((fst acc ++ value)%list, (snd acc ++ [p])%list))
        as [merged [H1 [H2 H3]]].
      exists ((p, value) :: merged). simpl in *. split; [|split].
      * intros q v [H|H].
        -- injection H as <- <-. split; [now left|]. split.
           ++ intro H. apply usedIncludes_In in H. rewrite H in E2. discriminate.
           ++ intro H. subst value. discriminate.
        -- apply H1 in H. destruct H as [Ha [Hb Hc]]. split; [now right|].
           split; [|assumption]. intro H. apply Hb, in_or_app. now left.
      * rewrite H2. now rewrite <- app_assoc.
      * rewrite H3. now rewrite <- app_assoc.
    + destruct (IH acc) as [merged [H1 [H2 H3]]].
      exists merged. split; [|split; assumption].
      intros q v H. apply H1 in H. destruct H as [Ha Hb]. split; [now right | assumption].
Qed.

(** When no provider has two results, the merge adds exactly the results
    that are not empty and whose provider was not marked before. *)
Lemma mergeNew_unmarked (results : list (MusicProvider * list UnifiedTrack))
    (acc : Accumulated) :
  NoDup (map fst results) ->
  let merged :=
    filter (fun pv => (0 <? length (snd pv))%nat
                      && negb (usedIncludes (snd acc) (fst pv))) results in
  mergeNew results acc
  = ((fst acc ++ concat (map snd merged))%list, (snd acc ++ map fst merged)%list).
Proof.
  cbn zeta. revert acc.
  induction results as [|[p value] rest IH]; intros [all used] Hnd; simpl.
  - now rewrite !app_nil_r.
  - inversion Hnd as [|x l Hp Hrest]; subst.
    destruct ((0 <? length value)%nat && negb (usedIncludes used p)) eqn:E.
    + rewrite IH by exact Hrest. cbn [fst snd map concat].
      rewrite <- !app_assoc. cbn [app].
      rewrite (filter_ext_in
                 (fun pv => (0 <? length (snd pv))%nat
                            && negb (usedIncludes (used ++ [p]) (fst pv)))
                 (fun pv => (0 <? length (snd pv))%nat
                            && negb (usedIncludes used (fst pv)))); [reflexivity|].
      intros [q v] Hq. cbn [fst snd]. f_equal. f_equal.
      unfold usedIncludes. rewrite existsb_app. cbn [existsb].
      rewrite orb_false_r.
      destruct (providerEqb q p) eqn:Eq; [|now rewrite orb_false_r].
      exfalso. apply Hp. apply providerEqb_eq in Eq. subst q.
      now apply (in_map fst) in Hq.
    + now rewrite IH by exact Hrest.
Qed.

Lemma parallelResults_fst (ps : list MusicProvider) (n : nat) :
  map fst (parallelResults ps n) = ps.
Proof.
  revert n. induction ps as [|p rest IH]; intro n; simpl;
    [reflexivity | now rewrite IH].
Qed.

Lemma mergeNew_keeps (results : list (MusicProvider * list UnifiedTrack))
    (acc : Accumulated) :
  incl (snd acc) (snd (mergeNew results acc)).
Proof.
  destruct (mergeNew_merged results acc) as [merged [_ [_ ->]]].
  apply incl_appl, incl_refl.
Qed.

End Provenance.

Lemma permutation_of_three {A : Type} (a b c : A) (l : list A) :
  Permutation l [a; b; c] ->
  l = [a; b; c] \/ l = [a; c; b] \/ l = [b; a; c]
  \/ l = [b; c; a] \/ l = [c; a; b] \/ l = [c; b; a].
Proof.
  intro H. pose proof (Permutation_length H) as Hlen.
  destruct l as [|x [|y [|z [|w l]]]]; try discriminate.
  assert (Hx : In x [a; b; c]) by (eapply Permutation_in; [exact H | now left]).
  destruct Hx as [<-|[<-|[<-|[]]]].
  - apply Permutation_cons_inv in H. apply Permutation_sym in H.
    apply Permutation_length_2_inv in H. destruct H as [H|H]; injection H as -> ->; auto.
  - apply (Permutation_cons_app_inv [a] [c]) in H. simpl in H.
    apply Permutation_sym in H.
    apply Permutation_length_2_inv in H. destruct H as [H|H]; injection H as -> ->; auto.
  - apply (Permutation_cons_app_inv [a; b] []) in H. simpl in H.
    apply Permutation_sym in H.
    apply Permutation_length_2_inv in H. destruct H as [H|H]; injection H as -> ->; auto 6.
Qed.

(** ** Partial failure (C3) *)

Section PartialFailure.
Import Js Effect Unified Observed.
Variable world : World.
Variable vibeInput : string.
Variable searchConfig : SearchConfig.

Local Abbreviation brought := (Observed.brought world vibeInput searchConfig).
Local Abbreviation primaryResult := (Observed.primaryResult world vibeInput searchConfig).
Local Abbreviation parallelResults := (Observed.parallelResults world vibeInput searchConfig).
Local Abbreviation stopsEarly := (Observed.stopsEarly searchConfig).
Local Abbreviation enabledList := (enabledProviders searchConfig).

(** A search with a provider enabled returns; its providers and tracks come
    from adapter calls that brought tracks, and the providers the primary
    loop marked are among them. *)
Lemma searchWith_provenance (s : Service) :
  enabledList <> [] ->
  exists r,
    result (searchWith world vibeInput searchConfig s) = Returns r
    /\ (forall q, In q (providers r) -> In q enabledList /\ exists k, brought q k <> [])
    /\ (forall t, In t (tracks r) -> exists p k, In p enabledList /\ In t (brought p k))
    /\ incl (snd (fst (primaryResult enabledList (calls s) ([], [])))) (providers r).
Proof.
  intro Hne. destruct (searchWith_run world vibeInput searchConfig s Hne) as [s1 [_ H]].
  cbn zeta in H. rewrite H. clear H.
  set (acc1 := fst (primaryResult enabledList (calls s) ([], []))).
  assert (U1 : forall q, In q (snd acc1) -> In q enabledList /\ exists k, brought q k <> []).
  { intros q Hq. apply primaryResult_used in Hq. destruct Hq as [[]|Hq]. exact Hq. }
  assert (T1 : forall t, In t (fst acc1) -> exists p k, In p enabledList /\ In t (brought p k)).
  { intros t Ht. apply primaryResult_tracks in Ht. destruct Ht as [[]|Ht]. exact Ht. }
  destruct (needsFallback searchConfig acc1).
  - eexists. split; [reflexivity|]. unfold responseOf. cbn [providers tracks].
    destruct (mergeNew_merged (parallelResults enabledList (calls s1)) acc1)
      as [merged [M1 [M2 M3]]].
    split; [|split].
    + intros q Hq. rewrite M3 in Hq. apply in_app_or in Hq. destruct Hq as [Hq|Hq].
      * now apply U1.
      * apply in_map_iff in Hq. destruct Hq as [[q' v] [E Hq]]. simpl in E. subst q'.
        apply M1 in Hq. destruct Hq as [Hq [_ Hv]].
        apply parallelResults_in in Hq. destruct Hq as [Hq [k ->]].
        split; [assumption | now exists k].
    + intros t Ht. apply mergeAndRankResults_incl in Ht.
      rewrite M2 in Ht. apply in_app_or in Ht. destruct Ht as [Ht|Ht].
      * now apply T1.
      * apply in_concat in Ht. destruct Ht as [v [Hv Ht]].
        apply in_map_iff in Hv. destruct Hv as [[p v'] [E Hv]]. simpl in E. subst v'.
        apply M1 in Hv. destruct Hv as [Hv _].
        apply parallelResults_in in Hv. destruct Hv as [Hp [k ->]].
        now exists p, k.
    + apply mergeNew_keeps.
  - eexists. split; [reflexivity|]. unfold responseOf. cbn [providers tracks].
    split; [exact U1 | split; [|apply incl_refl]].
    intros t Ht. apply mergeAndRankResults_incl in Ht. now apply T1.
Qed.

Variables A B C : MusicProvider.
Hypothesis distinct : NoDup [A; B; C].
Hypothesis theThree : Permutation enabledList [A; B; C].
Hypothesis failsA : adapterFails world vibeInput searchConfig A.
Hypothesis findsB : adapterFinds world vibeInput searchConfig B.
Hypothesis findsC : adapterFinds world vibeInput searchConfig C.
Hypothesis noEarlyStop :
  fallbackEnabled searchConfig = true
  \/ forall F, find (fun p => negb (providerEqb p A)) enabledList = Some F ->
               adapterBelowMax world vibeInput searchConfig F.

Lemma broughtA (k : nat) : brought A k = [].
Proof. unfold Observed.brought. destruct (failsA k) as [m ->]. reflexivity. Qed.

Lemma broughtB (k : nat) : exists t ts, brought B k = t :: ts.
Proof.
  unfold Observed.brought. destruct (findsB k) as [t [ts ->]]. now exists t, ts.
Qed.

Lemma broughtC (k : nat) : exists t ts, brought C k = t :: ts.
Proof.
  unfold Observed.brought. destruct (findsC k) as [t [ts ->]]. now exists t, ts.
Qed.

Lemma providerEqb_refl (p : MusicProvider) : providerEqb p p = true.
Proof. now destruct p. Qed.

Lemma providerEqb_neq (p q : MusicProvider) : p <> q -> providerEqb p q = false.
Proof.
  intro H. destruct (providerEqb p q) eqn:E; [|reflexivity].
  apply providerEqb_eq in E. contradiction.
Qed.

Lemma distinctAB : A <> B /\ A <> C /\ B <> C.
Proof.
  inversion distinct as [|? ? H1 H2]; subst. inversion H2 as [|? ? H3 H4]; subst.
  simpl in *. intuition.
Qed.

(** The first provider of the loop that is not [A] does not end the loop. *)
Lemma first_does_not_stop (F : MusicProvider) (k : nat) :
  find (fun p => negb (providerEqb p A)) enabledList = Some F ->
  stopsEarly (brought F k) ([], []) = false.
Proof.
  intro HF. unfold Observed.stopsEarly. destruct noEarlyStop as [H|H].
  - rewrite H. cbn [negb]. apply andb_false_r.
  - specialize (H F HF k). unfold adapterBelowMax in H.
    fold (Observed.brought world vibeInput searchConfig F k) in H. cbn [fst app].
    replace (maxResults searchConfig <=? Z.of_nat (length (brought F k)))%Z with false
      by (symmetry; apply Z.leb_gt; exact H).
    now rewrite andb_false_r.
Qed.

Lemma both_marked (n : nat) :
  incl [B; C] (snd (fst (primaryResult enabledList n ([], [])))).
Proof.
  destruct distinctAB as [AB [AC BC]].
  pose proof first_does_not_stop as NS.
  assert (EAA := providerEqb_refl A).
  assert (EBA := providerEqb_neq B A (not_eq_sym AB)).
  assert (ECA := providerEqb_neq C A (not_eq_sym AC)).
  destruct (permutation_of_three _ _ _ _ theThree) as [E|[E|[E|[E|[E|E]]]]];
    rewrite E in *; clear E;
    repeat
      (first
         [ rewrite (primaryResult_step_nothing world vibeInput searchConfig A)
             by apply broughtA
         | match goal with
           | |- context [Observed.primaryResult _ _ _ (B :: _) ?k ?acc] =>
               let t := fresh "t" in let ts := fresh "ts" in let Eb := fresh "Eb" in
               destruct (broughtB k) as [t [ts Eb]];
               rewrite (primaryResult_step_found world vibeInput searchConfig
                          B _ k acc t ts Eb);
               try (rewrite <- Eb at 1; rewrite NS
                      by (cbn [find]; rewrite ?EAA, ?EBA, ?ECA; reflexivity))
           | |- context [Observed.primaryResult _ _ _ (C :: _) ?k ?acc] =>
               let t := fresh "t" in let ts := fresh "ts" in let Ec := fresh "Ec" in
               destruct (broughtC k) as [t [ts Ec]];
               rewrite (primaryResult_step_found world vibeInput searchConfig
                          C _ k acc t ts Ec);
               try (rewrite <- Ec at 1; rewrite NS
                      by (cbn [find]; rewrite ?EAA, ?EBA, ?ECA; reflexivity))
           end
         | match goal with
           | |- context [if Observed.stopsEarly ?c ?ts ?acc then _ else _] =>
               destruct (Observed.stopsEarly c ts acc)
           end ]);
    cbn [Observed.primaryResult fst snd app];
    intros x [<-|[<-|[]]]; simpl; tauto.
Qed.

End PartialFailure.

Section PartialFailureClaims.
Import Js Effect Unified Observed.

(** C3, as amended.  Let the three enabled providers be A, B and C, let
    every call to A's adapter fail (an error, or its timeout) and let every
    call to B's and to C's adapter return at least one track in time.  If
    the fallback is enabled, or if the first of B and C in priority order
    returns fewer than [maxResults] tracks, then [searchMusic] does not
    throw, every returned track has B or C as its provider, and the
    returned [providers] contain B and C and not A. *)
Theorem partial_failure_resilience
    (world : World) (vibeInput : string) (config : PartialSearchConfig) (s : Service)
    (A B C : MusicProvider) :
  let searchConfig := mergeConfig defaultConfig config in
  NoDup [A; B; C] ->
  Permutation (enabledProviders searchConfig) [A; B; C] ->
  adapterFails world vibeInput searchConfig A ->
  adapterFinds world vibeInput searchConfig B ->
  adapterFinds world vibeInput searchConfig C ->
  (fallbackEnabled searchConfig = true
   \/ forall F, find (fun p => negb (providerEqb p A)) (enabledProviders searchConfig)
                = Some F ->
                adapterBelowMax world vibeInput searchConfig F) ->
  exists r,
    result (searchMusic world vibeInput config s) = Returns r
    /\ (forall t, In t (tracks r) -> provider t = B \/ provider t = C)
    /\ In B (providers r) /\ In C (providers r) /\ ~ In A (providers r).
Proof.
  intros searchConfig Hnd Hperm HA HB HC Hstop.
  assert (Hne : enabledProviders searchConfig <> []).
  { intro E. rewrite E in Hperm. apply Permutation_length in Hperm. discriminate. }
  destruct (searchWith_provenance world vibeInput searchConfig s Hne)
    as [r [Hr [HU [HT Hkeep]]]].
  pose proof (broughtA world vibeInput searchConfig A HA) as HAn.
  exists r. split; [exact Hr|]. split; [|split; [|split]].
  - intros t Ht. apply HT in Ht. destruct Ht as [p [k [Hp Ht]]].
    pose proof (yielded_provider world vibeInput p k _ t Ht) as Ep.
    apply (Permutation_in _ Hperm) in Hp. destruct Hp as [<-|[<-|[<-|[]]]].
    + rewrite HAn in Ht. contradiction.
    + now left.
    + now right.
  - apply Hkeep.
    apply (both_marked world vibeInput searchConfig A B C Hnd Hperm HA HB HC Hstop).
    now left.
  - apply Hkeep.
    apply (both_marked world vibeInput searchConfig A B C Hnd Hperm HA HB HC Hstop).
    right. now left.
  - intro H. apply HU in H. destruct H as [_ [k H]]. now apply H.
Qed.

(** Spotify times out; YouTube returns ten tracks and SoundCloud three; the
    fallback is enabled. *)
Lemma partial_failure_resilience_witness :
  exists r,
    result (searchMusic Scenario.spotifyTimesOut "night drive" Scenario.allThree start)
    = Returns r
    /\ (forall t, In t (tracks r) -> provider t = youtube \/ provider t = soundcloud)
    /\ In youtube (providers r) /\ In soundcloud (providers r)
    /\ ~ In spotify (providers r).
Proof.
  apply (partial_failure_resilience
           Scenario.spotifyTimesOut "night drive" Scenario.allThree start
           spotify youtube soundcloud).
  - repeat constructor; simpl; intuition discriminate.
  - apply Permutation_refl.
  - intro n. eexists. reflexivity.
  - intro n. eexists. eexists. reflexivity.
  - intro n. eexists. eexists. reflexivity.
  - left. reflexivity.
Defined.

(** C3, as stated, fails: with the fallback disabled, Spotify (A) timing
    out and YouTube (B) returning ten tracks, the primary loop stops after
    YouTube; SoundCloud (C), which would return three tracks, is never
    called and is not among the returned providers. *)
Lemma early_stop_leaves_a_provider_out :
  let searchConfig := mergeConfig defaultConfig Scenario.allThreeNoFallback in
  enabledProviders searchConfig = [spotify; youtube; soundcloud]
  /\ adapterFails Scenario.spotifyTimesOut "night drive" searchConfig spotify
  /\ adapterFinds Scenario.spotifyTimesOut "night drive" searchConfig youtube
  /\ adapterFinds Scenario.spotifyTimesOut "night drive" searchConfig soundcloud
  /\ exists r s',
       searchMusic Scenario.spotifyTimesOut "night drive" Scenario.allThreeNoFallback start
       = (Returns r, s')
       /\ providers r = [youtube]
       /\ adapterCalls (events s') = [spotify; youtube].
Proof.
  intro searchConfig. split; [reflexivity|]. split; [|split; [|split]].
  - intro n. eexists. reflexivity.
  - intro n. eexists. eexists. reflexivity.
  - intro n. eexists. eexists. reflexivity.
  - destruct (searchWith_run Scenario.spotifyTimesOut "night drive" searchConfig start)
      as [s1 [H1 H2]]; [discriminate|].
    cbn zeta in H1, H2.
    unfold searchMusic. fold searchConfig. rewrite H2.
    replace (needsFallback searchConfig _) with false by (vm_compute; reflexivity).
    eexists. exists s1. split; [reflexivity|]. split.
    + vm_compute. reflexivity.
    + assert (E : primaryLoop Scenario.spotifyTimesOut "night drive" searchConfig
                    (enabledProviders searchConfig) ([], []) start
                  = (fst (primaryLoop Scenario.spotifyTimesOut "night drive" searchConfig
                            (enabledProviders searchConfig) ([], []) start), s1))
        by (rewrite H1; reflexivity).
      apply (f_equal snd) in E. cbn [snd] in E. rewrite <- E.
      vm_compute. reflexivity.
Qed.

End PartialFailureClaims.

(** ** The fallback phase (C5) *)

Section FallbackClaims.
Import Js Effect Unified Observed.

(** C5.  After the primary loop has left the arrays [acc], the fallback
    runs exactly when fewer than 3 tracks are accumulated, the fallback is
    enabled and more than one provider is enabled.  When it runs, the
    adapter of every enabled provider is called, in the order of the
    list, before any of these calls settles: the failures are logged
    after the last call, in the order in which the calls settle.  Whatever
    the calls do, the search returns; the results merged are, in the order
    of the list, exactly the results of these calls that are not empty and
    whose provider the primary loop had not marked.  When the fallback
    does not run, no further call is made and the arrays are ranked as
    they are.  The keys of the configuration object are distinct. *)
Theorem parallel_fallback_phase
    (world : World) (vibeInput : string) (config : PartialSearchConfig) (s : Service) :
  let searchConfig := mergeConfig defaultConfig config in
  let ps := enabledProviders searchConfig in
  NoDup (keys (configProviders searchConfig)) ->
  ps <> [] ->
  exists acc s1 r s2,
    primaryLoop world vibeInput searchConfig ps ([], []) s = (Returns acc, s1)
    /\ searchMusic world vibeInput config s = (Returns r, s2)
    /\ if (length (fst acc) <? 3)%nat && fallbackEnabled searchConfig
          && (1 <? length ps)%nat
       then
         let started := mapIndexFrom (fun p call => (p, call)) (calls s1) ps in
         let settling := sort (bySettling world vibeInput searchConfig) started in
         let results :=
           map (fun c => (fst c, brought world vibeInput searchConfig (fst c) (snd c)))
               started in
         let merged :=
           filter (fun pv => (0 <? length (snd pv))%nat
                             && negb (usedIncludes (snd acc) (fst pv))) results in
         events s2 =
           (events s1
            ++ ParallelFallback
               :: map (fun p => AdapterCall p (timeoutOf searchConfig p)) ps
               ++ failureEvents world vibeInput searchConfig settling)%list
         /\ calls s2 = (calls s1 + length ps)%nat
         /\ providers r = (snd acc ++ map fst merged)%list
         /\ tracks r =
            mergeAndRankResults world (fst acc ++ concat (map snd merged))%list
              vibeInput (maxResults searchConfig)
       else s2 = s1
            /\ providers r = snd acc
            /\ tracks r =
               mergeAndRankResults world (fst acc) vibeInput (maxResults searchConfig).
Proof.
  intros searchConfig ps Hkeys Hne.
  destruct (searchWith_run world vibeInput searchConfig s Hne) as [s1 [H1 H2]].
  cbn zeta in H1, H2. fold ps in H1, H2.
  set (acc := fst (primaryResult world vibeInput searchConfig ps (calls s) ([], [])))
    in *.
  exists acc, s1. unfold searchMusic. fold searchConfig. rewrite H2.
  unfold needsFallback. fold ps.
  destruct ((length (fst acc) <? 3)%nat && fallbackEnabled searchConfig
            && (1 <? length ps)%nat).
  - eexists. eexists. split; [exact H1|]. split; [reflexivity|].
    cbn zeta. cbn [events calls]. fold (startedCalls ps (calls s1)).
    rewrite <- parallelResults_started.
    rewrite mergeNew_unmarked
      by (rewrite parallelResults_fst; now apply enabledProviders_NoDup).
    unfold responseOf. cbn [fst snd providers tracks].
    repeat split.
  - eexists. eexists. split; [exact H1|]. split; [reflexivity|].
    repeat split.
Qed.

(** Spotify times out on both of its calls, YouTube fails in the primary
    loop and answers in the fallback, SoundCloud answers both times: the
    fallback makes its three calls, then logs the timeout of Spotify; the
    result of YouTube is merged, that of SoundCloud, already marked, is
    not. *)
Lemma parallel_fallback_phase_witness :
  NoDup (keys (configProviders (mergeConfig defaultConfig Scenario.allThree)))
  /\ enabledProviders (mergeConfig defaultConfig Scenario.allThree) <> []
  /\ exists acc s1 r s2,
       primaryLoop Sample.youtubeRecovers "night drive"
         (mergeConfig defaultConfig Scenario.allThree)
         [spotify; youtube; soundcloud] ([], []) start = (Returns acc, s1)
       /\ searchMusic Sample.youtubeRecovers "night drive" Scenario.allThree start
          = (Returns r, s2)
       /\ snd acc = [soundcloud]
       /\ events s2 =
          (events s1
           ++ [ParallelFallback;
               AdapterCall spotify 8000; AdapterCall youtube 15000;
               AdapterCall soundcloud 10000;
               SearchFailed spotify "spotify search timeout"])%list
       /\ providers r = [soundcloud; youtube].
Proof.
  assert (Hkeys : NoDup (keys (configProviders
                                 (mergeConfig defaultConfig Scenario.allThree)))).
  { repeat constructor; simpl; intuition discriminate. }
  assert (Hne : enabledProviders (mergeConfig defaultConfig Scenario.allThree) <> [])
    by discriminate.
  split; [exact Hkeys|]. split; [exact Hne|].
  destruct (parallel_fallback_phase Sample.youtubeRecovers "night drive"
              Scenario.allThree start Hkeys Hne)
    as [acc [s1 [r [s2 [H1 [H2 H3]]]]]].
  exists acc, s1, r, s2. split; [exact H1|]. split; [exact H2|].
  assert (E : primaryLoop Sample.youtubeRecovers "night drive"
                (mergeConfig defaultConfig Scenario.allThree)
                (enabledProviders (mergeConfig defaultConfig Scenario.allThree))
                ([], []) start
              = (Returns (map transformSoundCloudTrack [Scenario.sound 1], [soundcloud]),
                 {| calls := 3;
                    events := [Searching spotify; AdapterCall spotify 8000;
                               SearchFailed spotify "spotify search timeout";
                               Searching youtube; AdapterCall youtube 15000;
                               SearchFailed youtube "Failed to search YouTube videos";
                               Searching soundcloud; AdapterCall soundcloud 10000] |}))
    by (vm_compute; reflexivity).
  rewrite E in H1. injection H1 as <- <-.
  cbn [fst snd length map] in H3.
  change ((1 <? 3)%nat && fallbackEnabled (mergeConfig defaultConfig Scenario.allThree)
          && (1 <? length (enabledProviders
                             (mergeConfig defaultConfig Scenario.allThree)))%nat)
    with true in H3.
  cbn zeta in H3. destruct H3 as [Hev [_ [Hpr _]]].
  split; [reflexivity|]. split.
  - rewrite Hev. vm_compute. reflexivity.
  - rewrite Hpr. vm_compute. reflexivity.
Defined.

End FallbackClaims.

(** ** The duplicate filter (C4) *)

Section DedupClaims.
Import Js Effect Unified Observed.

Lemma duplicateKey_titleArtist (t : UnifiedTrack) :
  duplicateKey t = (fst (titleArtist t) ++ "-" ++ snd (titleArtist t))%string.
Proof. reflexivity. Qed.

Lemma NoDup_titleArtist (l : list UnifiedTrack) :
  NoDup (map duplicateKey l) -> NoDup (map titleArtist l).
Proof.
  intro H.
  apply (NoDup_map_inv (fun pair => (fst pair ++ "-" ++ snd pair)%string)).
  rewrite map_map. exact H.
Qed.

Lemma mergeAndRankResults_NoDup (world : World) (allTracks : list UnifiedTrack)
    (vibeInput : string) (maxResults : Z) :
  NoDup (map duplicateKey (mergeAndRankResults world allTracks vibeInput maxResults)).
Proof.
  unfold mergeAndRankResults, mapIndex.
  match goal with
  | |- context [slice0 maxResults ?X] => destruct (slice0_prefix maxResults X) as [k ->]
  end.
  rewrite <- !firstn_map. apply firstn_NoDup.
  eapply Permutation_NoDup.
  - apply Permutation_sym, Permutation_map, Permutation_map, sort_perm.
  - rewrite mapIndexFrom_fst. apply uniqueBy_NoDup.
Qed.

(** Two tracks with different (title, artist) pairs can have the same key:
    the hyphen that joins title and artist may also occur in them. *)
Lemma duplicateKey_collision (a b : UnifiedTrack) :
  title a = "Blue" -> artist a = "Jay-Z" ->
  title b = "Blue-Jay" -> artist b = "Z" ->
  titleArtist a <> titleArtist b /\ duplicateKey a = duplicateKey b.
Proof.
  intros Ha1 Ha2 Hb1 Hb2. unfold titleArtist, duplicateKey.
  rewrite Ha1, Ha2, Hb1, Hb2. split; [discriminate | reflexivity].
Qed.

(** When [maxResults] does not cut the list, the merge step returns the
    tracks the duplicate filter keeps, in the order of their scores. *)
Lemma mergeAndRankResults_unique (world : World) (allTracks : list UnifiedTrack)
    (vibeInput : string) (maxResults : Z) :
  (Z.of_nat (length (uniqueBy duplicateKey allTracks)) <= maxResults)%Z ->
  Permutation (mergeAndRankResults world allTracks vibeInput maxResults)
              (uniqueBy duplicateKey allTracks).
Proof.
  intro H. unfold mergeAndRankResults, mapIndex, slice0.
  replace (0 <=? maxResults)%Z with true by lia.
  rewrite firstn_all2.
  - eapply perm_trans; [apply Permutation_map, sort_perm|].
    rewrite mapIndexFrom_fst. apply Permutation_refl.
  - rewrite (Permutation_length (sort_perm _ _)), mapIndexFrom_length. lia.
Qed.

(** C4.  The merge step does not remove duplicates by the (title, artist)
    pair, as its comment says: its key joins the lower-cased title and
    artist by a hyphen, and two different pairs can have one key.  Of
    three tracks with three different case-insensitive (title, artist)
    pairs, "Blue" by "Jay-Z", "Blue-Jay" by "Z" and "Amber" by "Kite", the
    merge step returns two, whatever the clock and the search context: the
    second track, the first of its pair, is discarded.  What the claim
    concludes does hold: no two tracks the merge step returns, and no two
    tracks of a response of [searchMusic] (which throws only when no
    provider is enabled), have the same case-insensitive (title, artist)
    pair. *)
Theorem joined_key_drops_a_distinct_pair
    (world : World) (vibeInput : string) (config : PartialSearchConfig) (s : Service) :
  let allTracks := [Sample.blueByJayZ; Sample.blueJayByZ; Sample.amberByKite] in
  NoDup (map titleArtist allTracks)
  /\ duplicateKey Sample.blueByJayZ = duplicateKey Sample.blueJayByZ
  /\ Permutation (mergeAndRankResults world allTracks vibeInput 10)
                 [Sample.blueByJayZ; Sample.amberByKite]
  /\ (forall accumulated maxResults,
        NoDup (map titleArtist
                 (mergeAndRankResults world accumulated vibeInput maxResults)))
  /\ match result (searchMusic world vibeInput config s) with
     | Returns r => NoDup (map titleArtist (tracks r))
     | Throws _ => enabledProviders (mergeConfig defaultConfig config) = []
     end.
Proof.
  cbn zeta. split; [|split; [|split; [|split]]].
  - repeat constructor; simpl; intuition discriminate.
  - reflexivity.
  - apply (mergeAndRankResults_unique world
             [Sample.blueByJayZ; Sample.blueJayByZ; Sample.amberByKite] vibeInput 10).
    vm_compute. discriminate.
  - intros accumulated maxResults.
    apply NoDup_titleArtist, mergeAndRankResults_NoDup.
  - unfold searchMusic.
    destruct (enabledProviders (mergeConfig defaultConfig config)) as [|p ps] eqn:E.
    + rewrite searchWith_none_enabled by exact E. reflexivity.
    + destruct (searchWith_run world vibeInput (mergeConfig defaultConfig config) s)
        as [s1 [_ H]]; [rewrite E; discriminate|].
      cbn zeta in H. rewrite H.
      destruct (needsFallback _ _); unfold result, responseOf; cbn [fst tracks];
        apply NoDup_titleArtist, mergeAndRankResults_NoDup.
Qed.

End DedupClaims.

(** ** The intent parsers (C7, C8) *)

Section ParserClaims.
Import Js Effect.

Lemma detect_default (table : Table) (input initial : string) :
  noCategoryMatches table input = true -> detect table input initial = initial.
Proof.
  induction table as [|[name keywords] rest IH]; simpl; intro H; [reflexivity|].
  apply andb_prop in H. destruct H as [H1 H2].
  apply negb_true_iff in H1. rewrite H1. now apply IH.
Qed.

(** C7, as amended.  When no speed keyword occurs in the input, the
    Spotify parser returns the speed "medium" (and the energy medium),
    whereas the YouTube and the SoundCloud parsers return the empty speed.
    In the Spotify parser the environment and the genre are empty when no
    keyword of their tables occurs, and the vibe is the part of the raw
    input before its first space character when no vibe keyword occurs. *)
Theorem speed_default_by_adapter (vibeInput : string) :
  noCategoryMatches Spotify.speedPatterns (toLowerCase vibeInput) = true ->
  Spotify.speed (Spotify.parseInput vibeInput) = "medium"
  /\ Spotify.energy (Spotify.parseInput vibeInput) = Spotify.EnergyMedium
  /\ YouTube.speed (YouTube.parseInput vibeInput) = ""
  /\ SoundCloud.speed (SoundCloud.parseInput vibeInput) = ""
  /\ (noCategoryMatches Spotify.environments (toLowerCase vibeInput) = true ->
      Spotify.environment (Spotify.parseInput vibeInput) = "")
  /\ (noCategoryMatches Spotify.genreKeywords (toLowerCase vibeInput) = true ->
      Spotify.genre (Spotify.parseInput vibeInput) = "")
  /\ (noCategoryMatches Spotify.vibePatterns (toLowerCase vibeInput) = true ->
      Spotify.vibe (Spotify.parseInput vibeInput) = first (splitOn " " vibeInput)).
Proof.
  intro H. unfold Spotify.parseInput, YouTube.parseInput, SoundCloud.parseInput.
  cbn [Spotify.speed Spotify.energy YouTube.speed SoundCloud.speed
       Spotify.environment Spotify.genre Spotify.vibe].
  rewrite (detect_default Spotify.speedPatterns _ "medium" H).
  rewrite (detect_default YouTube.speeds _ "" H).
  rewrite (detect_default SoundCloud.speeds _ "" H).
  repeat split.
  - intro He. now apply detect_default.
  - intro Hg. now apply detect_default.
  - intro Hv. rewrite (detect_default _ _ "" Hv). reflexivity.
Qed.

(** No speed keyword occurs in "Rainy Sunday". *)
Lemma speed_default_by_adapter_witness :
  noCategoryMatches Spotify.speedPatterns (toLowerCase "Rainy Sunday") = true
  /\ Spotify.speed (Spotify.parseInput "Rainy Sunday") = "medium"
  /\ YouTube.speed (YouTube.parseInput "Rainy Sunday") = ""
  /\ Spotify.vibe (Spotify.parseInput "Rainy Sunday") = "Rainy".
Proof.
  assert (H : noCategoryMatches Spotify.speedPatterns (toLowerCase "Rainy Sunday") = true)
    by reflexivity.
  destruct (speed_default_by_adapter "Rainy Sunday" H) as [H1 [_ [H3 [_ [_ [_ H7]]]]]].
  split; [exact H|]. split; [exact H1|]. split; [exact H3|].
  apply H7. reflexivity.
Defined.

(** C7, as stated, fails: no speed keyword occurs in "Rainy Sunday", and
    the YouTube and SoundCloud parsers return the empty speed, not
    "medium"; and the vibe of a tab-separated input is the whole input,
    not its first word. *)
Lemma youtube_speed_default_is_empty :
  noCategoryMatches YouTube.speeds (toLowerCase "Rainy Sunday") = true
  /\ YouTube.speed (YouTube.parseInput "Rainy Sunday") = ""
  /\ SoundCloud.speed (SoundCloud.parseInput "Rainy Sunday") = ""
  /\ YouTube.speed (YouTube.parseInput "Rainy Sunday") <> "medium"
  /\ noCategoryMatches Spotify.vibePatterns (toLowerCase Scenario.tabSeparated) = true
  /\ first (splitSpaces Scenario.tabSeparated) = "sunday"
  /\ Spotify.vibe (Spotify.parseInput Scenario.tabSeparated) = Scenario.tabSeparated
  /\ Spotify.vibe (Spotify.parseInput Scenario.tabSeparated) <> "sunday".
Proof.
  repeat split; try (vm_compute; reflexivity); vm_compute; discriminate.
Qed.

(** C8.  The Spotify parser, the one whose intent has the five fields,
    maps "energetic gym workout fast" to the environment gym, the speed
    fast, the energy high, the vibe energetic and the valence positive;
    the YouTube and SoundCloud parsers agree on the three fields they
    have. *)
Theorem keyword_routing :
  Spotify.parseInput "energetic gym workout fast" =
  {| Spotify.vibe := "energetic";
     Spotify.environment := "gym";
     Spotify.speed := "fast";
     Spotify.energy := Spotify.EnergyHigh;
     Spotify.valence := Spotify.ValencePositive;
     Spotify.genre := "" |}
  /\ YouTube.parseInput "energetic gym workout fast" =
     {| YouTube.vibe := "energetic";
        YouTube.environment := "gym";
        YouTube.speed := "fast";
        YouTube.isAnime := false;
        YouTube.genre := "" |}
  /\ SoundCloud.parseInput "energetic gym workout fast" =
     {| SoundCloud.vibe := "energetic";
        SoundCloud.environment := "gym";
        SoundCloud.speed := "fast";
        SoundCloud.parsedGenre := "" |}.
Proof.
  repeat split; vm_compute; reflexivity.
Qed.

End ParserClaims.

(** ** The Spotify adapter (C10) *)

Section SpotifyClaims.
Import Js Effect Spotify.
Variable world : World.

Lemma getAudioFeatures_returns (trackIds : list string) (s : Service) :
  exists features s', getAudioFeatures world trackIds s = (Returns features, s').
Proof.
  unfold getAudioFeatures. destruct trackIds as [|i ids].
  - now exists [], s.
  - unfold tryCatch, bind. destruct (getAccessToken world s) as [[token|message] s1].
    + unfold send, modify.
      destruct (audioFeaturesEndpoint world (i :: ids)) as [|status|[features|]];
        unfold throw, ret; eexists; eexists; reflexivity.
    + unfold ret. eexists. eexists. reflexivity.
Qed.

Lemma mapIndexFrom_in {A B : Type} (f : A -> nat -> B) (start : nat) (l : list A) (y : B) :
  In y (mapIndexFrom f start l) -> exists x i, In x l /\ y = f x i.
Proof.
  revert start. induction l as [|x l IH]; intros start H; simpl in H; [contradiction|].
  destruct H as [H|H].
  - exists x, start. split; [now left | now symmetry].
  - apply IH in H. destruct H as [x' [i [H1 H2]]]. exists x', i. split; [now right | exact H2].
Qed.

Lemma ranked_in (scored : list (SpotifyTrack * Q)) (t : SpotifyTrack) :
  In t (map fst (slice0 10 (sort byScore scored))) -> In t (map fst scored).
Proof.
  intro H. apply in_map_iff in H. destruct H as [[t' q] [E H]]. simpl in E. subst t'.
  apply slice0_incl in H. apply (Permutation_in _ (sort_perm _ _)) in H.
  now apply (in_map fst) in H.
Qed.



End SpotifyClaims.

Section SpotifyWitness.
Import Js Effect Spotify.


End SpotifyWitness.

(** ** Retry on low results (C6) *)

Section RetryClaims.
Import Js Effect.

Lemma string_app_assoc (a b c : string) : ((a ++ b) ++ c = a ++ (b ++ c))%string.
Proof.
  induction a as [|x a IH]; simpl; [reflexivity|]. now rewrite IH.
Qed.

(** The retry query is the first query without its last seven exclusions. *)
Lemma retry_query_is_broader (random : Q) (vibeInput : string) :
  YouTube.generateSearchQuery random vibeInput false =
  YouTube.generateSearchQuery random vibeInput true
  ++ " -interview -vlog -news -documentary -podcast -talk -lecture".
Proof.
  unfold YouTube.generateSearchQuery. cbn [join]. rewrite !string_app_assoc.
  reflexivity.
Qed.

Section YouTubeRetry.
Import YouTube.
Variable world : World.

(** A call of [performSearch] first sends the query of its attempt. *)
Lemma performSearch_sent (vibeInput : string) (isRetry : bool) (s : Service) :
  exists rest,
    sent (final (performSearch world vibeInput isRetry s))
    = (sent s
       ++ SearchListRequest
            (generateSearchQuery (mathRandom (world (attempts s))) vibeInput isRetry)
          :: rest)%list.
Proof.
  unfold performSearch, final.
  cbv [bind nextAttempt get modify ret send await].
  cbn [attempts sent].
  match goal with
  | |- context [searchList ?a ?q] => destruct (searchList a q) as [|status|[items|]]
  end; cbv [throw ret]; cbn [snd sent]; try (now exists []).
  match goal with
  | |- context [match ?ids with [] => _ | _ :: _ => _ end] => destruct ids
  end.
  - now exists [].
  - cbn [sent attempts].
    match goal with
    | |- context [videosList ?a ?ids] => destruct (videosList a ids) as [|status|[videos|]]
    end; cbv [throw ret]; cbn [snd sent]; rewrite <- app_assoc; eexists; reflexivity.
Qed.

(** The adapter's search, attempt by attempt. *)
Lemma searchMusic_attempts (vibeInput : string) (s : Service) :
  searchMusic world vibeInput s =
  match performSearch world vibeInput false s with
  | (Throws _, s1) => (Throws "Failed to search YouTube videos", s1)
  | (Returns r1, s1) =>
      if (length (tracks r1) <? 5)%nat then
        match performSearch world vibeInput true s1 with
        | (Throws _, s2) => (Throws "Failed to search YouTube videos", s2)
        | (Returns r2, s2) =>
            if (length (tracks r2) <? 5)%nat then
              match performSearch world (vibeInput ++ " playlist mix") true s2 with
              | (Throws _, s3) => (Throws "Failed to search YouTube videos", s3)
              | (Returns r3, s3) =>
                  (Returns
                     {| tracks :=
                          slice0 10 (uniqueBy videoId (tracks r2 ++ tracks r3)%list);
                        totalResults :=
                          Z.of_nat
                            (length (uniqueBy videoId (tracks r2 ++ tracks r3)%list)) |},
                   s3)
              end
            else (Returns r2, s2)
        end
      else (Returns r1, s1)
  end.
Proof.
  unfold searchMusic, tryCatch. unfold bind at 1.
  destruct (performSearch world vibeInput false s) as [[r1|m1] s1]; [|reflexivity].
  destruct (length (tracks r1) <? 5)%nat; [|reflexivity].
  unfold bind at 1.
  destruct (performSearch world vibeInput true s1) as [[r2|m2] s2]; [|reflexivity].
  destruct (length (tracks r2) <? 5)%nat; [|reflexivity].
  unfold bind.
  destruct (performSearch world (vibeInput ++ " playlist mix") true s2)
    as [[r3|m3] s3]; reflexivity.
Qed.

(** C6, as amended: the YouTube adapter.  When the first query returns 5
    tracks or more they are the response.  When it returns fewer, a second
    query is sent, built as the first one (with a random draw of its own)
    but without the last seven exclusions; 5 tracks or more of it are the
    response; otherwise a third query is sent, for the input followed by
    " playlist mix", and the response holds the first 10 tracks of the
    second and third results put together and filtered to the first track
    of each video id, [totalResults] counting all of them. *)
Theorem youtube_retries_on_low_results
    (vibeInput : string) (s s1 : Service) (r1 : FilteredYouTubeResponse) :
  performSearch world vibeInput false s = (Returns r1, s1) ->
  ((5 <= length (tracks r1))%nat -> searchMusic world vibeInput s = (Returns r1, s1))
  /\ ((length (tracks r1) < 5)%nat ->
      let q2 := generateSearchQuery (mathRandom (world (attempts s1))) vibeInput true in
      generateSearchQuery (mathRandom (world (attempts s1))) vibeInput false
      = q2 ++ " -interview -vlog -news -documentary -podcast -talk -lecture"
      /\ (exists rest,
             sent (final (searchMusic world vibeInput s))
             = (sent s1 ++ SearchListRequest q2 :: rest)%list)
      /\ forall r2 s2,
           performSearch world vibeInput true s1 = (Returns r2, s2) ->
           ((5 <= length (tracks r2))%nat ->
            searchMusic world vibeInput s = (Returns r2, s2))
           /\ ((length (tracks r2) < 5)%nat ->
               let q3 :=
                 generateSearchQuery (mathRandom (world (attempts s2)))
                   (vibeInput ++ " playlist mix") true in
               (exists rest,
                   sent (final (searchMusic world vibeInput s))
                   = (sent s2 ++ SearchListRequest q3 :: rest)%list)
               /\ forall r3 s3,
                    performSearch world (vibeInput ++ " playlist mix") true s2
                    = (Returns r3, s3) ->
                    let unique := uniqueBy videoId (tracks r2 ++ tracks r3)%list in
                    searchMusic world vibeInput s
                    = (Returns {| tracks := slice0 10 unique;
                                  totalResults := Z.of_nat (length unique) |}, s3)
                    /\ NoDup (map videoId unique)
                    /\ forall t, In t unique
                                 <-> Observed.isFirstOccurrence videoId
                                       (tracks r2 ++ tracks r3)%list t)).
Proof.
  intro H1. rewrite !searchMusic_attempts, H1. split.
  - intro Hlen. apply Nat.ltb_ge in Hlen. rewrite Hlen. reflexivity.
  - intro Hlen. apply Nat.ltb_lt in Hlen. rewrite Hlen. cbn zeta.
    split; [apply retry_query_is_broader|].
    destruct (performSearch_sent vibeInput true s1) as [rest2 Hsent2].
    destruct (performSearch world vibeInput true s1) as [[r2|message2] s2] eqn:H2;
      unfold final in Hsent2; cbn [snd] in Hsent2.
    + destruct (length (tracks r2) <? 5)%nat eqn:Hlen2.
      * destruct (performSearch_sent (vibeInput ++ " playlist mix") true s2)
          as [rest3 Hsent3].
        destruct (performSearch world (vibeInput ++ " playlist mix") true s2)
          as [[r3|message3] s3] eqn:H3;
          unfold final in Hsent3 |- *; cbn [snd] in Hsent3 |- *.
        -- split.
           ++ eexists. rewrite Hsent3, Hsent2. rewrite <- app_assoc. reflexivity.
           ++ intros r2' s2' E. injection E as <- <-. split.
              ** intro Hge. apply Nat.ltb_ge in Hge. congruence.
              ** intros _. split.
                 --- eexists. exact Hsent3.
                 --- intros r3' s3' E. rewrite H3 in E. injection E as <- <-.
                     split; [reflexivity|].
                     split; [apply uniqueBy_NoDup | intro t; apply uniqueBy_first].
        -- split.
           ++ eexists. rewrite Hsent3, Hsent2. rewrite <- app_assoc. reflexivity.
           ++ intros r2' s2' E. injection E as <- <-. split.
              ** intro Hge. apply Nat.ltb_ge in Hge. congruence.
              ** intros _. split.
                 --- eexists. exact Hsent3.
                 --- intros r3' s3' E. rewrite H3 in E. discriminate.
      * unfold final. cbn [snd]. split.
        -- eexists. exact Hsent2.
        -- intros r2' s2' E. injection E as <- <-. split.
           ++ intros _. reflexivity.
           ++ intro Hlt. apply Nat.ltb_lt in Hlt. congruence.
    + unfold final. cbn [snd]. split.
      * eexists. exact Hsent2.
      * intros r2' s2' E. discriminate.
Qed.

End YouTubeRetry.

(** YouTube finds nothing for the first query: the retry query follows. *)
Lemma youtube_retries_on_low_results_witness :
  YouTube.performSearch Scenario.youtubeFindsNothing "lofi study"
    false Scenario.youtubeService
  = (Returns YouTube.empty,
     {| YouTube.attempts := 1;
        YouTube.sent := [YouTube.SearchListRequest Scenario.firstQuery] |})
  /\ exists rest,
       YouTube.sent
         (final (YouTube.searchMusic Scenario.youtubeFindsNothing "lofi study"
                   Scenario.youtubeService))
       = YouTube.SearchListRequest Scenario.firstQuery
         :: YouTube.SearchListRequest Scenario.retryQuery :: rest.
Proof.
  assert (H1 :
    YouTube.performSearch Scenario.youtubeFindsNothing "lofi study"
      false Scenario.youtubeService
    = (Returns YouTube.empty,
       {| YouTube.attempts := 1;
          YouTube.sent := [YouTube.SearchListRequest Scenario.firstQuery] |}))
    by reflexivity.
  split; [exact H1|].
  destruct (youtube_retries_on_low_results Scenario.youtubeFindsNothing
              "lofi study" _ _ _ H1) as [_ H].
  destruct H as [_ [[rest Hrest] _]]; [simpl; lia|].
  exists rest. exact Hrest.
Defined.

(** C6, as stated, fails: it holds of the YouTube adapter only.  The
    Spotify adapter, whose one query yields two valid tracks here, returns
    them; it has sent one search request and no other. *)
Lemma spotify_does_not_retry :
  exists t1 t2,
    Spotify.searchMusic (Scenario.catalog Scenario.twoHits) "happy" Scenario.spotifyService
    = (Returns {| Spotify.tracks := [t1; t2]; Spotify.totalResults := 2 |},
       {| Spotify.clientId := "client-id";
          Spotify.clientSecret := "client-secret";
          Spotify.accessToken := Some "BQD-token";
          Spotify.tokenExpiry := 1717203540000;
          Spotify.sent :=
            [ Spotify.TokenRequest;
              Spotify.SearchRequest "happy year:2019-2024";
              Spotify.AudioFeaturesRequest
                ["60nZcImufyMA1MKQY3dcCH"; "5b88tNINg4Q4nrRbrCXUmg"] ] |}).
Proof.
  eexists. eexists. vm_compute. reflexivity.
Qed.

End RetryClaims.

(** ** Determinism (C9) *)

Section DeterminismClaims.
Import Js Effect Unified Observed.

Lemma mapIndexFrom_ext {A B : Type} (f g : A -> nat -> B) (start : nat) (l : list A) :
  (forall i x, nth_error l i = Some x -> f x (start + i)%nat = g x (start + i)%nat) ->
  mapIndexFrom f start l = mapIndexFrom g start l.
Proof.
  revert start. induction l as [|x l IH]; intros start H; simpl; [reflexivity|].
  f_equal.
  - specialize (H 0%nat x eq_refl). now rewrite Nat.add_0_r in H.
  - apply IH. intros i y Hy. specialize (H (S i) y Hy).
    now rewrite Nat.add_succ_r in H.
Qed.

(** The clock enters the score through the recency verdict only. *)
Lemma scoreTrack_clock (world : World) (now1 now2 : Z) (track : UnifiedTrack)
    (searchContext : string) :
  withinLastYear now1 (publishedAt track) = withinLastYear now2 (publishedAt track) ->
  scoreTrack now1 track searchContext = scoreTrack now2 track searchContext.
Proof.
  intro H. unfold scoreTrack. now rewrite H.
Qed.

Lemma collectFrom_ext {A B : Type} (f g : A -> nat -> option B) (start : nat)
    (l : list A) :
  (forall i x, nth_error l i = Some x -> f x (start + i)%nat = g x (start + i)%nat) ->
  YouTube.collectFrom f start l = YouTube.collectFrom g start l.
Proof.
  revert start. induction l as [|x l IH]; intros start H; simpl; [reflexivity|].
  pose proof (H 0%nat x eq_refl) as H0. rewrite Nat.add_0_r in H0. rewrite H0.
  rewrite IH; [reflexivity|].
  intros i y Hy. specialize (H (S i) y Hy). now rewrite Nat.add_succ_r in H.
Qed.

(** The random number enters the YouTube query through the anime term it
    picks and the side of 0.5 it falls on. *)
Lemma generateSearchQuery_random (random1 random2 : Q) (vibeInput : string)
    (isRetry : bool) :
  Qfloor (random1 * 6) = Qfloor (random2 * 6) ->
  Qle_bool random1 (1 # 2) = Qle_bool random2 (1 # 2) ->
  YouTube.generateSearchQuery random1 vibeInput isRetry
  = YouTube.generateSearchQuery random2 vibeInput isRetry.
Proof.
  intros Hfloor Hside. unfold YouTube.generateSearchQuery.
  repeat match goal with
         | |- context [inject_Z (Z.of_nat (length ?l))] =>
             change (inject_Z (Z.of_nat (length l))) with (6 : Q)
         end.
  now rewrite Hfloor, Hside.
Qed.

(** The date by which a search item is scored:
    [searchItem.snippet?.publishedAt || ''] *)
Local Abbreviation scoredDate item :=
  (match YouTube.snippet_publishedAt item with
   | Some d => if truthy (text d) then d else noDate
   | None => noDate
   end).

Section YouTubeReadings.
Variables youtube1 youtube2 : YouTube.World.

Hypothesis sameDraw : forall n,
  Qfloor (YouTube.mathRandom (youtube1 n) * 6) = Qfloor (YouTube.mathRandom (youtube2 n) * 6)
  /\ Qle_bool (YouTube.mathRandom (youtube1 n)) (1 # 2)
     = Qle_bool (YouTube.mathRandom (youtube2 n)) (1 # 2).
Hypothesis sameSearch : forall n q,
  YouTube.searchList (youtube1 n) q = YouTube.searchList (youtube2 n) q.
Hypothesis sameVideos : forall n ids,
  YouTube.videosList (youtube1 n) ids = YouTube.videosList (youtube2 n) ids.
Hypothesis sameVerdict : forall n q items i item,
  YouTube.searchList (youtube1 n) q = FetchOk (Some items) ->
  nth_error items i = Some item ->
  YouTube.getRecencyBonus (YouTube.oneYearAgo (youtube1 n) i) (scoredDate item)
  = YouTube.getRecencyBonus (YouTube.oneYearAgo (youtube2 n) i) (scoredDate item)
  /\ (scoredDate item = noDate ->
      YouTube.nowISOString (youtube1 n) i = YouTube.nowISOString (youtube2 n) i).

Lemma scoreItem_readings (n : nat) (q searchContext : string)
    (items : list YouTube.SearchItem) (videos : list YouTube.VideoItem)
    (i : nat) (item : YouTube.SearchItem) :
  YouTube.searchList (youtube1 n) q = FetchOk (Some items) ->
  nth_error items i = Some item ->
  YouTube.scoreItem (youtube1 n) searchContext videos item i
  = YouTube.scoreItem (youtube2 n) searchContext videos item i.
Proof.
  intros Hq Hi. destruct (sameVerdict n q items i item Hq Hi) as [Hbonus Hdate].
  unfold YouTube.scoreItem.
  destruct (YouTube.id_videoId item) as [vid|]; [|reflexivity].
  destruct (negb (truthy vid)); [reflexivity|].
  destruct (find _ videos) as [videoItem|]; [|reflexivity].
  destruct (YouTube.details_duration videoItem) as [duration|]; [|reflexivity].
  destruct (negb (YouTube.isValidMusicVideo _ _ _)); [reflexivity|].
  cbv zeta. rewrite Hbonus.
  destruct (YouTube.snippet_publishedAt item) as [d|].
  - destruct (truthy (text d)); [reflexivity|]. now rewrite Hdate.
  - now rewrite Hdate.
Qed.

Lemma performSearch_readings (vibeInput : string) (isRetry : bool)
    (s : YouTube.Service) :
  YouTube.performSearch youtube1 vibeInput isRetry s
  = YouTube.performSearch youtube2 vibeInput isRetry s.
Proof.
  unfold YouTube.performSearch, YouTube.nextAttempt, YouTube.send, bind, get, modify.
  unfold ret. cbv beta iota zeta. cbn [YouTube.attempts YouTube.sent].
  destruct (sameDraw (YouTube.attempts s)) as [Hfloor Hside].
  rewrite (generateSearchQuery_random _ _ vibeInput isRetry Hfloor Hside).
  rewrite <- sameSearch.
  destruct (YouTube.searchList (youtube1 (YouTube.attempts s)) _)
    as [| status | [items|]] eqn:Eq; unfold YouTube.await, throw, ret;
    cbv beta iota; try reflexivity.
  destruct (YouTube.collect _ items) as [|vid ids]; [reflexivity|].
  rewrite <- sameVideos.
  destruct (YouTube.videosList (youtube1 (YouTube.attempts s)) _)
    as [| status | [videos|]]; cbv beta iota; try reflexivity.
  unfold YouTube.collect.
  rewrite (collectFrom_ext
             (YouTube.scoreItem (youtube1 (YouTube.attempts s)) vibeInput videos)
             (YouTube.scoreItem (youtube2 (YouTube.attempts s)) vibeInput videos));
    [reflexivity|].
  intros i item Hi. cbn [Nat.add]. exact (scoreItem_readings _ _ _ items _ _ _ Eq Hi).
Qed.

Lemma youtube_searchMusic_readings (vibeInput : string) (s : YouTube.Service) :
  YouTube.searchMusic youtube1 vibeInput s = YouTube.searchMusic youtube2 vibeInput s.
Proof.
  unfold YouTube.searchMusic, tryCatch, bind.
  rewrite performSearch_readings.
  destruct (YouTube.performSearch youtube2 vibeInput false s) as [[r1|m1] s1];
    [|reflexivity].
  destruct (length (YouTube.tracks r1) <? 5)%nat; [|reflexivity].
  rewrite performSearch_readings.
  destruct (YouTube.performSearch youtube2 vibeInput true s1) as [[r2|m2] s2];
    [|reflexivity].
  destruct (length (YouTube.tracks r2) <? 5)%nat; [|reflexivity].
  now rewrite performSearch_readings.
Qed.

End YouTubeReadings.

Section SoundCloudReadings.
Variables soundcloud1 soundcloud2 : SoundCloud.World.

Hypothesis sameTracks : forall q,
  SoundCloud.tracksEndpoint soundcloud1 q = SoundCloud.tracksEndpoint soundcloud2 q.
Hypothesis sameVerdict : forall q data i track,
  SoundCloud.tracksEndpoint soundcloud1 q = FetchOk (Some data) ->
  nth_error (filter SoundCloud.isValidMusicTrack data) i = Some track ->
  (forall d createdAt,
      SoundCloud.item_created_at track = Some d -> getTime d = Some createdAt ->
      (SoundCloud.oneYearAgo soundcloud1 i <? createdAt)%Z
      = (SoundCloud.oneYearAgo soundcloud2 i <? createdAt)%Z)
  /\ ((forall d, SoundCloud.item_created_at track = Some d -> truthy (text d) = false) ->
      SoundCloud.nowISOString soundcloud1 i = SoundCloud.nowISOString soundcloud2 i).

Lemma soundcloud_searchMusic_readings (vibeInput : string) (s : SoundCloud.Service) :
  SoundCloud.searchMusic soundcloud1 vibeInput s
  = SoundCloud.searchMusic soundcloud2 vibeInput s.
Proof.
  unfold SoundCloud.searchMusic, tryCatch, bind, get, SoundCloud.send, modify.
  cbn [fst snd].
  destruct (negb (truthy (SoundCloud.clientId s))); [reflexivity|].
  rewrite <- sameTracks.
  destruct (SoundCloud.tracksEndpoint soundcloud1 _) as [| status | [data|]] eqn:Eq;
    try reflexivity.
  cbv zeta. unfold mapIndex.
  rewrite (mapIndexFrom_ext
             (fun track index =>
                (SoundCloud.transformTrack (SoundCloud.nowISOString soundcloud1 index) track,
                 SoundCloud.calculateTrackScore (SoundCloud.oneYearAgo soundcloud1 index)
                   track vibeInput))
             (fun track index =>
                (SoundCloud.transformTrack (SoundCloud.nowISOString soundcloud2 index) track,
                 SoundCloud.calculateTrackScore (SoundCloud.oneYearAgo soundcloud2 index)
                   track vibeInput))); [reflexivity|].
  intros i track Hi. cbn [Nat.add].
  destruct (sameVerdict _ data i track Eq Hi) as [Hbonus Hdate].
  f_equal.
  - unfold SoundCloud.transformTrack.
    destruct (SoundCloud.item_created_at track) as [d|] eqn:Ed.
    + destruct (truthy (text d)) eqn:Et; [reflexivity|].
      rewrite Hdate; [reflexivity|]. intros d' Hd'. now injection Hd' as <-.
    + rewrite Hdate; [reflexivity|]. intros d' Hd'. discriminate Hd'.
  - unfold SoundCloud.calculateTrackScore.
    destruct (SoundCloud.item_created_at track) as [d|] eqn:Ed; [|reflexivity].
    destruct (getTime d) as [createdAt|] eqn:Eg; [|reflexivity].
    now rewrite (Hbonus d createdAt eq_refl Eg).
Qed.

End SoundCloudReadings.

(** C9, as amended.  The parsers are functions of the raw input alone: the
    same input is parsed to the same intent by each of them.  The rankings
    are functions of the candidates, the raw input, the clock and, for the
    YouTube query, the number [Math.random()] returns.  Two runs on the
    same input and the same provider responses give identical results
    whenever their clock readings give every scored track the same
    recency verdict (and the same date to a track that has none), and
    their random numbers pick the same anime term on the same side of 0.5,
    in particular whenever the readings are the same: this holds of the
    aggregator's merge step with [scoreTrack], of the YouTube query, of
    the search of the YouTube adapter with [getRecencyBonus], and of the
    search of the SoundCloud adapter. *)
Theorem ranking_is_deterministic_up_to_the_clock
    (world1 world2 : World) (allTracks : list UnifiedTrack)
    (searchContext : string) (maxResults : Z) (random1 random2 : Q)
    (vibeInput again : string) (isRetry : bool)
    (youtube1 youtube2 : YouTube.World) (youtubeService : YouTube.Service)
    (soundcloud1 soundcloud2 : SoundCloud.World)
    (soundcloudService : SoundCloud.Service) :
  again = vibeInput ->
  (forall i t,
      nth_error (uniqueBy duplicateKey allTracks) i = Some t ->
      withinLastYear (scoreTime world1 i) (publishedAt t)
      = withinLastYear (scoreTime world2 i) (publishedAt t)) ->
  Qfloor (random1 * 6) = Qfloor (random2 * 6) ->
  Qle_bool random1 (1 # 2) = Qle_bool random2 (1 # 2) ->
  (forall n,
      Qfloor (YouTube.mathRandom (youtube1 n) * 6)
      = Qfloor (YouTube.mathRandom (youtube2 n) * 6)
      /\ Qle_bool (YouTube.mathRandom (youtube1 n)) (1 # 2)
         = Qle_bool (YouTube.mathRandom (youtube2 n)) (1 # 2)) ->
  (forall n q, YouTube.searchList (youtube1 n) q = YouTube.searchList (youtube2 n) q) ->
  (forall n ids, YouTube.videosList (youtube1 n) ids = YouTube.videosList (youtube2 n) ids) ->
  (forall n q items i item,
      YouTube.searchList (youtube1 n) q = FetchOk (Some items) ->
      nth_error items i = Some item ->
      YouTube.getRecencyBonus (YouTube.oneYearAgo (youtube1 n) i) (scoredDate item)
      = YouTube.getRecencyBonus (YouTube.oneYearAgo (youtube2 n) i) (scoredDate item)
      /\ (scoredDate item = noDate ->
          YouTube.nowISOString (youtube1 n) i = YouTube.nowISOString (youtube2 n) i)) ->
  (forall q,
      SoundCloud.tracksEndpoint soundcloud1 q = SoundCloud.tracksEndpoint soundcloud2 q) ->
  (forall q data i track,
      SoundCloud.tracksEndpoint soundcloud1 q = FetchOk (Some data) ->
      nth_error (filter SoundCloud.isValidMusicTrack data) i = Some track ->
      (forall d createdAt,
          SoundCloud.item_created_at track = Some d -> getTime d = Some createdAt ->
          (SoundCloud.oneYearAgo soundcloud1 i <? createdAt)%Z
          = (SoundCloud.oneYearAgo soundcloud2 i <? createdAt)%Z)
      /\ ((forall d, SoundCloud.item_created_at track = Some d ->
                     truthy (text d) = false) ->
          SoundCloud.nowISOString soundcloud1 i = SoundCloud.nowISOString soundcloud2 i)) ->
  (Spotify.parseInput again = Spotify.parseInput vibeInput
   /\ YouTube.parseInput again = YouTube.parseInput vibeInput
   /\ SoundCloud.parseInput again = SoundCloud.parseInput vibeInput)
  /\ mergeAndRankResults world1 allTracks searchContext maxResults
     = mergeAndRankResults world2 allTracks searchContext maxResults
  /\ YouTube.generateSearchQuery random1 vibeInput isRetry
     = YouTube.generateSearchQuery random2 vibeInput isRetry
  /\ YouTube.searchMusic youtube1 vibeInput youtubeService
     = YouTube.searchMusic youtube2 vibeInput youtubeService
  /\ SoundCloud.searchMusic soundcloud1 vibeInput soundcloudService
     = SoundCloud.searchMusic soundcloud2 vibeInput soundcloudService.
Proof.
  intros Hagain Hclock Hfloor Hside Hdraw Hsearch Hvideos Hyoutube Htracks Hsoundcloud.
  split; [|split; [|split; [|split]]].
  - now rewrite Hagain.
  - unfold mergeAndRankResults, mapIndex.
    rewrite (mapIndexFrom_ext
               (fun track index =>
                  (track, scoreTrack (scoreTime world1 index) track searchContext))
               (fun track index =>
                  (track, scoreTrack (scoreTime world2 index) track searchContext)));
      [reflexivity|].
    intros i t Ht. cbn [Nat.add]. f_equal.
    apply (scoreTrack_clock world1). now apply Hclock.
  - now apply generateSearchQuery_random.
  - now apply youtube_searchMusic_readings.
  - now apply soundcloud_searchMusic_readings.
Qed.

(** Two runs five seconds apart, with two draws above 0.5: the aggregator
    ranks two releases, and each of the two adapters finds one track of
    January 2024. *)
Lemma ranking_is_deterministic_up_to_the_clock_witness :
  (Spotify.parseInput "lofi study" = Spotify.parseInput "lofi study"
   /\ YouTube.parseInput "lofi study" = YouTube.parseInput "lofi study"
   /\ SoundCloud.parseInput "lofi study" = SoundCloud.parseInput "lofi study")
  /\ mergeAndRankResults (Scenario.clockAt Scenario.june2024)
       [Scenario.oldRelease; Scenario.newRelease] "focus" 10
     = mergeAndRankResults (Scenario.clockAt (Scenario.june2024 + 5000))
         [Scenario.oldRelease; Scenario.newRelease] "focus" 10
  /\ YouTube.generateSearchQuery (3 # 4) "lofi study" false
     = YouTube.generateSearchQuery (4 # 5) "lofi study" false
  /\ YouTube.searchMusic
       (Sample.youtubeAt 1685577600000 "2024-06-01T00:00:00.000Z" (3 # 4))
       "lofi study" Scenario.youtubeService
     = YouTube.searchMusic
         (Sample.youtubeAt 1685577605000 "2024-06-01T00:00:05.000Z" (4 # 5))
         "lofi study" Scenario.youtubeService
  /\ SoundCloud.searchMusic
       (Sample.soundcloudAt 1685577600000 "2024-06-01T00:00:00.000Z")
       "lofi study" Sample.soundcloudService
     = SoundCloud.searchMusic
         (Sample.soundcloudAt 1685577605000 "2024-06-01T00:00:05.000Z")
         "lofi study" Sample.soundcloudService.
Proof.
  apply (ranking_is_deterministic_up_to_the_clock
           (Scenario.clockAt Scenario.june2024)
           (Scenario.clockAt (Scenario.june2024 + 5000))
           [Scenario.oldRelease; Scenario.newRelease] "focus" 10 (3 # 4) (4 # 5)
           "lofi study" "lofi study" false).
  - reflexivity.
  - intros [|[|i]] t H; [injection H as <- | injection H as <- | destruct i; discriminate];
      reflexivity.
  - reflexivity.
  - reflexivity.
  - intro n. split; reflexivity.
  - intros n q. reflexivity.
  - intros n ids. reflexivity.
  - intros n q items i item Hq Hi. injection Hq as <-.
    destruct i as [|[|i]]; [injection Hi as <- | discriminate Hi | discriminate Hi].
    split; [reflexivity | discriminate].
  - intro q. reflexivity.
  - intros q data i track Hq Hi. injection Hq as <-.
    destruct i as [|[|i]]; [injection Hi as <- | discriminate Hi | discriminate Hi].
    split.
    + intros d createdAt Hd Hc. injection Hd as <-. injection Hc as <-. reflexivity.
    + intro H. specialize (H _ eq_refl). discriminate H.
Defined.

Lemma log10_1 : log10 1 = 0%R.
Proof.
  unfold log10. rewrite ln_1. unfold Rdiv. apply Rmult_0_l.
Qed.

(** The popularity term of a track nobody has played. *)
Lemma popularity_zero_score (maxPopularity : R) :
  (Rmin (log10 (IZR 0 + 1) / log10 maxPopularity) 1 * 10 = 0)%R.
Proof.
  rewrite Rplus_0_l, log10_1. unfold Rdiv. rewrite Rmult_0_l.
  rewrite Rmin_left by lra. apply Rmult_0_l.
Qed.

Ltac score_of_release :=
  unfold scoreTrack; cbv zeta;
  match goal with
  | |- (_ + IZR ?z)%R = _ =>
      let v := eval vm_compute in z in change z with v
  end;
  cbn [popularity provider Scenario.oldRelease Scenario.newRelease Scenario.release];
  rewrite popularity_zero_score; apply Rplus_0_l.

Lemma score_old_june :
  scoreTrack Scenario.june2024 Scenario.oldRelease "focus" = 11%R.
Proof. score_of_release. Qed.

Lemma score_new_june :
  scoreTrack Scenario.june2024 Scenario.newRelease "focus" = 13%R.
Proof. score_of_release. Qed.

Lemma score_old_january :
  scoreTrack Scenario.january2026 Scenario.oldRelease "focus" = 11%R.
Proof. score_of_release. Qed.

Lemma score_new_january :
  scoreTrack Scenario.january2026 Scenario.newRelease "focus" = 11%R.
Proof. score_of_release. Qed.

Lemma ranking_of_two (world : World) (a b : UnifiedTrack) (searchContext : string) :
  duplicateKey a <> duplicateKey b ->
  mergeAndRankResults world [a; b] searchContext 10 =
  if Rle_dec (scoreTrack (scoreTime world 1) b searchContext)
             (scoreTrack (scoreTime world 0) a searchContext)
  then [a; b] else [b; a].
Proof.
  intro Hkeys. unfold mergeAndRankResults.
  assert (E : uniqueBy duplicateKey [a; b] = [a; b]).
  { rewrite uniqueBy_firstOccurrences. simpl.
    apply String.eqb_neq in Hkeys. now rewrite Hkeys. }
  rewrite E. cbn [mapIndex mapIndexFrom sort insertSorted].
  unfold byScore at 1. cbn [snd].
  destruct (Rle_dec _ _); reflexivity.
Qed.

(** C9, as stated, fails: the same two candidates, ranked for the same
    input on 1 June 2024 and again on 1 January 2026, come in opposite
    orders, because the track of January 2024 has lost its recency bonus
    in between; and the YouTube query for one input differs with the
    number [Math.random()] returns. *)
Lemma ranking_changes_with_the_clock :
  map id
    (mergeAndRankResults (Scenario.clockAt Scenario.june2024)
       [Scenario.oldRelease; Scenario.newRelease] "focus" 10)
  = ["sp-new"; "sp-old"]
  /\ map id
       (mergeAndRankResults (Scenario.clockAt Scenario.january2026)
          [Scenario.oldRelease; Scenario.newRelease] "focus" 10)
     = ["sp-old"; "sp-new"]
  /\ YouTube.generateSearchQuery (3 # 4) "happy workout" false
     <> YouTube.generateSearchQuery (1 # 4) "happy workout" false.
Proof.
  split; [|split].
  - rewrite ranking_of_two by (vm_compute; discriminate).
    cbn [scoreTime Scenario.clockAt].
    rewrite score_old_june, score_new_june.
    destruct (Rle_dec 13 11) as [H|H]; [lra | reflexivity].
  - rewrite ranking_of_two by (vm_compute; discriminate).
    cbn [scoreTime Scenario.clockAt].
    rewrite score_old_january, score_new_january.
    destruct (Rle_dec 11 11) as [H|H]; [reflexivity | lra].
  - vm_compute. discriminate.
Qed.

End DeterminismClaims.

(* ================================================================== *)
(** * Further properties: order, bounds and what a response holds *)

(** ** Sorting *)

Section SortFacts.
Import Js.
Context {A : Type}.
Variable precedes : A -> A -> bool.

Local Abbreviation before := (fun x y => precedes x y = true).

Lemma insertSorted_filter (K : A -> bool) (a : A) (l : list A) :
  (forall b, In b l -> K a = true -> K b = true -> precedes a b = true) ->
  filter K (insertSorted precedes a l) = filter K (a :: l).
Proof.
  induction l as [|b l IH]; intro H; simpl; [reflexivity|].
  destruct (precedes a b) eqn:E; simpl; [reflexivity|].
  rewrite IH by (intros c Hc; apply H; now right). simpl.
  destruct (K a) eqn:Ka, (K b) eqn:Kb; try reflexivity.
  rewrite (H b (or_introl eq_refl) eq_refl Kb) in E. discriminate.
Qed.

(** The sort is stable: the elements of a class [K] on which the
    comparator ties keep the order they had. *)
Lemma sort_stable (K : A -> bool) (l : list A) :
  (forall a b, K a = true -> K b = true -> precedes a b = true) ->
  filter K (sort precedes l) = filter K l.
Proof.
  intro H. induction l as [|a l IH]; simpl; [reflexivity|].
  rewrite insertSorted_filter by (intros; now apply H). simpl. now rewrite IH.
Qed.

Hypothesis total : forall a b, precedes a b = false -> precedes b a = true.
Hypothesis transitive :
  forall a b c, precedes a b = true -> precedes b c = true -> precedes a c = true.

Lemma insertSorted_sorted (a : A) (l : list A) :
  StronglySorted before l -> StronglySorted before (insertSorted precedes a l).
Proof.
  induction 1 as [|b rest Hs IH Hb]; simpl.
  - constructor; constructor.
  - destruct (precedes a b) eqn:E.
    + constructor; [now constructor|].
      constructor; [exact E|].
      eapply Forall_impl; [|exact Hb]. intros c Hc. now apply (transitive a b c).
    + constructor; [exact IH|].
      eapply Permutation_Forall; [apply Permutation_sym, insertSorted_perm|].
      constructor; [now apply total | exact Hb].
Qed.

Lemma sort_sorted (l : list A) : StronglySorted before (sort precedes l).
Proof.
  induction l as [|a l IH]; simpl; [constructor|].
  now apply insertSorted_sorted.
Qed.

End SortFacts.

Lemma firstn_sorted {A : Type} (R : A -> A -> Prop) (k : nat) (l : list A) :
  StronglySorted R l -> StronglySorted R (firstn k l).
Proof.
  intro H. revert k. induction H as [|a l Hs IH Ha]; intro k.
  - rewrite firstn_nil. constructor.
  - destruct k as [|k]; simpl; [constructor|].
    constructor; [apply IH|].
    rewrite Forall_forall in *. intros x Hx. apply Ha.
    rewrite <- (firstn_skipn k l). apply in_or_app. now left.
Qed.

Lemma slice0_sorted {A : Type} (R : A -> A -> Prop) (n : Z) (l : list A) :
  StronglySorted R l -> StronglySorted R (Js.slice0 n l).
Proof.
  destruct (slice0_prefix n l) as [k ->]. apply firstn_sorted.
Qed.

Lemma slice0_length {A : Type} (n : Z) (l : list A) :
  (0 <= n)%Z -> (Z.of_nat (length (Js.slice0 n l)) <= n)%Z.
Proof.
  intro H. unfold Js.slice0. destruct (0 <=? n)%Z eqn:E; [|lia].
  pose proof (firstn_le_length (Z.to_nat n) l).
  rewrite length_firstn. lia.
Qed.

(** A list of scored elements in the order of their scores, without the
    scores. *)
Lemma sorted_map {X A C : Type} (f : X -> A) (val : X -> C) (score : A -> C)
    (R : C -> C -> Prop) (l : list X) :
  Forall (fun x => val x = score (f x)) l ->
  StronglySorted (fun x y => R (val x) (val y)) l ->
  StronglySorted (fun a b => R (score a) (score b)) (map f l).
Proof.
  intros Hf Hs. induction Hs as [|x l Hs IH Hx]; simpl; [constructor|].
  inversion Hf as [|? ? Ex Hl]; subst.
  constructor; [now apply IH|].
  rewrite Forall_forall in *. intros b Hb.
  apply in_map_iff in Hb. destruct Hb as [y [<- Hy]].
  rewrite <- Ex, <- (Hl y Hy). now apply Hx.
Qed.

Lemma sorted_impl {A : Type} (R R' : A -> A -> Prop) (l : list A) :
  (forall a b, R a b -> R' a b) -> StronglySorted R l -> StronglySorted R' l.
Proof.
  intros H Hs. induction Hs as [|a l Hs IH Ha]; constructor; [exact IH|].
  eapply Forall_impl; [|exact Ha]. intros b Hb. now apply H.
Qed.

Lemma filter_map_fst {A B : Type} (K : A -> bool) (K' : A * B -> bool)
    (l : list (A * B)) :
  (forall x, In x l -> K' x = K (fst x)) ->
  filter K (map fst l) = map fst (filter K' l).
Proof.
  induction l as [|x l IH]; intro H; simpl; [reflexivity|].
  rewrite (H x (or_introl eq_refl)), IH by (intros y Hy; apply H; now right).
  now destruct (K (fst x)).
Qed.

(** ** The order in which the aggregator tries the providers *)

(** The list of the providers to try: the enabled keys of the
    configuration, in ascending order of priority; providers of equal
    priority stand in the order of the keys of the configuration object. *)
Lemma enabledProviders_order (searchConfig : Unified.SearchConfig) :
  let ps := Unified.configProviders searchConfig in
  let priorityOf p := Unified.priority (Unified.configOf ps p) in
  (forall p, In p (Unified.enabledProviders searchConfig) <->
             In p (Unified.keys ps) /\ Unified.enabled (Unified.configOf ps p) = true)
  /\ StronglySorted (fun a b => (priorityOf a <= priorityOf b)%Z)
       (Unified.enabledProviders searchConfig)
  /\ forall v,
       filter (fun p => (priorityOf p =? v)%Z) (Unified.enabledProviders searchConfig)
       = filter (fun p => (priorityOf p =? v)%Z)
           (filter (fun p => Unified.enabled (Unified.configOf ps p)) (Unified.keys ps)).
Proof.
  intros ps priorityOf. split; [|split].
  - apply enabledProviders_In.
  - unfold Unified.enabledProviders.
    apply (sorted_map fst (fun entry => Unified.priority (snd entry)) priorityOf Z.le).
    + rewrite Forall_forall. intros entry H. unfold priorityOf, ps.
      now rewrite <- (sorted_entries_config searchConfig entry H).
    + eapply sorted_impl; [|apply sort_sorted].
      * intros a b H. unfold Unified.byPriority in H. lia.
      * intros a b H. unfold Unified.byPriority in *. lia.
      * intros a b c H1 H2. unfold Unified.byPriority in *. lia.
  - intro v. unfold Unified.enabledProviders.
    rewrite (filter_map_fst _ (fun entry => (Unified.priority (snd entry) =? v)%Z)).
    + rewrite sort_stable.
      * rewrite <- (filter_map_fst (fun p => (priorityOf p =? v)%Z)).
        -- now rewrite enabledEntries_keys.
        -- intros entry H. apply filter_In in H. destruct H as [H _].
           unfold priorityOf, ps. now rewrite <- (entries_config searchConfig entry H).
      * intros a b Ha Hb. unfold Unified.byPriority. lia.
    + intros entry H. unfold priorityOf, ps.
      now rewrite <- (sorted_entries_config searchConfig entry H).
Qed.

(** X1.  The adapters a search calls, in order.  The providers to try are
    the enabled keys of the configuration in ascending order of priority,
    those of equal priority in the order of the keys.  The primary loop
    calls the adapters of an initial segment of this list, one call each
    and in this order: of the first provider at least, and of all of them
    when the fallback is enabled (with the fallback disabled the loop may
    stop early).  The fallback, when it runs, calls the adapters of all the
    providers of the list again, in the same order.  No other adapter call
    is made, and none at all when no provider is enabled. *)
Theorem providers_are_tried_by_priority
    (world : Unified.World) (vibeInput : string)
    (config : Unified.PartialSearchConfig) (s : Unified.Service) :
  let searchConfig := Unified.mergeConfig Unified.defaultConfig config in
  let ps := Unified.configProviders searchConfig in
  let priorityOf p := Unified.priority (Unified.configOf ps p) in
  let order := Unified.enabledProviders searchConfig in
  (forall p, In p order <->
             In p (Unified.keys ps) /\ Unified.enabled (Unified.configOf ps p) = true)
  /\ StronglySorted (fun a b => (priorityOf a <= priorityOf b)%Z) order
  /\ (forall v,
        filter (fun p => (priorityOf p =? v)%Z) order
        = filter (fun p => (priorityOf p =? v)%Z)
            (filter (fun p => Unified.enabled (Unified.configOf ps p)) (Unified.keys ps)))
  /\ match Unified.searchMusic world vibeInput config s with
     | (Effect.Throws _, s') => order = [] /\ s' = s
     | (Effect.Returns _, s') =>
         exists acc s1 k,
           Unified.primaryLoop world vibeInput searchConfig order ([], []) s
           = (Effect.Returns acc, s1)
           /\ acc = fst (Observed.primaryResult world vibeInput searchConfig order
                           (Unified.calls s) ([], []))
           /\ (0 < k)%nat
           /\ (Unified.fallbackEnabled searchConfig = true -> (length order <= k)%nat)
           /\ Observed.adapterCalls (Unified.events s1)
              = (Observed.adapterCalls (Unified.events s) ++ firstn k order)%list
           /\ Observed.adapterCalls (Unified.events s')
              = (Observed.adapterCalls (Unified.events s1)
                 ++ (if Unified.needsFallback searchConfig acc then order else []))%list
     end.
Proof.
  intros searchConfig ps priorityOf order.
  destruct (enabledProviders_order searchConfig) as [H1 [H2 H3]].
  split; [exact H1|]. split; [exact H2|]. split; [exact H3|].
  unfold Unified.searchMusic. fold searchConfig.
  assert (Hcases : order = [] \/ order <> [])
    by (destruct order; [left | right]; congruence).
  destruct Hcases as [E|E].
  - rewrite searchWith_none_enabled by exact E. split; [exact E | reflexivity].
  - destruct (searchWith_trace world vibeInput searchConfig s E)
      as [acc [s1 [r [s2 [k [T1 [T0 [T2 [T3 [T4 [T5 T6]]]]]]]]]]].
    rewrite T2. exists acc, s1, k. repeat split; assumption.
Qed.

(** ** What a response of the aggregator holds *)

Section ResponseFacts.
Import Js Effect Unified Observed.
Variable world : World.
Variable vibeInput : string.
Variable searchConfig : SearchConfig.

Local Abbreviation brought := (Observed.brought world vibeInput searchConfig).
Local Abbreviation primaryResult := (Observed.primaryResult world vibeInput searchConfig).
Local Abbreviation parallelResults := (Observed.parallelResults world vibeInput searchConfig).
Local Abbreviation stopsEarly := (Observed.stopsEarly searchConfig).

(** Every accumulated track is of a provider that is marked as used. *)
Local Abbreviation owned acc :=
  (forall t : UnifiedTrack, In t (fst acc) -> In (provider t) (snd acc)).

Lemma accumulate_owned (p : MusicProvider) (n : nat) (acc : Accumulated) :
  owned acc -> owned (accumulate p (brought p n) acc).
Proof.
  unfold accumulate. intros H t.
  destruct (0 <? length (brought p n))%nat; [|apply H]. cbn [fst snd].
  intro Ht. apply in_or_app. apply in_app_or in Ht. destruct Ht as [Ht|Ht].
  - left. now apply H.
  - right. left. symmetry. exact (yielded_provider world vibeInput p n _ t Ht).
Qed.

Lemma primaryResult_owned (remaining : list MusicProvider) (n : nat) (acc : Accumulated) :
  owned acc -> owned (fst (primaryResult remaining n acc)).
Proof.
  revert n acc. induction remaining as [|p rest IH]; intros n acc H; simpl; [exact H|].
  destruct (stopsEarly (brought p n) acc); [|apply IH]; now apply accumulate_owned.
Qed.

Lemma mergeNew_owned (results : list (MusicProvider * list UnifiedTrack))
    (acc : Accumulated) :
  (forall p value t, In (p, value) results -> In t value -> provider t = p) ->
  owned acc -> owned (mergeNew results acc).
Proof.
  revert acc. induction results as [|[p value] rest IH]; intros acc Hr H; simpl;
    [exact H|].
  apply IH; [intros q v t Hq; apply (Hr q v t); now right|].
  destruct ((0 <? length value)%nat && negb (usedIncludes (snd acc) p)); [|exact H].
  cbn [fst snd]. intros t Ht.
  apply in_or_app. apply in_app_or in Ht. destruct Ht as [Ht|Ht].
  - left. now apply H.
  - right. left. symmetry. apply (Hr p value t); [now left | exact Ht].
Qed.

Lemma parallelResults_owned (ps : list MusicProvider) (n : nat) (p : MusicProvider)
    (value : list UnifiedTrack) (t : UnifiedTrack) :
  In (p, value) (parallelResults ps n) -> In t value -> provider t = p.
Proof.
  intros H Ht. apply parallelResults_in in H. destruct H as [_ [k ->]].
  exact (yielded_provider world vibeInput p k _ t Ht).
Qed.

Lemma accumulate_NoDup (p : MusicProvider) (tracks : list UnifiedTrack)
    (rest : list MusicProvider) (acc : Accumulated) :
  NoDup (snd acc ++ p :: rest) ->
  NoDup (snd (accumulate p tracks acc) ++ rest).
Proof.
  unfold accumulate. intro H. destruct (0 <? length tracks)%nat; cbn [snd].
  - now rewrite <- app_assoc.
  - now apply NoDup_remove_1 in H.
Qed.

Lemma primaryResult_NoDup (remaining : list MusicProvider) (n : nat) (acc : Accumulated) :
  NoDup (snd acc ++ remaining) -> NoDup (snd (fst (primaryResult remaining n acc))).
Proof.
  revert n acc. induction remaining as [|p rest IH]; intros n acc H; simpl.
  - now rewrite app_nil_r in H.
  - apply (accumulate_NoDup p (brought p n)) in H.
    destruct (stopsEarly (brought p n) acc).
    + now apply NoDup_app_remove_r in H.
    + now apply IH.
Qed.

Lemma mergeNew_NoDup (results : list (MusicProvider * list UnifiedTrack))
    (acc : Accumulated) :
  NoDup (snd acc) -> NoDup (snd (mergeNew results acc)).
Proof.
  revert acc. induction results as [|[p value] rest IH]; intros acc H; simpl; [exact H|].
  apply IH.
  destruct ((0 <? length value)%nat && negb (usedIncludes (snd acc) p)) eqn:E; [|exact H].
  apply andb_prop in E. destruct E as [_ E]. cbn [snd].
  apply NoDup_app; [exact H | repeat constructor; intros [] |].
  intros q Hq [<-|[]]. apply usedIncludes_In in Hq. rewrite Hq in E. discriminate.
Qed.

(** The adapter calls of the primary loop: one per provider tried. *)
Lemma primaryResult_calls (remaining : list MusicProvider) (n : nat) (acc : Accumulated) :
  (n <= snd (primaryResult remaining n acc) <= n + length remaining)%nat
  /\ (remaining <> [] -> n < snd (primaryResult remaining n acc))%nat.
Proof.
  revert n acc. induction remaining as [|p rest IH]; intros n acc; simpl.
  - split; [lia | congruence].
  - destruct (stopsEarly (brought p n) acc); simpl; [lia|].
    destruct (IH (S n) (accumulate p (brought p n) acc)) as [H _]. lia.
Qed.

Lemma mergeAndRankResults_length (allTracks : list UnifiedTrack) (maxResults : Z) :
  (0 <= maxResults)%Z ->
  (Z.of_nat (length (mergeAndRankResults world allTracks vibeInput maxResults))
   <= maxResults)%Z.
Proof.
  intro H. unfold mergeAndRankResults. rewrite length_map. now apply slice0_length.
Qed.

End ResponseFacts.

Section ResponseClaims.
Import Js Effect Unified Observed.

Lemma mapIndexFrom_map {A B : Type} (f : A -> B) (start : nat) (l : list A) :
  mapIndexFrom (fun x _ => f x) start l = map f l.
Proof.
  revert start. induction l as [|x l IH]; intro start; simpl; [reflexivity|].
  now rewrite IH.
Qed.

Lemma byScore_sorted (scored : list (UnifiedTrack * R)) :
  StronglySorted (fun x y => (snd y <= snd x)%R) (sort byScore scored).
Proof.
  eapply sorted_impl; [|apply sort_sorted].
  - intros a b H. unfold byScore in H. now destruct (Rle_dec (snd b) (snd a)).
  - intros a b H. unfold byScore in *.
    destruct (Rle_dec (snd b) (snd a)); [discriminate|].
    destruct (Rle_dec (snd a) (snd b)); [reflexivity|]. lra.
  - intros a b c H1 H2. unfold byScore in *.
    destruct (Rle_dec (snd b) (snd a)); [|discriminate].
    destruct (Rle_dec (snd c) (snd b)); [|discriminate].
    destruct (Rle_dec (snd c) (snd a)); [reflexivity|]. lra.
Qed.

(** The search with a configuration in which a provider is enabled. *)
Lemma searchWith_consistent
    (world : World) (vibeInput : string) (searchConfig : SearchConfig) (s : Service) :
  enabledProviders searchConfig <> [] ->
  exists r,
    result (searchWith world vibeInput searchConfig s) = Returns r
    /\ totalResults r = Z.of_nat (length (tracks r))
    /\ ((0 <= maxResults searchConfig)%Z ->
        (Z.of_nat (length (tracks r)) <= maxResults searchConfig)%Z)
    /\ (forall t, In t (tracks r) -> In (provider t) (providers r))
    /\ incl (providers r) (enabledProviders searchConfig)
    /\ (NoDup (keys (configProviders searchConfig)) -> NoDup (providers r)).
Proof.
  intros Hne.
  destruct (searchWith_provenance world vibeInput searchConfig s Hne)
    as [r [Hr [HU _]]].
  exists r. split; [exact Hr|].
  destruct (searchWith_run world vibeInput searchConfig s Hne) as [s1 [_ H]].
  cbn zeta in H. unfold result in Hr. rewrite H in Hr. clear H.
  set (acc1 := fst (primaryResult world vibeInput searchConfig
                      (enabledProviders searchConfig) (calls s) ([], []))) in *.
  assert (O1 : forall t, In t (fst acc1) -> In (provider t) (snd acc1)).
  { apply primaryResult_owned. intros t []. }
  assert (N1 : NoDup (keys (configProviders searchConfig)) -> NoDup (snd acc1)).
  { intro Hk. apply primaryResult_NoDup. simpl.
    now apply enabledProviders_NoDup. }
  assert (Hacc : exists acc,
             r = responseOf world vibeInput searchConfig acc
             /\ (forall t, In t (fst acc) -> In (provider t) (snd acc))
             /\ (NoDup (keys (configProviders searchConfig)) -> NoDup (snd acc))).
  { destruct (needsFallback searchConfig acc1); cbn [fst] in Hr;
      injection Hr as <-; eexists; (split; [reflexivity|]); split.
    - apply mergeNew_owned; [|exact O1].
      intros p value t. apply parallelResults_owned.
    - intro Hk. apply mergeNew_NoDup. now apply N1.
    - exact O1.
    - exact N1. }
  destruct Hacc as [acc [-> [Ho Hn]]]. unfold responseOf. cbn [tracks totalResults providers].
  split; [reflexivity|]. split; [apply mergeAndRankResults_length|].
  split; [|split].
  - intros t Ht. apply mergeAndRankResults_incl in Ht. now apply Ho.
  - intros q Hq. now apply HU.
  - exact Hn.
Qed.

(** X2.  A response of the aggregator is consistent.  When a provider is
    enabled the search returns; [totalResults] is the number of returned
    tracks, which is at most [maxResults] when that is not negative; every
    returned track comes from one of the returned [providers]; these are
    enabled providers, each listed once when the configuration names each
    provider once. *)
Theorem search_response_is_consistent
    (world : World) (vibeInput : string) (config : PartialSearchConfig) (s : Service) :
  let searchConfig := mergeConfig defaultConfig config in
  enabledProviders searchConfig <> [] ->
  exists r,
    result (searchMusic world vibeInput config s) = Returns r
    /\ totalResults r = Z.of_nat (length (tracks r))
    /\ ((0 <= maxResults searchConfig)%Z ->
        (Z.of_nat (length (tracks r)) <= maxResults searchConfig)%Z)
    /\ (forall t, In t (tracks r) -> In (provider t) (providers r))
    /\ incl (providers r) (enabledProviders searchConfig)
    /\ (NoDup (keys (configProviders searchConfig)) -> NoDup (providers r)).
Proof.
  intros searchConfig Hne. unfold searchMusic.
  now apply searchWith_consistent.
Qed.

(** Spotify times out; YouTube returns ten tracks and SoundCloud three. *)
Lemma search_response_is_consistent_witness :
  exists r,
    result (searchMusic Scenario.spotifyTimesOut "night drive" Scenario.allThree start)
    = Returns r
    /\ totalResults r = Z.of_nat (length (tracks r))
    /\ (Z.of_nat (length (tracks r)) <= 10)%Z
    /\ (forall t, In t (tracks r) -> In (provider t) (providers r))
    /\ incl (providers r) [spotify; youtube; soundcloud]
    /\ NoDup (providers r).
Proof.
  destruct (search_response_is_consistent
              Scenario.spotifyTimesOut "night drive" Scenario.allThree start)
    as [r [H1 [H2 [H3 [H4 [H5 H6]]]]]]; [discriminate|].
  exists r. split; [exact H1|]. split; [exact H2|]. split; [|split; [exact H4|split]].
  - apply H3. discriminate.
  - exact H5.
  - apply H6. repeat constructor; simpl; intuition discriminate.
Defined.

(** X3.  One search calls the adapter of each provider at most twice: at
    most once in the primary loop and at most once in the fallback.  It
    calls it at most once when the fallback is disabled or a single
    provider is enabled, at least once when the provider and the fallback
    are enabled, and never when the provider is not enabled.  The keys of
    the configuration object are distinct. *)
Theorem adapter_calls_are_bounded
    (world : World) (vibeInput : string) (config : PartialSearchConfig) (s : Service)
    (p : MusicProvider) :
  let searchConfig := mergeConfig defaultConfig config in
  let order := enabledProviders searchConfig in
  NoDup (keys (configProviders searchConfig)) ->
  exists made,
    adapterCalls (events (final (searchMusic world vibeInput config s)))
    = (adapterCalls (events s) ++ made)%list
    /\ (length (filter (providerEqb p) made) <= 2)%nat
    /\ (fallbackEnabled searchConfig = false \/ (length order <= 1)%nat ->
        (length (filter (providerEqb p) made) <= 1)%nat)
    /\ (In p order -> fallbackEnabled searchConfig = true ->
        (1 <= length (filter (providerEqb p) made))%nat)
    /\ (~ In p order -> length (filter (providerEqb p) made) = 0%nat).
Proof.
  intros searchConfig order Hkeys. unfold searchMusic. fold searchConfig.
  assert (Hnd : NoDup order) by now apply enabledProviders_NoDup.
  assert (Hcases : order = [] \/ order <> [])
    by (destruct order; [left | right]; congruence).
  destruct Hcases as [E|E].
  - rewrite searchWith_none_enabled by exact E. exists []. cbn.
    rewrite app_nil_r. split; [reflexivity|]. split; [lia|]. split; [lia|].
    split; [|reflexivity]. intro Hp. rewrite E in Hp. contradiction.
  - destruct (searchWith_trace world vibeInput searchConfig s E)
      as [acc [s1 [r [s2 [k [T1 [T0 [T2 [T3 [T4 [T5 T6]]]]]]]]]]].
    fold order in T4, T5, T6. rewrite T2. unfold final. cbn [snd].
    exists (firstn k order
            ++ (if needsFallback searchConfig acc then order else []))%list.
    rewrite T6, T5, <- app_assoc. split; [reflexivity|].
    rewrite filter_app, length_app.
    pose proof (occurrences_NoDup p (firstn k order) (firstn_NoDup k order Hnd)) as B1.
    pose proof (occurrences_NoDup p order Hnd) as B2.
    assert (B3 : (length (filter (providerEqb p)
                            (if needsFallback searchConfig acc then order else []))
                  <= 1)%nat)
      by (destruct (needsFallback searchConfig acc); [exact B2 | simpl; lia]).
    split; [lia|]. split; [|split].
    + intro H.
      assert (Enf : needsFallback searchConfig acc = false).
      { unfold needsFallback. fold order. destruct H as [H|H].
        - rewrite H. now rewrite andb_false_r.
        - replace (1 <? length order)%nat with false
            by (symmetry; apply Nat.ltb_ge; exact H).
          now rewrite andb_false_r. }
      rewrite Enf. simpl. lia.
    + intros Hp Hf. specialize (T4 Hf).
      rewrite firstn_all2 by exact T4.
      pose proof (occurrences_In p order Hp). lia.
    + intro Hp.
      rewrite (occurrences_not_In p (firstn k order)).
      * destruct (needsFallback searchConfig acc); [|reflexivity].
        now rewrite (occurrences_not_In p order).
      * intro F. apply Hp. rewrite <- (firstn_skipn k order).
        apply in_or_app. now left.
Qed.

(** The default configuration with every adapter failing: the adapter of
    Spotify is called twice. *)
Lemma adapter_calls_are_bounded_witness :
  NoDup (keys (configProviders (mergeConfig defaultConfig noOverrides)))
  /\ exists made,
       adapterCalls
         (events (final (searchMusic Scenario.allFail "chill beats" noOverrides start)))
       = (adapterCalls (events start) ++ made)%list
       /\ made = [spotify; youtube; spotify; youtube]
       /\ (length (filter (providerEqb spotify) made) <= 2)%nat.
Proof.
  assert (Hkeys : NoDup (keys (configProviders (mergeConfig defaultConfig noOverrides)))).
  { repeat constructor; simpl; intuition discriminate. }
  split; [exact Hkeys|].
  destruct (adapter_calls_are_bounded Scenario.allFail "chill beats" noOverrides start
              spotify Hkeys) as [made [H1 [H2 _]]].
  exists made. split; [exact H1|]. split; [|exact H2].
  vm_compute in H1. now symmetry.
Defined.

(** X4.  The returned tracks stand in descending order of their score, for a
    clock that reads the same instant for every track scored. *)
Theorem merged_tracks_are_in_score_order
    (world : World) (allTracks : list UnifiedTrack) (searchContext : string)
    (maxResults now : Z) :
  (forall index, scoreTime world index = now) ->
  StronglySorted
    (fun a b => (scoreTrack now b searchContext <= scoreTrack now a searchContext)%R)
    (mergeAndRankResults world allTracks searchContext maxResults).
Proof.
  intro Hclock. unfold mergeAndRankResults, mapIndex.
  rewrite (mapIndexFrom_ext _ (fun track _ => (track, scoreTrack now track searchContext)))
    by (intros i x _; now rewrite Hclock).
  rewrite mapIndexFrom_map.
  apply (sorted_map fst snd (fun t => scoreTrack now t searchContext)
           (fun x y => (y <= x)%R)).
  - rewrite Forall_forall. intros x Hx. apply slice0_incl in Hx.
    apply (Permutation_in _ (sort_perm _ _)) in Hx.
    apply in_map_iff in Hx. now destruct Hx as [t [<- _]].
  - apply slice0_sorted, byScore_sorted.
Qed.

Lemma merged_tracks_are_in_score_order_witness :
  StronglySorted
    (fun a b => (scoreTrack Scenario.june2024 b "awake" <= scoreTrack Scenario.june2024 a "awake")%R)
    (mergeAndRankResults (Scenario.clockAt Scenario.june2024)
       [Scenario.newRelease; Scenario.oldRelease] "awake" 10).
Proof.
  apply (merged_tracks_are_in_score_order (Scenario.clockAt Scenario.june2024)).
  intro index. reflexivity.
Defined.

End ResponseClaims.

(** ** The Spotify adapter: score, token and ranking *)

Section SpotifyFacts.
Import Js Effect Spotify.

Lemma Qmax0_bounds (x bound : Q) : x <= bound -> 0 <= bound -> 0 <= Qmax 0 x <= bound.
Proof.
  intros H1 H2. split; [apply Q.le_max_l | now apply Q.max_lub].
Qed.

(** X5.  The mood score of a track with audio features lies between 0 and 18
    when its danceability and acousticness lie between 0 and 1, as the
    catalog documents them; whatever the input. *)
Theorem mood_score_is_bounded
    (track : SpotifyTrack) (searchContext : string) (features : SpotifyAudioFeatures) :
  audioFeatures track = Some features ->
  0 <= danceability features <= 1 ->
  0 <= acousticness features <= 1 ->
  0 <= calculateMoodScore track searchContext <= 18.
Proof.
  intros Hf Hd Ha. unfold calculateMoodScore. rewrite Hf.
  set (parsed := parseInput searchContext).
  match goal with
  | |- context [Qmax 0 (5 - Qabs ?e * 10)] =>
      assert (E : 0 <= Qmax 0 (5 - Qabs e * 10) <= 5)
        by (pose proof (Qabs_nonneg e); generalize dependent (Qabs e); intros;
            apply Qmax0_bounds; Lqa.lra);
      generalize dependent (Qmax 0 (5 - Qabs e * 10)); intros energyScore E
  end.
  match goal with
  | |- context [Qmax 0 (5 - Qabs ?e * 10)] =>
      assert (V : 0 <= Qmax 0 (5 - Qabs e * 10) <= 5)
        by (pose proof (Qabs_nonneg e); generalize dependent (Qabs e); intros;
            apply Qmax0_bounds; Lqa.lra);
      generalize dependent (Qmax 0 (5 - Qabs e * 10)); intros valenceScore V
  end.
  match goal with
  | |- context [Qmax 0 (2 - Qabs ?e / 50)] =>
      assert (T : 0 <= Qmax 0 (2 - Qabs e / 50) <= 2)
        by (pose proof (Qabs_nonneg e); generalize dependent (Qabs e); intros;
            apply Qmax0_bounds; unfold Qdiv; change (/ 50) with (1 # 50); Lqa.lra);
      generalize dependent (Qmax 0 (2 - Qabs e / 50)); intros tempoScore T
  end.
  destruct (arrayIncludes ["party"; "dance"; "gym"] (environment parsed)
            || arrayIncludes ["energetic"; "hype"] (vibe parsed));
    destruct (arrayIncludes ["study"; "sleep"; "cafe"] (environment parsed)
              || arrayIncludes ["chill"; "calm"] (vibe parsed));
    split; Lqa.lra.
Qed.

Lemma mood_score_is_bounded_witness :
  0 <= calculateMoodScore Sample.featured "energetic gym workout fast" <= 18.
Proof.
  apply (mood_score_is_bounded Sample.featured "energetic gym workout fast"
           Sample.features).
  - reflexivity.
  - split; discriminate.
  - split; discriminate.
Defined.

(** X6.  A token that a call of [getAccessToken] returned is returned again,
    without a request, by every later call made before the expiry the
    service recorded; a token that was fetched expires one minute before
    the time the token endpoint announced. *)
Theorem token_is_reused_until_it_expires
    (world later : World) (s s1 : Service) (token : string) :
  getAccessToken world s = (Returns token, s1) ->
  token <> "" ->
  (dateNow later < tokenExpiry s1)%Z ->
  getAccessToken later s1 = (Returns token, s1)
  /\ (sent s1 = sent s
      \/ exists data,
           tokenEndpoint world = FetchOk data
           /\ sent s1 = (sent s ++ [TokenRequest])%list
           /\ tokenExpiry s1 = (dateNow world + expires_in data * 1000 - 60000)%Z).
Proof.
  intros H Hne Hlater.
  assert (Hcached : accessToken s1 = Some token ->
                    getAccessToken later s1 = (Returns token, s1)).
  { intro E. unfold getAccessToken, bind, get, cachedToken. rewrite E.
    destruct token; [contradiction|]. cbn [truthy andb].
    apply Z.ltb_lt in Hlater. now rewrite Hlater. }
  unfold getAccessToken, bind, get in H.
  destruct (cachedToken world s) as [cached|] eqn:Ec.
  - unfold ret in H. injection H as <- <-. split; [|now left].
    apply Hcached. unfold cachedToken in Ec.
    destruct (accessToken s) as [t|]; [|discriminate].
    destruct (truthy t && (dateNow world <? tokenExpiry s)%Z); [|discriminate].
    now injection Ec as ->.
  - destruct (negb (truthy (clientId s)) || negb (truthy (clientSecret s)));
      [discriminate|].
    unfold tryCatch, bind, send, modify, setToken in H.
    destruct (tokenEndpoint world) as [|status|data] eqn:Et;
      unfold throw, ret, modify in H; try discriminate.
    injection H as <- <-. cbn [accessToken sent tokenExpiry] in *.
    split; [now apply Hcached|]. right. exists data. now repeat split.
Qed.

(** The token fetched at noon is returned half an hour later, when the
    token endpoint cannot be reached. *)
Lemma token_is_reused_until_it_expires_witness :
  getAccessToken Sample.halfAnHourLater Sample.withToken
  = (Returns "BQD-token", Sample.withToken).
Proof.
  apply (token_is_reused_until_it_expires
           (Scenario.catalog []) Sample.halfAnHourLater Scenario.spotifyService
           Sample.withToken "BQD-token").
  - reflexivity.
  - discriminate.
  - reflexivity.
Defined.

(** X7.  Without credentials and without a token the adapter fails with its
    own message and sends no request. *)
Theorem unconfigured_spotify_sends_nothing
    (world : World) (vibeInput : string) (s : Service) :
  isConfigured s = false ->
  accessToken s = None ->
  searchMusic world vibeInput s = (Throws "Failed to search Spotify tracks", s).
Proof.
  unfold isConfigured. intros Hc Ht.
  unfold searchMusic, tryCatch, bind, getAccessToken, bind, get, cachedToken.
  rewrite Ht.
  replace (negb (truthy (clientId s)) || negb (truthy (clientSecret s))) with true
    by (destruct (truthy (clientId s)), (truthy (clientSecret s)); simpl in *; congruence).
  reflexivity.
Qed.

Lemma unconfigured_spotify_sends_nothing_witness :
  searchMusic (Scenario.catalog Scenario.twoHits) "happy"
    (Smart.spotifyService Sample.nothingSet)
  = (Throws "Failed to search Spotify tracks", Smart.spotifyService Sample.nothingSet).
Proof.
  apply (unconfigured_spotify_sends_nothing
           (Scenario.catalog Scenario.twoHits) "happy"
           (Smart.spotifyService Sample.nothingSet));
    reflexivity.
Defined.

Lemma spotify_byScore_sorted (scored : list (SpotifyTrack * Q)) :
  StronglySorted (fun x y => snd y <= snd x) (sort byScore scored).
Proof.
  eapply sorted_impl; [|apply sort_sorted].
  - intros a b H. unfold byScore in H. now apply Qle_bool_iff.
  - intros a b H. unfold byScore in *. apply Qle_bool_iff.
    apply Qlt_le_weak, Qnot_le_lt. intro F. apply Qle_bool_iff in F. congruence.
  - intros a b c H1 H2. unfold byScore in *. rewrite Qle_bool_iff in *.
    now apply (Qle_trans _ (snd b)).
Qed.

(** The outcome of the Spotify adapter's search. *)
Lemma spotify_searchMusic_outcome
    (world : World) (vibeInput : string) (s : Service) :
  let score track :=
    calculateMoodScore track vibeInput + inject_Z (popularity track) / 10 in
  match result (searchMusic world vibeInput s) with
  | Returns r =>
      (length (tracks r) <= 10)%nat
      /\ totalResults r = Z.of_nat (length (tracks r))
      /\ StronglySorted (fun a b => score b <= score a) (tracks r)
  | Throws message => message = "Failed to search Spotify tracks"
  end.
Proof.
  intro score. unfold searchMusic, tryCatch, result.
  unfold bind at 1.
  destruct (getAccessToken world s) as [[token|message] s1]; [|reflexivity].
  unfold bind at 1. unfold send, modify.
  destruct (searchEndpoint world (buildSearchQuery world vibeInput))
    as [|status|[items|]]; cbn [fst]; try reflexivity;
    try (cbn; repeat split; try lia; constructor).
  destruct items as [|item0 items0];
    [cbn; repeat split; try lia; constructor|].
  set (items := item0 :: items0). clearbody items.
  destruct (filter hasPreview items) as [|p ps] eqn:Ef;
    [cbn; repeat split; try lia; constructor|].
  unfold bind.
  match goal with
  | |- context [getAudioFeatures world ?ids ?st] =>
      destruct (getAudioFeatures_returns world ids st) as [features [s2 ->]]
  end.
  cbn [fst ret tracks totalResults]. unfold ret. cbn [fst tracks totalResults].
  split; [|split; [reflexivity|]].
  - rewrite length_map. unfold slice0. cbn. apply firstn_le_length.
  - apply (sorted_map fst snd score (fun x y => y <= x)).
    + rewrite Forall_forall. intros x Hx. apply slice0_incl in Hx.
      apply (Permutation_in _ (sort_perm _ _)) in Hx.
      apply in_map_iff in Hx. now destruct Hx as [t [<- _]].
    + apply slice0_sorted, spotify_byScore_sorted.
Qed.

(** X8.  The adapter returns at most ten tracks, [totalResults] counting them,
    in descending order of the mood score plus a tenth of the popularity;
    the only error it throws is its own. *)
Theorem spotify_tracks_are_in_score_order
    (world : World) (vibeInput : string) (s : Service) :
  let score track :=
    calculateMoodScore track vibeInput + inject_Z (popularity track) / 10 in
  match result (searchMusic world vibeInput s) with
  | Returns r =>
      (length (tracks r) <= 10)%nat
      /\ totalResults r = Z.of_nat (length (tracks r))
      /\ StronglySorted (fun a b => score b <= score a) (tracks r)
  | Throws message => message = "Failed to search Spotify tracks"
  end.
Proof.
  exact (spotify_searchMusic_outcome world vibeInput s).
Qed.

End SpotifyFacts.

(** ** The YouTube and SoundCloud adapters: what they return *)

Section AdapterOutcomes.
Import Js Effect.

Lemma collectFrom_in {A B : Type} (f : A -> nat -> option B) (start : nat)
    (l : list A) (y : B) :
  In y (YouTube.collectFrom f start l) -> exists x i, In x l /\ f x i = Some y.
Proof.
  revert start. induction l as [|x l IH]; intros start H; simpl in H; [contradiction|].
  destruct (f x start) as [y'|] eqn:E.
  - destruct H as [<-|H].
    + exists x, start. split; [now left | exact E].
    + apply IH in H. destruct H as [x' [i [H1 H2]]]. exists x', i. split; [now right | exact H2].
  - apply IH in H. destruct H as [x' [i [H1 H2]]]. exists x', i. split; [now right | exact H2].
Qed.

Lemma isValidMusicVideo_true (snippetTitle : option string) (duration viewCount : Z) :
  YouTube.isValidMusicVideo snippetTitle duration viewCount = true ->
  let title := match snippetTitle with Some t => toLowerCase t | None => "" end in
  (60 <= duration <= 1800)%Z
  /\ ((duration <=? 600)%Z
      || includes title "playlist" || includes title "mix"
      || includes title "compilation") = true
  /\ (100 <= viewCount)%Z
  /\ someIncluded title
       [ "tutorial"; "lesson"; "how to"; "reaction"; "review"; "podcast";
         "interview"; "live stream"; "full album"; "audiobook"; "lecture" ] = false.
Proof.
  intro H. cbn zeta. unfold YouTube.isValidMusicVideo in H.
  set (title := match snippetTitle with Some t => toLowerCase t | None => "" end) in *.
  destruct (duration <? 60)%Z eqn:E1; [discriminate|].
  destruct ((600 <? duration)%Z
            && negb (includes title "playlist" || includes title "mix"
                     || includes title "compilation")) eqn:E2; [discriminate|].
  destruct (1800 <? duration)%Z eqn:E3; [discriminate|].
  destruct (viewCount <? 100)%Z eqn:E4; [discriminate|].
  destruct (someIncluded title _) eqn:E5; [discriminate|].
  repeat split; try lia.
  destruct (duration <=? 600)%Z eqn:E6; [reflexivity|].
  replace (600 <? duration)%Z with true in E2 by lia.
  cbn [andb orb] in *. now apply negb_false_iff in E2.
Qed.

Lemma scoreItem_valid (attempt : YouTube.Attempt) (searchContext : string)
    (videos : list YouTube.VideoItem) (searchItem : YouTube.SearchItem) (index : nat)
    (t : YouTube.YouTubeTrack) (score : R) :
  YouTube.scoreItem attempt searchContext videos searchItem index = Some (t, score) ->
  Filters.validVideo t = true.
Proof.
  unfold YouTube.scoreItem.
  destruct (YouTube.id_videoId searchItem) as [vid|]; [|discriminate].
  destruct (truthy vid) eqn:Ev; [|discriminate]. cbn [negb].
  destruct (find _ videos) as [videoItem|]; [|discriminate].
  destruct (YouTube.details_duration videoItem) as [duration|]; [|discriminate].
  destruct (YouTube.isValidMusicVideo _ duration _) eqn:V; [|discriminate].
  cbn [negb]. intro H. injection H as <- _.
  apply isValidMusicVideo_true in V. cbn zeta in V. destruct V as [V1 [V2 [V3 V4]]].
  unfold Filters.validVideo.
  cbn [YouTube.videoId YouTube.title YouTube.duration YouTube.viewCount].
  rewrite Ev.
  replace (60 <=? duration)%Z with true by lia.
  replace (duration <=? 1800)%Z with true by lia.
  replace (100 <=? YouTube.statistics_viewCount videoItem)%Z with true by lia.
  cbn [andb].
  destruct (YouTube.snippet_title searchItem) as [[|c title]|];
    cbn [YouTube.orString orElse truthy] in *.
  - rewrite !orb_false_r in V2. rewrite V2. reflexivity.
  - rewrite V2, V4. reflexivity.
  - rewrite !orb_false_r in V2. rewrite V2. reflexivity.
Qed.

Section YouTubeOutcome.
Import YouTube.
Variable world : World.

Lemma ranked_valid (scored : list (YouTubeTrack * R)) :
  (forall x, In x scored -> Filters.validVideo (fst x) = true) ->
  forallb Filters.validVideo (map fst (slice0 10 (sort byScore scored))) = true.
Proof.
  intro H. apply forallb_forall. intros t Ht.
  apply in_map_iff in Ht. destruct Ht as [x [<- Hx]].
  apply slice0_incl in Hx. apply (Permutation_in _ (sort_perm _ _)) in Hx.
  now apply H.
Qed.

(** One call of [performSearch] is one attempt; what it returns are at
    most ten tracks that pass the filter. *)
Lemma performSearch_outcome (vibeInput : string) (isRetry : bool) (s : Service) :
  attempts (final (performSearch world vibeInput isRetry s)) = S (attempts s)
  /\ forall r, result (performSearch world vibeInput isRetry s) = Returns r ->
       (length (tracks r) <= 10)%nat
       /\ totalResults r = Z.of_nat (length (tracks r))
       /\ forallb Filters.validVideo (tracks r) = true.
Proof.
  unfold performSearch, final, result.
  cbv [bind nextAttempt get modify ret send await].
  cbn [attempts sent].
  assert (He : (length (tracks empty) <= 10)%nat
               /\ totalResults empty = Z.of_nat (length (tracks empty))
               /\ forallb Filters.validVideo (tracks empty) = true).
  { cbn. repeat split. lia. }
  match goal with
  | |- context [searchList ?a ?q] => destruct (searchList a q) as [|status|[items|]]
  end; cbv [throw ret]; cbn [fst snd attempts];
    try (split; [reflexivity|]; intros r Hr; try discriminate;
         injection Hr as <-; exact He).
  match goal with
  | |- context [match ?ids with [] => _ | _ :: _ => _ end] => destruct ids
  end.
  - split; [reflexivity|]. intros r Hr. injection Hr as <-. exact He.
  - cbn [sent attempts].
    match goal with
    | |- context [videosList ?a ?ids] => destruct (videosList a ids) as [|status|[videos|]]
    end; cbv [throw ret]; cbn [fst snd attempts];
      (split; [reflexivity|]); intros r Hr; try discriminate;
      injection Hr as <-; try exact He.
    cbn [tracks totalResults]. split; [|split; [reflexivity|]].
    + rewrite length_map. unfold slice0. cbn. apply firstn_le_length.
    + apply ranked_valid. intros [t score] Hx. cbn [fst].
      unfold collect in Hx. apply collectFrom_in in Hx.
      destruct Hx as [item [i [_ Hx]]]. now apply scoreItem_valid in Hx.
Qed.

End YouTubeOutcome.

(** The outcome of the YouTube adapter's search. *)
Lemma youtube_searchMusic_outcome
    (world : YouTube.World) (vibeInput : string) (s : YouTube.Service) :
  let run := YouTube.searchMusic world vibeInput s in
  let made := (YouTube.attempts (final run) - YouTube.attempts s)%nat in
  (1 <= made <= 3)%nat
  /\ match result run with
     | Returns r =>
         (length (YouTube.tracks r) <= 10)%nat
         /\ (Z.of_nat (length (YouTube.tracks r)) <= YouTube.totalResults r)%Z
         /\ forallb Filters.validVideo (YouTube.tracks r) = true
         /\ (made = 3%nat -> NoDup (map YouTube.videoId (YouTube.tracks r)))
     | Throws message => message = "Failed to search YouTube videos"
     end.
Proof.
  cbn zeta. rewrite searchMusic_attempts.
  pose proof (performSearch_outcome world vibeInput false s) as [A1 R1].
  destruct (YouTube.performSearch world vibeInput false s) as [[r1|m1] s1];
    unfold final, result in *; cbn [fst snd] in *;
    [|split; [lia | reflexivity]].
  destruct (R1 r1 eq_refl) as [L1 [T1 V1]].
  destruct (length (YouTube.tracks r1) <? 5)%nat eqn:E1; cbn [fst snd];
    [|split; [lia|]; repeat split; try assumption; lia].
  pose proof (performSearch_outcome world vibeInput true s1) as [A2 R2].
  destruct (YouTube.performSearch world vibeInput true s1) as [[r2|m2] s2];
    unfold final, result in *; cbn [fst snd] in *;
    [|split; [lia | reflexivity]].
  destruct (R2 r2 eq_refl) as [L2 [T2 V2]].
  destruct (length (YouTube.tracks r2) <? 5)%nat eqn:E2; cbn [fst snd];
    [|split; [lia|]; repeat split; try assumption; lia].
  pose proof (performSearch_outcome world (vibeInput ++ " playlist mix") true s2)
    as [A3 R3].
  destruct (YouTube.performSearch world (vibeInput ++ " playlist mix") true s2)
    as [[r3|m3] s3];
    unfold final, result in *; cbn [fst snd] in *;
    [|split; [lia | reflexivity]].
  destruct (R3 r3 eq_refl) as [L3 [T3 V3]].
  split; [lia|]. cbn [YouTube.tracks YouTube.totalResults].
  set (unique := uniqueBy YouTube.videoId (YouTube.tracks r2 ++ YouTube.tracks r3)%list).
  destruct (slice0_prefix 10 unique) as [k Ek].
  split; [|split; [|split]].
  - unfold slice0. cbn. apply firstn_le_length.
  - rewrite Ek. pose proof (length_firstn k unique). lia.
  - apply forallb_forall. intros t Ht. apply slice0_incl in Ht.
    apply uniqueBy_incl in Ht. apply in_app_or in Ht.
    rewrite forallb_forall in V2, V3. destruct Ht as [Ht|Ht]; auto.
  - intros _. rewrite Ek, <- firstn_map. apply firstn_NoDup.
    apply uniqueBy_NoDup.
Qed.

(** X9.  The YouTube adapter makes one to three attempts.  When it returns,
    it returns at most ten tracks, never more than [totalResults] counts;
    each has an id, lasts one to thirty minutes (more than ten only with
    a playlist word in its title), has a hundred views at least and no
    excluded word in its title; after a third attempt no two tracks share
    a video id.  The only error it throws is its own. *)
Theorem youtube_search_outcome
    (world : YouTube.World) (vibeInput : string) (s : YouTube.Service) :
  let run := YouTube.searchMusic world vibeInput s in
  let made := (YouTube.attempts (final run) - YouTube.attempts s)%nat in
  (1 <= made <= 3)%nat
  /\ match result run with
     | Returns r =>
         (length (YouTube.tracks r) <= 10)%nat
         /\ (Z.of_nat (length (YouTube.tracks r)) <= YouTube.totalResults r)%Z
         /\ forallb Filters.validVideo (YouTube.tracks r) = true
         /\ (made = 3%nat -> NoDup (map YouTube.videoId (YouTube.tracks r)))
     | Throws message => message = "Failed to search YouTube videos"
     end.
Proof.
  exact (youtube_searchMusic_outcome world vibeInput s).
Qed.

Lemma existsb_orb_false {A : Type} (f g : A -> bool) (l : list A) :
  existsb (fun x => f x || g x) l = false ->
  existsb f l = false /\ existsb g l = false.
Proof.
  induction l as [|x l IH]; simpl; [now split|].
  intro H. apply orb_false_iff in H. destruct H as [H1 H2].
  apply orb_false_iff in H1. destruct H1 as [Hf Hg].
  destruct (IH H2) as [IHf IHg]. now rewrite Hf, Hg, IHf, IHg.
Qed.

Lemma transformTrack_valid (nowISOString : DateString) (item : SoundCloud.Item) :
  SoundCloud.isValidMusicTrack item = true ->
  Filters.validSound (SoundCloud.transformTrack nowISOString item) = true.
Proof.
  unfold SoundCloud.isValidMusicTrack.
  destruct ((SoundCloud.item_duration item <? 30000)%Z
            || (1200000 <? SoundCloud.item_duration item)%Z) eqn:E1; [discriminate|].
  destruct (negb (SoundCloud.item_streamable item)); [discriminate|].
  destruct (existsb _ _) eqn:E2; [discriminate|]. intros _.
  apply orb_false_iff in E1. destruct E1 as [E1 E1'].
  apply existsb_orb_false in E2. destruct E2 as [Et Ed].
  unfold Filters.validSound, SoundCloud.transformTrack.
  cbn [SoundCloud.duration SoundCloud.title SoundCloud.description].
  assert (D1 : (30 <= SoundCloud.item_duration item / 1000)%Z)
    by (apply Z.div_le_lower_bound; lia).
  assert (D2 : (SoundCloud.item_duration item / 1000 <= 1200)%Z)
    by (apply Z.div_le_upper_bound; lia).
  replace (30 <=? SoundCloud.item_duration item / 1000)%Z with true by lia.
  replace (SoundCloud.item_duration item / 1000 <=? 1200)%Z with true by lia.
  cbn [andb]. apply andb_true_iff. split.
  - unfold someIncluded.
    destruct (SoundCloud.item_title item) as [[|c title]|];
      cbn [SoundCloud.orString SoundCloud.lowerOr orElse truthy] in *;
      try reflexivity.
    cbn [toLowerCase orElse truthy] in *. apply negb_true_iff. exact Et.
  - destruct (SoundCloud.item_description item) as [[|c description]|];
      cbn [SoundCloud.orUndefined SoundCloud.lowerOr orElse truthy] in *;
      try reflexivity.
    cbn [toLowerCase orElse truthy] in *. apply negb_true_iff. exact Ed.
Qed.

(** X10.  The SoundCloud adapter without a client id fails without sending a
    request.  When it returns it has sent one query, and returns at most
    ten tracks, [totalResults] counting them; each lasts thirty seconds
    to twenty minutes and has no excluded word in its title or
    description.  The only error it throws is its own. *)
Theorem soundcloud_search_outcome
    (world : SoundCloud.World) (vibeInput : string) (s : SoundCloud.Service) :
  match SoundCloud.searchMusic world vibeInput s with
  | (Returns r, s') =>
      SoundCloud.clientId s <> ""
      /\ SoundCloud.sent s'
         = (SoundCloud.sent s ++ [SoundCloud.generateSearchQuery vibeInput])%list
      /\ (length (SoundCloud.tracks r) <= 10)%nat
      /\ SoundCloud.totalResults r = Z.of_nat (length (SoundCloud.tracks r))
      /\ forallb Filters.validSound (SoundCloud.tracks r) = true
  | (Throws message, s') =>
      message = "Failed to search SoundCloud tracks"
      /\ (SoundCloud.clientId s = "" -> s' = s)
  end.
Proof.
  unfold SoundCloud.searchMusic, tryCatch, bind, get.
  destruct (SoundCloud.clientId s) as [|c id] eqn:Ec; cbn [truthy negb].
  - unfold throw. now split.
  - unfold SoundCloud.send, modify.
    destruct (SoundCloud.tracksEndpoint world _) as [|status|[data|]];
      unfold throw, ret; cbn [SoundCloud.sent SoundCloud.tracks SoundCloud.totalResults];
      try (split; [reflexivity | discriminate]).
    + split; [discriminate|]. split; [reflexivity|]. split; [|split; [reflexivity|]].
      * rewrite length_map. unfold slice0. cbn. apply firstn_le_length.
      * apply forallb_forall. intros t Ht.
        apply in_map_iff in Ht. destruct Ht as [x [<- Hx]].
        apply slice0_incl in Hx. apply (Permutation_in _ (sort_perm _ _)) in Hx.
        unfold mapIndex in Hx. apply mapIndexFrom_in in Hx.
        destruct Hx as [item [i [Hitem ->]]]. cbn [fst].
        apply filter_In in Hitem. now apply transformTrack_valid.
    + split; [discriminate|]. cbn. repeat split. lia.
Qed.

(** X11.  The score of a duration is 4 from two to six minutes, 2 from ten to
    twenty, 1 from one to two and from twenty to thirty, 0 elsewhere: no
    duration scores 5, the branch for three to four minutes standing
    behind the one for two to six. *)
Theorem duration_score_is_never_five (duration : Z) :
  YouTube.getDurationScore duration <> 5%Z
  /\ (YouTube.getDurationScore duration = 4 <-> 120 <= duration <= 360)%Z
  /\ (YouTube.getDurationScore duration = 2 <-> 600 <= duration <= 1200)%Z
  /\ (YouTube.getDurationScore duration = 1 <->
      60 <= duration < 120 \/ 1200 < duration <= 1800)%Z
  /\ (YouTube.getDurationScore duration = 0 <->
      duration < 60 \/ 360 < duration < 600 \/ 1800 < duration)%Z.
Proof.
  unfold YouTube.getDurationScore.
  destruct (120 <=? duration)%Z eqn:E1, (duration <=? 360)%Z eqn:E2,
           (180 <=? duration)%Z eqn:E3, (duration <=? 240)%Z eqn:E4,
           (600 <=? duration)%Z eqn:E5, (duration <=? 1200)%Z eqn:E6,
           (1200 <=? duration)%Z eqn:E7, (duration <=? 1800)%Z eqn:E8,
           (60 <=? duration)%Z eqn:E9, (duration <=? 120)%Z eqn:E10;
    cbn [andb]; try lia.
Qed.

End AdapterOutcomes.

(** ** The duration of a video *)

Section DurationFacts.
Import Js Iso8601.

Lemma spanDigits_run (ds : string) (c : ascii) (rest : string) :
  allDigits ds = true -> isDigit c = false ->
  spanDigits (ds ++ String c rest) = (ds, String c rest).
Proof.
  intros Hd Hc. induction ds as [|d ds IH]; simpl.
  - now rewrite Hc.
  - simpl in Hd. apply andb_prop in Hd. destruct Hd as [Hd1 Hd2].
    now rewrite Hd1, (IH Hd2).
Qed.

Lemma spanDigits_all (ds : string) :
  allDigits ds = true -> spanDigits ds = (ds, "").
Proof.
  intro Hd. induction ds as [|d ds IH]; simpl; [reflexivity|].
  simpl in Hd. apply andb_prop in Hd. destruct Hd as [Hd1 Hd2].
  now rewrite Hd1, (IH Hd2).
Qed.

(** A component that is present is captured by the group of its unit. *)
Lemma group_present (unit : ascii) (ds rest : string) :
  truthy ds && allDigits ds = true -> isDigit unit = false ->
  group unit (ds ++ String unit rest) = (Some ds, rest).
Proof.
  intros Hd Hu. apply andb_prop in Hd. destruct Hd as [Ht Hd].
  unfold group. rewrite (spanDigits_run ds unit rest Hd Hu).
  destruct ds; [discriminate|]. now rewrite Ascii.eqb_refl.
Qed.

(** A group does not take part when the digits are followed by another
    letter, or by nothing. *)
Lemma group_absent (unit c : ascii) (ds rest : string) :
  allDigits ds = true -> isDigit c = false -> Ascii.eqb c unit = false ->
  group unit (ds ++ String c rest) = (None, ds ++ String c rest).
Proof.
  intros Hd Hc Hu. unfold group. rewrite (spanDigits_run ds c rest Hd Hc).
  destruct ds; [reflexivity|]. now rewrite Hu.
Qed.

Lemma group_end (unit : ascii) : group unit "" = (None, "").
Proof. reflexivity. Qed.

Lemma number_present (ds : string) : truthy ds = true -> number (Some ds) = parseInt ds.
Proof. destruct ds; [discriminate|reflexivity]. Qed.

(** X12.  A duration with its components in the order hours, minutes, seconds,
    each one present or not, is read as that many seconds. *)
Theorem duration_is_read_by_components (hours minutes seconds : option string) :
  wellFormed hours = true ->
  wellFormed minutes = true ->
  wellFormed seconds = true ->
  parseISO8601Duration
    ("PT" ++ component hours "H" ++ component minutes "M" ++ component seconds "S")
  = (number hours * 3600 + number minutes * 60 + number seconds)%Z.
Proof.
  intros Hh Hm Hs. unfold parseISO8601Duration. cbn [append afterPT Ascii.eqb Bool.eqb andb].
  assert (S1 : forall unit, Ascii.eqb "S" unit = false -> isDigit unit = false ->
             group unit (component seconds "S") = (None, component seconds "S")).
  { intros unit U1 U2. destruct seconds as [ds|]; [|apply group_end].
    apply andb_prop in Hs. destruct Hs as [_ Hs].
    now apply (group_absent unit "S" ds ""). }
  assert (S2 : group "S" (component seconds "S") = (seconds, "")).
  { destruct seconds as [ds|]; [|reflexivity]. now apply (group_present "S" ds ""). }
  assert (M1 : group "H" (component minutes "M" ++ component seconds "S")
               = (None, component minutes "M" ++ component seconds "S")).
  { destruct minutes as [ds|]; [|now apply S1].
    apply andb_prop in Hm. destruct Hm as [_ Hm].
    simpl component. rewrite string_app_assoc.
    now apply (group_absent "H" "M" ds). }
  assert (M2 : group "M" (component minutes "M" ++ component seconds "S")
               = (minutes, component seconds "S")).
  { destruct minutes as [ds|]; [|now apply S1].
    simpl component. rewrite string_app_assoc. now apply (group_present "M" ds). }
  destruct hours as [ds|].
  - simpl component. rewrite string_app_assoc. cbn [append].
    rewrite (group_present "H" ds) by (try exact Hh; reflexivity).
    now rewrite M2, S2.
  - cbn [component append]. now rewrite M1, M2, S2.
Qed.

(** One hour, two minutes and three seconds. *)
Lemma duration_is_read_by_components_witness :
  parseISO8601Duration "PT1H2M3S" = 3723%Z
  /\ parseISO8601Duration "PT4M13S" = 253%Z
  /\ parseISO8601Duration "PT45S" = 45%Z.
Proof.
  split; [|split].
  - exact (duration_is_read_by_components (Some "1") (Some "2") (Some "3")
             eq_refl eq_refl eq_refl).
  - exact (duration_is_read_by_components None (Some "4") (Some "13")
             eq_refl eq_refl eq_refl).
  - exact (duration_is_read_by_components None None (Some "45")
             eq_refl eq_refl eq_refl).
Defined.

Lemma afterPT_none (s : string) : includes s "PT" = false -> afterPT s = None.
Proof.
  induction s as [|c rest IH]; [reflexivity|].
  cbn [includes]. intro H. apply orb_false_iff in H. destruct H as [H1 H2].
  cbn [afterPT]. destruct rest as [|d after]; [reflexivity|].
  rewrite (IH H2).
  destruct (Ascii.eqb_spec c "P") as [->|]; [|reflexivity].
  destruct (Ascii.eqb_spec d "T") as [->|]; [|reflexivity].
  cbn in H1. destruct after; discriminate H1.
Qed.

(** X13.  A duration in which ["PT"] does not occur, such as one with a day
    part, is read as 0 seconds, and the video is filtered out as too
    short, whatever its title and views. *)
Theorem duration_without_PT_is_zero
    (duration : string) (title : option string) (viewCount : Z) :
  includes duration "PT" = false ->
  parseISO8601Duration duration = 0%Z
  /\ YouTube.isValidMusicVideo title (parseISO8601Duration duration) viewCount = false.
Proof.
  intro H. unfold parseISO8601Duration. rewrite (afterPT_none duration H).
  split; reflexivity.
Qed.

(** One day, two hours, three minutes and four seconds. *)
Lemma duration_without_PT_is_zero_witness :
  parseISO8601Duration "P1DT2H3M4S" = 0%Z
  /\ YouTube.isValidMusicVideo (Some "24 hour lofi mix")
       (parseISO8601Duration "P1DT2H3M4S") 5000000 = false.
Proof.
  apply (duration_without_PT_is_zero "P1DT2H3M4S" (Some "24 hour lofi mix") 5000000).
  reflexivity.
Defined.

End DurationFacts.

(** ** The smart search *)

Section SmartFacts.
Import Js Effect Unified Smart.

Lemma smartConfig_enabled (providerStatus : ProviderStatus) :
  enabledProviders (mergeConfig defaultConfig (smartConfig providerStatus))
  = match configured (soundcloudStatus providerStatus),
          configured (youtubeStatus providerStatus) with
    | true, true => [soundcloud; spotify; youtube]
    | true, false => [soundcloud; spotify]
    | false, true => [youtube; spotify]
    | false, false => [spotify]
    end.
Proof.
  unfold enabledProviders, mergeConfig, smartConfig, entries.
  cbn [configProviders partialProviders keys map configOf soundcloudConfig
       youtubeConfig spotifyConfig filter snd enabled].
  destruct (configured (soundcloudStatus providerStatus)),
           (configured (youtubeStatus providerStatus)); reflexivity.
Qed.

Lemma smartConfig_some_enabled (providerStatus : ProviderStatus) :
  enabledProviders (mergeConfig defaultConfig (smartConfig providerStatus)) <> [].
Proof.
  rewrite smartConfig_enabled.
  destruct (configured (soundcloudStatus providerStatus)),
           (configured (youtubeStatus providerStatus)); discriminate.
Qed.

(** X14.  The adapters the smart search calls.  Its primary loop calls, one
    after the other, the adapter of SoundCloud when it is configured,
    then that of Spotify, configured or not, then that of YouTube when it
    is configured; without SoundCloud the adapter of YouTube is called
    before that of Spotify.  The loop never stops early.  When it leaves
    fewer than three tracks and two providers at least are enabled, the
    fallback calls the same adapters again in the same order.  No other
    adapter is called, and the search always returns. *)
Theorem smart_search_order
    (world : World) (env : Env) (vibeInput : string) (s : Service) :
  let providerStatus := getProviderStatus env in
  let searchConfig := mergeConfig defaultConfig (smartConfig providerStatus) in
  let order :=
    match configured (soundcloudStatus providerStatus),
          configured (youtubeStatus providerStatus) with
    | true, true => [soundcloud; spotify; youtube]
    | true, false => [soundcloud; spotify]
    | false, true => [youtube; spotify]
    | false, false => [spotify]
    end in
  let found :=
    filter (fun pv => (0 <? length (snd pv))%nat)
           (mapIndexFrom
              (fun p call => (p, Observed.brought world vibeInput searchConfig p call))
              (calls s) order) in
  exists acc s1 r s2,
    primaryLoop world vibeInput searchConfig order ([], []) s = (Returns acc, s1)
    /\ acc = (concat (map snd found), map fst found)
    /\ smartSearch world env vibeInput s = (Returns r, s2)
    /\ Observed.adapterCalls (events s1)
       = (Observed.adapterCalls (events s) ++ order)%list
    /\ Observed.adapterCalls (events s2)
       = (Observed.adapterCalls (events s1)
          ++ (if (length (fst acc) <? 3)%nat && (1 <? length order)%nat
              then order else []))%list.
Proof.
  intros providerStatus searchConfig order found.
  assert (Eo : enabledProviders searchConfig = order) by apply smartConfig_enabled.
  destruct (searchWith_trace world vibeInput searchConfig s)
    as [acc [s1 [r [s2 [k [T1 [T0 [T2 [T3 [T4 [T5 T6]]]]]]]]]]].
  - apply smartConfig_some_enabled.
  - rewrite Eo in T0, T1, T4, T5, T6.
    exists acc, s1, r, s2. split; [exact T1|]. split; [|split; [exact T2|split]].
    + rewrite T0, primaryResult_found by reflexivity. cbn [fst snd app].
      subst found. now rewrite parallelResults_indexed.
    + rewrite T5. rewrite firstn_all2; [reflexivity|]. now apply T4.
    + rewrite T6. unfold needsFallback. rewrite Eo.
      change (fallbackEnabled searchConfig) with true.
      now rewrite andb_true_r.
Qed.

End SmartFacts.

(** ** The rate limiter *)

Section LimiterFacts.
Import RateLimit.
Variable limit : Limit.
Variable key : string.

Local Abbreviation at_ times := (map (fun t : Z => (t, key)) times).

Lemma set_same (entry : Entry) (store : Store) : set key entry store key = Some entry.
Proof. unfold set. now rewrite String.eqb_refl. Qed.

(** Within a window the call number [j] is refused exactly when the count
    has reached the maximum, and the window stays the same. *)
Lemma serve_window (times : list Z) (store : Store) (record : Entry) (start : nat) :
  store key = Some record ->
  (forall t, In t times -> t <= resetTime record)%Z ->
  fst (serve limit (at_ times) store)
  = Js.mapIndexFrom
      (fun _ j => (maxRequests limit <=? count record + Z.of_nat (j - start))%Z)
      start times
  /\ exists record',
       snd (serve limit (at_ times) store) key = Some record'
       /\ resetTime record' = resetTime record.
Proof.
  revert store record start.
  induction times as [|t times IH]; intros store record start Hs Ht; simpl.
  - split; [reflexivity|]. now exists record.
  - unfold isRateLimited. rewrite Hs.
    assert (H0 : (t <= resetTime record)%Z) by (apply Ht; now left).
    replace (resetTime record <? t)%Z with false by lia.
    replace (start - start)%nat with 0%nat by lia. rewrite Z.add_0_r.
    destruct (maxRequests limit <=? count record)%Z eqn:E.
    + destruct (IH store record (S start) Hs) as [IH1 IH2];
        [intros u Hu; apply Ht; now right|].
      destruct (serve limit (at_ times) store) as [verdicts store'] eqn:Es.
      cbn [fst snd] in *. split; [|exact IH2].
      f_equal. rewrite IH1. apply mapIndexFrom_ext. intros i x _.
      apply Z.leb_le in E.
      rewrite !(proj2 (Z.leb_le _ _)) by lia. reflexivity.
    + set (record' := {| count := (count record + 1)%Z; resetTime := resetTime record |}).
      destruct (IH (set key record' store) record' (S start) (set_same _ _)) as [IH1 IH2];
        [intros u Hu; apply Ht; now right|].
      destruct (serve limit (at_ times) (set key record' store))
        as [verdicts store'] eqn:Es.
      cbn [fst snd] in *. split; [|exact IH2].
      f_equal. rewrite IH1. apply mapIndexFrom_ext. intros i x _.
      subst record'. cbn [count]. f_equal. lia.
Qed.

End LimiterFacts.

Section LimiterClaims.
Import RateLimit.

Lemma serve_app (limit : Limit) (calls1 calls2 : list (Z * string)) (store : Store) :
  serve limit (calls1 ++ calls2) store
  = let (verdicts1, store1) := serve limit calls1 store in
    let (verdicts2, store2) := serve limit calls2 store1 in
    ((verdicts1 ++ verdicts2)%list, store2).
Proof.
  revert store. induction calls1 as [|[t k] calls1 IH]; intro store; simpl.
  - now destruct (serve limit calls2 store).
  - destruct (isRateLimited limit t k store) as [verdict store0].
    rewrite IH. destruct (serve limit calls1 store0) as [verdicts1 store1].
    now destruct (serve limit calls2 store1).
Qed.

(** X15.  A fixed window.  The call of a key that the store does not hold, or
    holds with a window that is over, opens a window of [windowMs]; of
    the calls of the key up to the end of the window, that one included,
    the first [maxRequests] pass and the others are refused; the
    first call after the end of the window passes again. *)
Theorem window_passes_the_first_requests
    (limit : Limit) (key : string) (store : Store)
    (opening : Z) (during : list Z) (after : Z) :
  (1 <= maxRequests limit)%Z ->
  match store key with
  | Some record => (resetTime record < opening)%Z
  | None => True
  end ->
  (forall t, In t during -> t <= opening + windowMs limit)%Z ->
  (opening + windowMs limit < after)%Z ->
  fst (serve limit (map (fun t => (t, key)) (opening :: during ++ [after])) store)
  = (Js.mapIndex (fun _ j => (maxRequests limit <=? Z.of_nat j)%Z) (opening :: during)
     ++ [false])%list.
Proof.
  intros Hmax Hstore Hduring Hafter.
  set (opened := {| count := 1; resetTime := (opening + windowMs limit)%Z |}).
  assert (E0 : isRateLimited limit opening key store
               = (false, set key opened store)).
  { unfold isRateLimited. destruct (store key) as [record|]; [|reflexivity].
    now replace (resetTime record <? opening)%Z with true by lia. }
  cbn [map serve]. rewrite E0. rewrite map_app, serve_app.
  destruct (serve_window limit key during (set key opened store) opened 1
              (set_same key opened store) Hduring) as [H1 [record' [H2 H3]]].
  destruct (serve limit (map (fun t => (t, key)) during) (set key opened store))
    as [verdicts store1].
  cbn [fst snd] in *. cbn [map serve]. unfold isRateLimited at 1. rewrite H2.
  replace (resetTime record' <? after)%Z with true by (rewrite H3; cbn; lia).
  cbn [fst]. unfold Js.mapIndex. cbn [Js.mapIndexFrom].
  rewrite (proj2 (Z.leb_gt (maxRequests limit) (Z.of_nat 0))) by (cbn; lia).
  cbn [app]. f_equal. f_equal. rewrite H1. apply mapIndexFrom_ext.
  intros i x _. cbn [count opened]. f_equal. lia.
Qed.

(** Thirteen calls of one client on the YouTube route: the first ten
    pass, the next two are refused, the one after the window passes. *)
Lemma window_passes_the_first_requests_witness :
  fst (serve YouTubeRoute.RATE_LIMIT
         (map (fun t => (t, "youtube_search_203.0.113.7"))
              (0%Z :: Sample.burst ++ [60001%Z]))
         emptyStore)
  = [false; false; false; false; false; false; false; false; false; false;
     true; true; false].
Proof.
  apply (window_passes_the_first_requests YouTubeRoute.RATE_LIMIT
           "youtube_search_203.0.113.7" emptyStore 0 Sample.burst 60001).
  - cbn. lia.
  - exact I.
  - intros t Ht. cbn in Ht. cbn. intuition lia.
  - cbn. lia.
Defined.

Lemma isRateLimited_other (limit : Limit) (now : Z) (key other : string) (store : Store) :
  String.eqb other key = false ->
  snd (isRateLimited limit now key store) other = store other.
Proof.
  intro H. unfold isRateLimited.
  destruct (store key) as [record|]; cbn [snd]; unfold set; [|now rewrite H].
  destruct (resetTime record <? now)%Z; cbn [snd]; [now rewrite H|].
  destruct (maxRequests limit <=? count record)%Z; cbn [snd]; [reflexivity|].
  now rewrite H.
Qed.

Lemma isRateLimited_same (limit : Limit) (now : Z) (key : string) (store1 store2 : Store) :
  store1 key = store2 key ->
  fst (isRateLimited limit now key store1) = fst (isRateLimited limit now key store2)
  /\ snd (isRateLimited limit now key store1) key
     = snd (isRateLimited limit now key store2) key.
Proof.
  intro H. unfold isRateLimited. rewrite H.
  destruct (store2 key) as [record|] eqn:E2;
    [destruct (resetTime record <? now)%Z;
     [|destruct (maxRequests limit <=? count record)%Z]|];
    cbn [fst snd]; unfold set; rewrite ?String.eqb_refl;
    split; try reflexivity; congruence.
Qed.

(** X16.  The verdicts a key gets do not depend on the calls made for other
    keys: they are the verdicts its own calls would get alone. *)
Theorem verdicts_of_a_key_are_its_own
    (limit : Limit) (key : string) (calls : list (Z * string)) (store : Store) :
  verdictsFor key calls (fst (serve limit calls store))
  = fst (serve limit (filter (fun call => String.eqb (snd call) key) calls) store).
Proof.
  assert (G : forall store1 store2, store1 key = store2 key ->
            verdictsFor key calls (fst (serve limit calls store1))
            = fst (serve limit (filter (fun call => String.eqb (snd call) key) calls)
                     store2)).
  { induction calls as [|[t k] calls IH]; intros store1 store2 H; [reflexivity|].
    cbn [serve filter snd].
    destruct (String.eqb_spec k key) as [->|Hk].
    - cbn [serve]. destruct (isRateLimited_same limit t key store1 store2 H) as [Hv Hs].
      destruct (isRateLimited limit t key store1) as [v1 s1].
      destruct (isRateLimited limit t key store2) as [v2 s2].
      cbn [fst snd] in *. subst v2. specialize (IH s1 s2 Hs).
      destruct (serve limit calls s1) as [vs1 s1'].
      destruct (serve limit (filter _ calls) s2) as [vs2 s2'].
      cbn [fst verdictsFor] in *. rewrite String.eqb_refl. now rewrite IH.
    - assert (Ho : snd (isRateLimited limit t k store1) key = store1 key).
      { apply isRateLimited_other. apply String.eqb_neq. congruence. }
      destruct (isRateLimited limit t k store1) as [v1 s1]. cbn [snd] in Ho.
      specialize (IH s1 store2 (eq_trans Ho H)).
      destruct (serve limit calls s1) as [vs1 s1'].
      cbn [fst verdictsFor] in *.
      replace (String.eqb k key) with false by (symmetry; now apply String.eqb_neq).
      exact IH. }
  now apply G.
Qed.

End LimiterClaims.

(** ** The routes *)

Section TrimFacts.
Import Js.

Lemma trimStart_length (s : string) : (String.length (trimStart s) <= String.length s)%nat.
Proof.
  induction s as [|c s IH]; simpl; [lia|]. destruct (isSpace c); simpl; lia.
Qed.

Lemma trimEnd_length (s : string) : (String.length (trimEnd s) <= String.length s)%nat.
Proof.
  induction s as [|c s IH]; simpl; [lia|].
  destruct (trimEnd s); [destruct (isSpace c)|]; simpl in *; lia.
Qed.

Lemma trim_length (s : string) : (String.length (trim s) <= String.length s)%nat.
Proof.
  unfold trim. pose proof (trimEnd_length (trimStart s)).
  pose proof (trimStart_length s). lia.
Qed.

Lemma truthy_not_empty (s : string) : truthy s = true -> s <> "".
Proof. destruct s; [discriminate|]. intros _. discriminate. Qed.

End TrimFacts.

Section YouTubeRouteFacts.
Import Js Effect Http YouTubeRoute.

Lemma popularity_score_bounds (track : YouTube.YouTubeTrack) :
  (100 <= YouTube.viewCount track)%Z ->
  0 < Qmin (inject_Z (YouTube.viewCount track) / 1000000) 10
  /\ Qmin (inject_Z (YouTube.viewCount track) / 1000000) 10 <= 10.
Proof.
  intro H. split; [|apply Q.le_min_r].
  apply Q.min_glb_lt; [|reflexivity].
  apply Qlt_shift_div_l; [reflexivity|].
  rewrite Qmult_0_l. change 0 with (inject_Z 0). rewrite <- Zlt_Qlt. lia.
Qed.

Lemma validVideo_bounds (track : YouTube.YouTubeTrack) :
  Filters.validVideo track = true ->
  (60 <= YouTube.duration track <= 1800)%Z /\ (100 <= YouTube.viewCount track)%Z.
Proof.
  unfold Filters.validVideo. intro H.
  repeat (apply andb_prop in H; destruct H as [H ?]). lia.
Qed.

(** X17.  The answers of the YouTube search route.  An error is answered 429,
    400 or 500: whatever made the adapter fail, a quota error included,
    the answer is 500.  A success carries the trimmed input, which is not
    empty and has at most 150 characters, and at most ten tracks that pass
    the adapter's filter; each row made of them holds one to thirty
    minutes in milliseconds and a popularity above 0 and at most 10, and
    the rows are upserted when there are tracks and a database client. *)
Theorem youtube_route_answers (world : World) (request : Request) (server : Server) :
  match fst (POST world request server) with
  | Success results totalResults query timestamp =>
      query <> ""
      /\ (String.length query <= 150)%nat
      /\ (length results <= 10)%nat
      /\ (Z.of_nat (length results) <= totalResults)%Z
      /\ forallb Filters.validVideo results = true
      /\ (forall row, In row (tracksToInsert results) ->
            (60000 <= duration_ms row <= 1800000)%Z
            /\ 0 < popularity_score row /\ popularity_score row <= 10)
      /\ (results <> [] -> createClient world = true ->
          In (Upserted (tracksToInsert results))
             (events (snd (POST world request server))))
  | Failure status _ _ => status = 429%Z \/ status = 400%Z \/ status = 500%Z
  end.
Proof.
  unfold POST, isRateLimited.
  destruct (RateLimit.isRateLimited _ _ _ _) as [[|] store]; cbn [fst]; [now left|].
  destruct (json request) as [body|]; cbn [chain]; [|right; now left].
  destruct (orValue (vibeInput body) (moodInput body)) as [|input|other];
    try (right; now left).
  destruct (negb (truthy (trim input)) || (150 <? String.length input)%nat) eqn:Ev;
    cbn [fst]; [right; now left|].
  apply orb_false_iff in Ev. destruct Ev as [Ev1 Ev2].
  apply negb_false_iff in Ev1. apply Nat.ltb_ge in Ev2.
  destruct (negb (Smart.isSet (YOUTUBE_API_KEY world))); cbn [fst]; [now right; right|].
  pose proof (youtube_searchMusic_outcome (youtube world) (trim input) youtubeService)
    as [_ H].
  cbn zeta in H.
  destruct (result (YouTube.searchMusic (youtube world) (trim input) youtubeService))
    as [r|message].
  - cbn [fst snd]. destruct H as [H1 [H2 [H3 _]]].
    split; [now apply truthy_not_empty|].
    split; [pose proof (trim_length input); lia|].
    split; [exact H1|]. split; [exact H2|]. split; [exact H3|]. split.
    + intros row Hrow. unfold tracksToInsert in Hrow.
      apply in_map_iff in Hrow. destruct Hrow as [track [<- Htrack]].
      cbn [duration_ms popularity_score].
      rewrite forallb_forall in H3.
      destruct (validVideo_bounds track (H3 track Htrack)) as [B1 B2].
      split; [lia|]. now apply popularity_score_bounds.
    + intros Hne Hc. destruct (YouTube.tracks r) as [|t ts]; [contradiction|].
      cbn [length Nat.ltb Nat.leb]. unfold saveTracksToDatabase. rewrite Hc.
      unfold emit. cbn [events]. apply in_or_app. right. now left.
  - subst message. cbn [fst]. now right; right.
Qed.

(** X18.  A request is counted by the limiter whatever it holds, and answered
    429 exactly when the limiter refuses it.  A request answered 429 or
    400 leaves no other trace: the adapter is not called and nothing is
    written.  The adapter is only ever given the trimmed input, not empty
    and of at most 150 characters. *)
Theorem youtube_route_refuses_before_searching
    (world : World) (request : Request) (server : Server) :
  let verdict :=
    RateLimit.isRateLimited RATE_LIMIT (dateNow world) (getRateLimitKey request)
      (rateLimitStore server) in
  let inputValue :=
    orValue (chain (json request) vibeInput) (chain (json request) moodInput) in
  let answer := POST world request server in
  rateLimitStore (snd answer) = snd verdict
  /\ (statusOf (fst answer) = 429%Z <-> fst verdict = true)
  /\ (statusOf (fst answer) = 429%Z \/ statusOf (fst answer) = 400%Z ->
      events (snd answer) = events server)
  /\ (forall v requests,
        In (Searched v requests) (events (snd answer)) ->
        In (Searched v requests) (events server)
        \/ (v <> "" /\ (String.length v <= 150)%nat
            /\ exists input, inputValue = Str input /\ v = trim input)).
Proof.
  cbn zeta. unfold POST, isRateLimited.
  destruct (RateLimit.isRateLimited _ _ _ _) as [[|] store]; cbn [fst snd].
  { cbn. repeat split; auto; discriminate. }
  set (inputValue :=
         orValue (chain (json request) vibeInput) (chain (json request) moodInput)).
  assert (Hq : forall response : Response,
             (statusOf response = 400%Z \/ statusOf response = 500%Z) ->
             rateLimitStore (snd (response, {| rateLimitStore := store;
                                               events := events server |})) = store
             /\ (statusOf (fst (response, {| rateLimitStore := store;
                                             events := events server |})) = 429%Z
                 <-> false = true)
             /\ (statusOf (fst (response, {| rateLimitStore := store;
                                             events := events server |})) = 429%Z
                 \/ statusOf (fst (response, {| rateLimitStore := store;
                                                events := events server |})) = 400%Z ->
                 events (snd (response, {| rateLimitStore := store;
                                           events := events server |})) = events server)
             /\ (forall v requests,
                   In (Searched v requests)
                      (events (snd (response, {| rateLimitStore := store;
                                                 events := events server |}))) ->
                   In (Searched v requests) (events server)
                   \/ (v <> "" /\ (String.length v <= 150)%nat
                       /\ exists input, inputValue = Str input /\ v = trim input))).
  { intros response Hs. cbn [fst snd rateLimitStore events].
    split; [reflexivity|]. split; [split; [lia | discriminate]|].
    split; [reflexivity | now left]. }
  destruct (json request) as [body|]; [|apply Hq; now left].
  destruct inputValue as [|input|other] eqn:Ei; try (apply Hq; now left).
  destruct (negb (truthy (trim input)) || (150 <? String.length input)%nat) eqn:Ev;
    [apply Hq; now left|].
  apply orb_false_iff in Ev. destruct Ev as [Ev1 Ev2].
  apply negb_false_iff in Ev1. apply Nat.ltb_ge in Ev2.
  destruct (negb (Smart.isSet (YOUTUBE_API_KEY world))); [apply Hq; now right|].
  pose proof (youtube_searchMusic_outcome (youtube world) (trim input) youtubeService)
    as [_ H].
  cbn zeta in H.
  assert (Hv : forall v requests (rest : list Event),
             In (Searched v requests)
                ((events server
                  ++ [Searched (trim input)
                        (YouTube.sent
                           (final (YouTube.searchMusic (youtube world) (trim input)
                                     youtubeService)))])
                 ++ rest) ->
             (In (Searched v requests) rest -> False) ->
             In (Searched v requests) (events server)
             \/ (v <> "" /\ (String.length v <= 150)%nat
                 /\ exists input0, Str input = Str input0 /\ v = trim input0)).
  { intros v requests rest Hin Hrest.
    apply in_app_or in Hin. destruct Hin as [Hin|Hin]; [|now apply Hrest in Hin].
    apply in_app_or in Hin. destruct Hin as [Hin|[Hin|[]]]; [now left|].
    injection Hin as <- _. right.
    split; [now apply truthy_not_empty|].
    split; [pose proof (trim_length input); lia|]. now exists input. }
  destruct (result (YouTube.searchMusic (youtube world) (trim input) youtubeService))
    as [r|message].
  - cbn [fst snd statusOf]. split; [|split; [|split]].
    + destruct (0 <? length (YouTube.tracks r))%nat; [|reflexivity].
      unfold saveTracksToDatabase. now destruct (createClient world).
    + split; [lia | discriminate].
    + intros [F|F]; discriminate.
    + intros v requests Hin.
      destruct (0 <? length (YouTube.tracks r))%nat;
        [unfold saveTracksToDatabase in Hin; destruct (createClient world)|];
        cbn [emit events rateLimitStore] in Hin.
      * apply (Hv v requests [Upserted (tracksToInsert (YouTube.tracks r))]);
          [exact Hin|]. intros [F|[]]. discriminate.
      * apply (Hv v requests []); [now rewrite app_nil_r | intros []].
      * apply (Hv v requests []); [now rewrite app_nil_r | intros []].
  - subst message. cbn [fst snd statusOf includes String.prefix orb].
    cbn. split; [reflexivity|]. split; [split; [lia | discriminate]|].
    split; [intros [F|F]; discriminate|].
    intros v requests Hin.
    apply (Hv v requests []); [now rewrite app_nil_r | intros []].
Qed.

End YouTubeRouteFacts.

Section SpotifyRouteFacts.
Import Js Effect Http SpotifyRoute.

(** X19.  The answers of the Spotify search route.  An error is answered 429,
    400, 404 or 500: whatever made the adapter fail, a refused
    authentication or a rate limit of the catalog included, the answer is
    500.  A success carries the trimmed input and one to ten tracks,
    [totalResults] counting them, and it is saved. *)
Theorem spotify_route_answers (world : World) (request : Request) (server : Server) :
  match fst (POST world request server) with
  | Success results totalResults provider query timestamp tracksWithAudioFeatures =>
      results <> []
      /\ (length results <= 10)%nat
      /\ totalResults = Z.of_nat (length results)
      /\ (0 <= tracksWithAudioFeatures <= totalResults)%Z
      /\ query <> ""
      /\ (String.length query <= 150)%nat
      /\ In (Saved results) (events (snd (POST world request server)))
  | Failure status _ _ _ =>
      status = 429%Z \/ status = 400%Z \/ status = 404%Z \/ status = 500%Z
  end.
Proof.
  unfold POST, isRateLimited.
  destruct (RateLimit.isRateLimited _ _ _ _) as [[|] store]; cbn [fst]; [now left|].
  destruct (json request) as [body|]; cbn [chain]; [|right; now left].
  destruct (orValue (vibeInput body) (moodInput body)) as [|input|other];
    try (right; now left).
  destruct (negb (truthy (trim input)) || (150 <? String.length input)%nat) eqn:Ev;
    cbn [fst]; [right; now left|].
  apply orb_false_iff in Ev. destruct Ev as [Ev1 Ev2].
  apply negb_false_iff in Ev1. apply Nat.ltb_ge in Ev2.
  destruct (negb (Spotify.isConfigured (Smart.spotifyService (env world))));
    cbn [fst]; [now right; right; right|].
  pose proof (spotify_searchMusic_outcome (spotify world) (trim input)
                (Smart.spotifyService (env world))) as H.
  cbn zeta in H.
  destruct (result (Spotify.searchMusic (spotify world) (trim input)
                      (Smart.spotifyService (env world)))) as [r|message].
  - destruct H as [H1 [H2 _]].
    destruct (Spotify.tracks r) as [|t ts] eqn:Et.
    + cbn [length Nat.eqb fst]. right; right; now left.
    + rewrite <- Et in *. replace (length (Spotify.tracks r) =? 0)%nat with false
        by (rewrite Et; reflexivity).
      cbn [fst snd]. split; [rewrite Et; discriminate|].
      split; [exact H1|]. split; [exact H2|]. split.
      * rewrite H2. pose proof (filter_length_le
                                  (fun t => match Spotify.audioFeatures t with
                                            | Some _ => true
                                            | None => false
                                            end) (Spotify.tracks r)). lia.
      * split; [now apply truthy_not_empty|].
        split; [pose proof (trim_length input); lia|].
        replace (0 <? length (Spotify.tracks r))%nat with true
          by (rewrite Et; reflexivity).
        cbn [emit events]. apply in_or_app. right. now left.
  - subst message. cbn. now right; right; right.
Qed.

End SpotifyRouteFacts.

Section UnifiedRouteFacts.
Import Js Effect Http UnifiedRoute.

Lemma customConfig_settings (preferredProvider : Value) :
  let searchConfig :=
    Unified.mergeConfig Unified.defaultConfig (customConfig preferredProvider) in
  Unified.maxResults searchConfig = 10%Z
  /\ NoDup (Unified.keys (Unified.configProviders searchConfig)).
Proof.
  cbn. split; [reflexivity|]. repeat constructor; simpl; intuition discriminate.
Qed.

Lemma smartConfig_settings (providerStatus : Smart.ProviderStatus) :
  let searchConfig :=
    Unified.mergeConfig Unified.defaultConfig (Smart.smartConfig providerStatus) in
  Unified.maxResults searchConfig = 10%Z
  /\ NoDup (Unified.keys (Unified.configProviders searchConfig)).
Proof.
  cbn. split; [reflexivity|]. repeat constructor; simpl; intuition discriminate.
Qed.

(** What a search of the route returns or throws, with either
    configuration. *)
Lemma route_search_outcome (world : Unified.World) (vibeInput : string)
    (config : Unified.PartialSearchConfig) :
  let searchConfig := Unified.mergeConfig Unified.defaultConfig config in
  Unified.maxResults searchConfig = 10%Z ->
  NoDup (Unified.keys (Unified.configProviders searchConfig)) ->
  match result (Unified.searchMusic world vibeInput config Unified.start) with
  | Returns r =>
      (length (Unified.tracks r) <= 10)%nat
      /\ Unified.totalResults r = Z.of_nat (length (Unified.tracks r))
      /\ (forall t, In t (Unified.tracks r) ->
            In (Unified.provider t) (Unified.providers r))
      /\ NoDup (Unified.providers r)
      /\ incl (Unified.providers r) (Unified.enabledProviders searchConfig)
  | Throws message =>
      message = "No music providers enabled"
      /\ Unified.enabledProviders searchConfig = []
  end.
Proof.
  intros searchConfig Hmax Hkeys.
  destruct (result (Unified.searchMusic world vibeInput config Unified.start))
    as [r|message] eqn:E.
  - destruct (Unified.enabledProviders searchConfig) as [|p ps] eqn:Ep.
    + unfold Unified.searchMusic in E. fold searchConfig in E.
      rewrite searchWith_none_enabled in E by exact Ep. discriminate.
    + destruct (searchWith_consistent world vibeInput searchConfig Unified.start)
        as [r' [H1 [H2 [H3 [H4 [H5 H6]]]]]]; [rewrite Ep; discriminate|].
      unfold Unified.searchMusic in E. fold searchConfig in E.
      rewrite H1 in E. injection E as <-.
      split; [rewrite Hmax in H3; lia|]. split; [exact H2|]. split; [exact H4|].
      split; [now apply H6|]. now rewrite <- Ep.
  - now apply searchMusic_throws_only_when_none_enabled in E.
Qed.

(** X20.  The answers of the unified search route.  An error is answered 429,
    400 or 503: no failure of a provider reaches the route.  A success
    carries the trimmed input and at most ten tracks, [totalResults]
    counting them, each from one of the listed providers, which are
    listed once each. *)
Theorem unified_route_answers (world : World) (request : Request) (server : Server) :
  match fst (POST world request server) with
  | Success results totalResults providers searchTime providerStatus query timestamp =>
      (length results <= 10)%nat
      /\ totalResults = Z.of_nat (length results)
      /\ (forall t, In t results -> In (Unified.provider t) providers)
      /\ NoDup providers
      /\ query <> ""
      /\ (String.length query <= 150)%nat
  | Failure status _ _ _ => status = 429%Z \/ status = 400%Z \/ status = 503%Z
  end.
Proof.
  unfold POST, isRateLimited.
  destruct (RateLimit.isRateLimited _ _ _ _) as [[|] store]; cbn [fst]; [now left|].
  destruct (json request) as [body|]; cbn [chain]; [|right; now left].
  destruct (orValue (vibeInput body) (moodInput body)) as [|input|other];
    try (right; now left).
  destruct (negb (truthy (trim input)) || (150 <? String.length input)%nat) eqn:Ev;
    cbn [fst]; [right; now left|].
  apply orb_false_iff in Ev. destruct Ev as [Ev1 Ev2].
  apply negb_false_iff in Ev1. apply Nat.ltb_ge in Ev2.
  destruct (length (availableProviders (Smart.getProviderStatus (env world))) =? 0)%nat;
    cbn [fst]; [now right; right|].
  assert (H : match
                result
                  (if prefers (provider body)
                        (availableProviders (Smart.getProviderStatus (env world)))
                   then Unified.searchMusic (unified world) (trim input)
                          (customConfig (provider body)) Unified.start
                   else Smart.smartSearch (unified world) (env world) (trim input)
                          Unified.start)
              with
              | Returns r =>
                  (length (Unified.tracks r) <= 10)%nat
                  /\ Unified.totalResults r = Z.of_nat (length (Unified.tracks r))
                  /\ (forall t, In t (Unified.tracks r) ->
                        In (Unified.provider t) (Unified.providers r))
                  /\ NoDup (Unified.providers r)
              | Throws message => message = "No music providers enabled"
              end).
  { destruct (prefers _ _).
    - pose proof (route_search_outcome (unified world) (trim input)
                    (customConfig (provider body))
                    (proj1 (customConfig_settings _)) (proj2 (customConfig_settings _)))
        as H.
      destruct (result _) as [r|message]; [|now destruct H].
      destruct H as [H1 [H2 [H3 [H4 _]]]]. now repeat split.
    - unfold Smart.smartSearch.
      pose proof (route_search_outcome (unified world) (trim input)
                    (Smart.smartConfig (Smart.getProviderStatus (env world)))
                    (proj1 (smartConfig_settings _)) (proj2 (smartConfig_settings _)))
        as H.
      destruct (result _) as [r|message]; [|now destruct H].
      destruct H as [H1 [H2 [H3 [H4 _]]]]. now repeat split. }
  destruct (result _) as [r|message].
  - cbn [fst]. destruct H as [H1 [H2 [H3 H4]]].
    split; [exact H1|]. split; [exact H2|]. split; [exact H3|]. split; [exact H4|].
    split; [now apply truthy_not_empty|]. pose proof (trim_length input). lia.
  - subst message. cbn. now right; right.
Qed.

(** X21.  With valid input and Spotify configured, a request that names
    Spotify as its provider is answered 503, no provider being searched;
    the same request without a provider is answered 200. *)
Theorem asking_for_spotify_is_refused
    (world : World) (request : Request) (server : Server) (body : Body)
    (input : string) :
  fst (RateLimit.isRateLimited RATE_LIMIT (dateNow world) (getRateLimitKey request)
         (rateLimitStore server)) = false ->
  json request = Some body ->
  orValue (vibeInput body) (moodInput body) = Str input ->
  trim input <> "" ->
  (String.length input <= 150)%nat ->
  Smart.configured (Smart.spotifyStatus (Smart.getProviderStatus (env world))) = true ->
  (provider body = Str "spotify" ->
   fst (POST world request server)
   = Failure 503 "No music providers available." None
       (StatusField (Smart.getProviderStatus (env world)))
   /\ events (snd (POST world request server))
      = (events server ++ [Searched (trim input) []])%list)
  /\ (provider body = Undefined -> statusOf (fst (POST world request server)) = 200%Z).
Proof.
  intros Hl Hb Hi Ht Hlen Hc.
  assert (Ev : negb (truthy (trim input)) || (150 <? String.length input)%nat = false).
  { apply orb_false_iff. split.
    - destruct (trim input); [contradiction | reflexivity].
    - now apply Nat.ltb_ge. }
  assert (Ha : (length (availableProviders (Smart.getProviderStatus (env world))) =? 0)%nat
               = false).
  { unfold availableProviders, Smart.statusEntries.
    cbn [map filter snd fst Smart.statusOf]. rewrite Hc.
    destruct (Smart.configured (Smart.youtubeStatus _)),
             (Smart.configured (Smart.soundcloudStatus _)); reflexivity. }
  unfold POST, isRateLimited.
  destruct (RateLimit.isRateLimited _ _ _ _) as [limited store].
  cbn [fst] in Hl. subst limited. rewrite Hb. cbn [chain]. rewrite Hi, Ev, Ha.
  split.
  - intro Hp. rewrite Hp.
    assert (Hpref : prefers (Str "spotify")
                      (availableProviders (Smart.getProviderStatus (env world))) = true).
    { unfold prefers, availableProviders, Smart.statusEntries.
      cbn [map filter snd fst Smart.statusOf valueTruthy truthy andb]. rewrite Hc.
      destruct (Smart.configured (Smart.youtubeStatus _)),
               (Smart.configured (Smart.soundcloudStatus _)); reflexivity. }
    rewrite Hpref. split; reflexivity.
  - intro Hp. rewrite Hp. cbn [prefers valueTruthy andb].
    unfold Smart.smartSearch, Unified.searchMusic.
    destruct (searchWith_consistent (unified world) (trim input)
                (Unified.mergeConfig Unified.defaultConfig
                   (Smart.smartConfig (Smart.getProviderStatus (env world))))
                Unified.start (smartConfig_some_enabled _)) as [r [Hr _]].
    rewrite Hr. reflexivity.
Qed.

(** Spotify is the only provider configured, and the request names it. *)
Lemma asking_for_spotify_is_refused_witness :
  fst (POST Sample.unifiedWorld Sample.asksForSpotify Sample.freshServer)
  = Failure 503 "No music providers available." None
      (StatusField (Smart.getProviderStatus Sample.spotifyOnly))
  /\ events (snd (POST Sample.unifiedWorld Sample.asksForSpotify Sample.freshServer))
     = [Searched "chill beats" []].
Proof.
  refine (proj1 (asking_for_spotify_is_refused
                   Sample.unifiedWorld Sample.asksForSpotify Sample.freshServer
                   _ "  chill beats " _ eq_refl eq_refl _ _ _) eq_refl).
  - reflexivity.
  - discriminate.
  - cbn. lia.
  - reflexivity.
Defined.

End UnifiedRouteFacts.

(** ** Ranking without audio features, and the recency window *)

Section MoreRankingFacts.
Import Js Effect.

Lemma getAudioFeatures_nothing (world : Spotify.World) (trackIds : list string)
    (s : Spotify.Service) :
  (forall ids features,
     Spotify.audioFeaturesEndpoint world ids <> FetchOk (Some features)) ->
  exists s', Spotify.getAudioFeatures world trackIds s = (Returns [], s').
Proof.
  intro H. unfold Spotify.getAudioFeatures. destruct trackIds as [|i ids].
  - now exists s.
  - unfold tryCatch, bind.
    destruct (Spotify.getAccessToken world s) as [[token|message] s1].
    + unfold Spotify.send, modify.
      destruct (Spotify.audioFeaturesEndpoint world (i :: ids))
        as [|status|[features|]] eqn:E;
        unfold throw, ret; try (eexists; reflexivity).
      now apply H in E.
    + unfold ret. eexists. reflexivity.
Qed.

Lemma featuresAt_nil (index : nat) : Spotify.featuresAt [] index = None.
Proof. unfold Spotify.featuresAt. now destruct index. Qed.

(** Without audio features the mood score is 0 and the popularity ranks;
    a search that fails, fails with the message of the adapter. *)
Lemma spotify_without_features
    (world : Spotify.World) (vibeInput : string) (s : Spotify.Service) :
  (forall ids features,
     Spotify.audioFeaturesEndpoint world ids <> FetchOk (Some features)) ->
  match result (Spotify.searchMusic world vibeInput s) with
  | Returns r =>
      (forall t, In t (Spotify.tracks r) ->
         Spotify.audioFeatures t = None
         /\ Spotify.calculateMoodScore t vibeInput = 0)
      /\ StronglySorted (fun a b => (Spotify.popularity b <= Spotify.popularity a)%Z)
           (Spotify.tracks r)
  | Throws message => message = "Failed to search Spotify tracks"
  end.
Proof.
  intro Hnone. unfold Spotify.searchMusic, tryCatch, result.
  unfold bind at 1.
  destruct (Spotify.getAccessToken world s) as [[token|message] s1]; [|reflexivity].
  unfold bind at 1. unfold Spotify.send, modify.
  destruct (Spotify.searchEndpoint world (Spotify.buildSearchQuery world vibeInput))
    as [|status|[items|]]; cbn [fst]; try reflexivity;
    try (cbn; split; [intros t [] | constructor]).
  destruct items as [|item0 items0];
    [cbn; split; [intros t [] | constructor]|].
  set (items := item0 :: items0). clearbody items.
  destruct (filter Spotify.hasPreview items) as [|p ps] eqn:Ef;
    [cbn; split; [intros t [] | constructor]|].
  unfold bind.
  match goal with
  | |- context [Spotify.getAudioFeatures world ?ids ?st] =>
      destruct (getAudioFeatures_nothing world ids st Hnone) as [s2 ->]
  end.
  unfold ret. cbn [fst Spotify.tracks].
  set (transformed :=
         mapIndex (fun track index =>
                     Spotify.transformTrack track (Spotify.featuresAt [] index))
                  (p :: ps)).
  assert (Hf : forall t, In t transformed -> Spotify.audioFeatures t = None).
  { intros t Ht. unfold transformed, mapIndex in Ht.
    apply mapIndexFrom_in in Ht. destruct Ht as [item [i [_ ->]]].
    cbn [Spotify.transformTrack Spotify.audioFeatures]. apply featuresAt_nil. }
  assert (Hm : forall t, In t transformed -> Spotify.calculateMoodScore t vibeInput = 0).
  { intros t Ht. unfold Spotify.calculateMoodScore. now rewrite (Hf t Ht). }
  split.
  - intros t Ht. apply ranked_in in Ht. rewrite map_map in Ht. cbn [fst] in Ht.
    rewrite map_id in Ht. split; [now apply Hf | now apply Hm].
  - eapply sorted_impl;
      [|apply (sorted_map fst snd
                 (fun t => 0 + inject_Z (Spotify.popularity t) / 10)
                 (fun x y => y <= x))].
    + intros a b H. cbn beta in H. unfold Qdiv in H.
      change (/ 10) with (1 # 10) in H.
      rewrite Zle_Qle. Lqa.lra.
    + rewrite Forall_forall. intros x Hx. apply slice0_incl in Hx.
      apply (Permutation_in _ (sort_perm _ _)) in Hx.
      apply in_map_iff in Hx. destruct Hx as [t [<- Ht]]. cbn [fst snd].
      now rewrite (Hm t Ht).
    + apply slice0_sorted, spotify_byScore_sorted.
Qed.

(** With a token and an answer to the search, the search returns whatever
    the audio-features endpoint does, with the ten first tracks that have
    a preview, or all of them when they are fewer. *)
Lemma spotify_search_returns
    (world : Spotify.World) (vibeInput : string) (s s1 : Spotify.Service)
    (token : string) (items : list Spotify.Item) :
  Spotify.getAccessToken world s = (Returns token, s1) ->
  Spotify.searchEndpoint world (Spotify.buildSearchQuery world vibeInput)
  = FetchOk (Some items) ->
  (forall ids features,
     Spotify.audioFeaturesEndpoint world ids <> FetchOk (Some features)) ->
  exists r,
    result (Spotify.searchMusic world vibeInput s) = Returns r
    /\ length (Spotify.tracks r)
       = Nat.min 10 (length (filter Spotify.hasPreview items)).
Proof.
  intros Htoken Hsearch Hnone. unfold Spotify.searchMusic, tryCatch, result.
  unfold bind at 1. rewrite Htoken.
  unfold bind at 1. unfold Spotify.send, modify. cbn [fst]. rewrite Hsearch.
  destruct items as [|item0 items0]; [eexists; split; reflexivity|].
  set (items := item0 :: items0). clearbody items.
  destruct (filter Spotify.hasPreview items) as [|p ps] eqn:Ef;
    [eexists; split; reflexivity|].
  unfold bind.
  match goal with
  | |- context [Spotify.getAudioFeatures world ?ids ?st] =>
      destruct (getAudioFeatures_nothing world ids st Hnone) as [s2 ->]
  end.
  unfold ret. cbn [fst]. eexists. split; [reflexivity|].
  cbn [Spotify.tracks]. unfold slice0. change (0 <=? 10)%Z with true. cbv iota.
  change (Z.to_nat 10) with 10%nat.
  rewrite length_map, length_firstn, (Permutation_length (sort_perm _ _)), length_map.
  unfold mapIndex. now rewrite mapIndexFrom_length.
Qed.

(** X22.  When the adapter has its token and the search endpoint answers,
    the search returns although the audio-features endpoint gives no
    features (it rejects, answers with an error status, or answers without
    features).  It returns the ten first tracks that have a preview, or
    all of them when they are fewer: no track carries features, the mood
    score of each is 0, and the tracks stand in descending order of
    popularity. *)
Theorem without_audio_features_popularity_ranks
    (world : Spotify.World) (vibeInput : string) (s s1 : Spotify.Service)
    (token : string) (items : list Spotify.Item) :
  Spotify.getAccessToken world s = (Returns token, s1) ->
  Spotify.searchEndpoint world (Spotify.buildSearchQuery world vibeInput)
  = FetchOk (Some items) ->
  (forall ids features,
     Spotify.audioFeaturesEndpoint world ids <> FetchOk (Some features)) ->
  exists r,
    result (Spotify.searchMusic world vibeInput s) = Returns r
    /\ length (Spotify.tracks r)
       = Nat.min 10 (length (filter Spotify.hasPreview items))
    /\ (forall t, In t (Spotify.tracks r) ->
          Spotify.audioFeatures t = None
          /\ Spotify.calculateMoodScore t vibeInput = 0)
    /\ StronglySorted (fun a b => (Spotify.popularity b <= Spotify.popularity a)%Z)
         (Spotify.tracks r).
Proof.
  intros Htoken Hsearch Hnone.
  destruct (spotify_search_returns world vibeInput s s1 token items
              Htoken Hsearch Hnone) as [r [Hr Hl]].
  pose proof (spotify_without_features world vibeInput s Hnone) as Hp.
  rewrite Hr in Hp. destruct Hp as [H1 H2].
  exists r. repeat split; try assumption; now apply H1.
Qed.

(** The catalog of the scenarios answers the search with two hits that
    have a preview, and refuses the audio features: both are returned. *)
Lemma without_audio_features_popularity_ranks_witness :
  exists r,
    result (Spotify.searchMusic (Scenario.catalog Scenario.twoHits) "happy"
              Scenario.spotifyService) = Returns r
    /\ length (Spotify.tracks r) = 2%nat
    /\ (forall t, In t (Spotify.tracks r) ->
          Spotify.audioFeatures t = None
          /\ Spotify.calculateMoodScore t "happy" = 0)
    /\ StronglySorted (fun a b => (Spotify.popularity b <= Spotify.popularity a)%Z)
         (Spotify.tracks r).
Proof.
  apply (without_audio_features_popularity_ranks
           (Scenario.catalog Scenario.twoHits) "happy" Scenario.spotifyService
           Sample.withToken "BQD-token" Scenario.twoHits).
  - reflexivity.
  - reflexivity.
  - intros ids features. discriminate.
Defined.



Lemma ln_le (x y : R) : (0 < x -> x <= y -> ln x <= ln y)%R.
Proof.
  intros Hx [H|<-]; [|lra]. left. now apply ln_increasing.
Qed.

Lemma ln_10_pos : (0 < ln 10)%R.
Proof. rewrite <- ln_1. apply ln_increasing; lra. Qed.

Lemma log10_le (x y : R) : (0 < x -> x <= y -> Js.log10 x <= Js.log10 y)%R.
Proof.
  intros Hx Hxy. unfold Js.log10. apply Rmult_le_compat_r.
  - left. apply Rinv_0_lt_compat, ln_10_pos.
  - now apply ln_le.
Qed.

Lemma log10_pos (x : R) : (1 < x -> 0 < Js.log10 x)%R.
Proof.
  intro H. unfold Js.log10. apply Rdiv_lt_0_compat; [|apply ln_10_pos].
  rewrite <- ln_1. apply ln_increasing; lra.
Qed.

(** The share of the popularity in the score of a track. *)
Lemma popularity_share (maxPopularity fewer more : R) :
  (1 < maxPopularity)%R -> (0 < fewer)%R -> (fewer <= more)%R ->
  (Rmin (Js.log10 fewer / Js.log10 maxPopularity) 1 * 10
   <= Rmin (Js.log10 more / Js.log10 maxPopularity) 1 * 10)%R
  /\ ((maxPopularity <= fewer)%R ->
      (Rmin (Js.log10 fewer / Js.log10 maxPopularity) 1 * 10
       = Rmin (Js.log10 more / Js.log10 maxPopularity) 1 * 10)%R).
Proof.
  intros Hmax Hf Hfm.
  pose proof (log10_pos maxPopularity Hmax) as HL.
  pose proof (log10_le fewer more Hf Hfm) as Hlog.
  split.
  - apply Rmult_le_compat_r; [lra|]. apply Rle_min_compat_r.
    apply Rmult_le_compat_r; [|exact Hlog]. left. now apply Rinv_0_lt_compat.
  - intro Hcap.
    assert (H1 : (1 <= Js.log10 fewer / Js.log10 maxPopularity)%R).
    { apply (Rmult_le_reg_r (Js.log10 maxPopularity)); [exact HL|].
      unfold Rdiv. rewrite Rmult_assoc, Rinv_l by lra.
      rewrite Rmult_1_l, Rmult_1_r. apply log10_le; lra. }
    assert (H2 : (1 <= Js.log10 more / Js.log10 maxPopularity)%R).
    { apply (Rmult_le_reg_r (Js.log10 maxPopularity)); [exact HL|].
      unfold Rdiv. rewrite Rmult_assoc, Rinv_l by lra.
      rewrite Rmult_1_l, Rmult_1_r. apply log10_le; lra. }
    now rewrite !Rmin_right.
Qed.

(** X24.  More plays never lower the score of a track, and past ten million
    plays on YouTube, a million elsewhere, they no longer raise it. *)
Theorem more_plays_never_rank_lower
    (dateNow : Z) (track : Unified.UnifiedTrack) (searchContext : string)
    (fewer more : Z) :
  (0 <= fewer <= more)%Z ->
  (Unified.scoreTrack dateNow (Sample.played track fewer) searchContext
   <= Unified.scoreTrack dateNow (Sample.played track more) searchContext)%R
  /\ ((match Unified.provider track with
       | Unified.youtube => 10000000
       | _ => 1000000
       end <= fewer + 1)%Z ->
      Unified.scoreTrack dateNow (Sample.played track fewer) searchContext
      = Unified.scoreTrack dateNow (Sample.played track more) searchContext).
Proof.
  intros [H0 H1]. unfold Unified.scoreTrack, Sample.played.
  cbn [Unified.title Unified.provider Unified.popularity Unified.duration
       Unified.genre Unified.publishedAt].
  assert (Hf : (0 < IZR fewer + 1)%R) by (apply IZR_le in H0; lra).
  assert (Hfm : (IZR fewer + 1 <= IZR more + 1)%R) by (apply IZR_le in H1; lra).
  destruct (Unified.provider track).
  - destruct (popularity_share 10000000 (IZR fewer + 1) (IZR more + 1))
      as [P1 P2]; [lra | exact Hf | exact Hfm |].
    split; [now apply Rplus_le_compat_r|].
    intro Hcap. rewrite P2; [reflexivity|].
    apply IZR_le in Hcap. rewrite plus_IZR in Hcap. exact Hcap.
  - destruct (popularity_share 1000000 (IZR fewer + 1) (IZR more + 1))
      as [P1 P2]; [lra | exact Hf | exact Hfm |].
    split; [now apply Rplus_le_compat_r|].
    intro Hcap. rewrite P2; [reflexivity|].
    apply IZR_le in Hcap. rewrite plus_IZR in Hcap. exact Hcap.
  - destruct (popularity_share 1000000 (IZR fewer + 1) (IZR more + 1))
      as [P1 P2]; [lra | exact Hf | exact Hfm |].
    split; [now apply Rplus_le_compat_r|].
    intro Hcap. rewrite P2; [reflexivity|].
    apply IZR_le in Hcap. rewrite plus_IZR in Hcap. exact Hcap.
Qed.

Lemma more_plays_never_rank_lower_witness :
  (Unified.scoreTrack Scenario.june2024 (Sample.played Scenario.newRelease 1000) "awake"
   <= Unified.scoreTrack Scenario.june2024 (Sample.played Scenario.newRelease 250000)
        "awake")%R.
Proof.
  apply (more_plays_never_rank_lower Scenario.june2024 Scenario.newRelease "awake"
           1000 250000).
  lia.
Defined.

End MoreRankingFacts.
